(** * Live bidding platform: the real-time bidding engine

    A shallow embedding of the bid-admission path of the platform:

    - the three Redis Lua scripts ([place-bid.lua], [extend-auction.lua],
      the finalize-auction script) as functions on an explicit Redis store;
    - [BidService.placeBid], [BidService.checkAndExtendAuction] and
      [AuctionService.loadAuctionToRedis] on top of them;
    - the PostgreSQL mirror ([AuctionRepository.update],
      [BidRepository.create]) and the BullMQ workers
      ([processBidPersistence], [processAuctionFinalization]);
    - the Socket.io gateway handlers ([initializeSocketServer],
      [registerBidHandlers]).

    Modelling conventions.

    - A Redis hash [auction:{id}] is a record with one field per hash field
      written by [loadAuctionToRedis].  Fields which the scripts read with a
      Lua fallback ([tonumber(x) or ...], [not x or x == '']) are options,
      [None] standing for Lua's [nil].
    - Money values are Lua numbers.  The scripts are written once, over the
      interface [LuaNumber]; it has two instances: [Binary64] (IEEE-754
      doubles, what Redis' Lua 5.1 and JavaScript compute with) and [Cents]
      (exact decimals with two fractional digits, counted in integer cents,
      the arithmetic the amounts are meant to have).  A number that a script
      writes with [tostring] is kept as the number [tonumber] reads back
      from that string ([num_tostring]).
    - Times are integral epoch seconds (the callers pass
      [Math.floor(Date.now() / 1000)]) and are modelled in [Z].
    - [cjson.encode]d result tables are constructors carrying the payload. *)

From Stdlib Require Import ZArith Bool Lia PrimFloat Uint63 Floats.
From stdpp Require Import gmap strings list.

Local Open Scope Z_scope.

(* ===================================================================== *)
(** ** Lua numbers *)
(* ===================================================================== *)

(** The operations the scripts apply to money values.  [num_lt a b] is Lua's
    [a < b] and [num_le a b] is [a <= b]; Lua evaluates [a > b] as [b < a]
    and [a >= b] as [b <= a]. *)
Class LuaNumber (N : Type) := {
  num_zero : N;
  num_add : N -> N -> N;
  num_lt : N -> N -> bool;
  num_le : N -> N -> bool;
  num_eqb : N -> N -> bool;
  (** [tonumber] of the decimal string with two fractional digits that
      denotes [c] cents, e.g. [tonumber "150.00"] for [c = 15000]. *)
  tonumber_decimal : Z -> N;
  (** [tonumber(tostring(x))]: the number a field holds that was written
      as [tostring(x)]. *)
  num_tostring : N -> N
}.

(** NaN is the number that differs from itself ([isNaN(x)] in JavaScript,
    [x ~= x] in Lua). *)
Definition isNaN {N : Type} `{LuaNumber N} (x : N) : bool := negb (num_eqb x x).

(** Exact decimal arithmetic in integer cents; every amount is written and
    read back exactly. *)
#[export] Instance Cents : LuaNumber Z := {|
  num_zero := 0;
  num_add := Z.add;
  num_lt := Z.ltb;
  num_le := Z.leb;
  num_eqb := Z.eqb;
  tonumber_decimal := fun c => c;
  num_tostring := fun c => c
|}.

(** *** Decimal strings and doubles

    Lua 5.1 prints a number with [sprintf("%.14g")] and reads one with
    [strtod]; both round correctly, ties to even. *)

(** The integer nearest to [n / d] (for [0 <= n], [0 < d]), ties to even. *)
Definition round_half_even (n d : Z) : Z :=
  let q := n / d in
  let r := n mod d in
  if 2 * r <? d then q
  else if d <? 2 * r then q + 1
  else if Z.even q then q else q + 1.

(** The fraction [n / d] divided by [b ^ k]. *)
Definition scale_by (b n d k : Z) : Z * Z :=
  if 0 <=? k then (n, d * b ^ k) else (n * b ^ (- k), d).

(** The exponent [k] with [b ^ lo <= (n / d) / b ^ k < b ^ (lo + 1)],
    searched from an estimate that is off by a few units at most. *)
Fixpoint normalise (fuel : nat) (b lo n d k : Z) : Z :=
  match fuel with
  | O => k
  | S fuel' =>
      let '(n', d') := scale_by b n d k in
      if n' <? b ^ lo * d' then normalise fuel' b lo n d (k - 1)
      else if b ^ (lo + 1) * d' <=? n' then normalise fuel' b lo n d (k + 1)
      else k
  end.

(** The decimal with [digits] significant digits nearest to [n / d] > 0, as
    a fraction: the number that ["%.<digits>g"] prints. *)
Definition round_decimal (digits n d : Z) : Z * Z :=
  let k0 := (Z.log2 n - Z.log2 d) * 30103 / 100000 - (digits - 1) in
  let k := normalise 8 10 (digits - 1) n d k0 in
  let '(n', d') := scale_by 10 n d k in
  let m := round_half_even n' d' in
  if 0 <=? k then (m * 10 ^ k, 1) else (m, 10 ^ (- k)).

(** The double nearest to [n / d] > 0: the number that [strtod] reads. *)
Definition nearest_double (n d : Z) : float :=
  let e0 := Z.log2 n - Z.log2 d - 52 in
  let e := Z.max (-1074) (normalise 8 2 52 n d e0) in
  let '(n', d') := scale_by 2 n d e in
  let m := round_half_even n' d' in
  Z.ldexp (PrimFloat.of_uint63 (Uint63.of_Z m)) e.

(** The value [m * 2 ^ e] of a finite double as a fraction. *)
Definition fraction_of (m : positive) (e : Z) : Z * Z :=
  if 0 <=? e then (Z.pos m * 2 ^ e, 1) else (Z.pos m, 2 ^ (- e)).

(** [tonumber(tostring(x))] on doubles: fourteen significant digits are
    kept.  Zeros, infinities ("inf") and NaN ("nan") are read back as they
    are. *)
Definition float_tostring (x : float) : float :=
  match Prim2SF x with
  | S754_finite s m e =>
      let '(n, d) := fraction_of m e in
      let '(n', d') := round_decimal 14 n d in
      let y := nearest_double n' d' in
      if s then PrimFloat.opp y else y
  | _ => x
  end.

(** [tonumber] of the decimal string that denotes [c] cents. *)
Definition float_of_cents (c : Z) : float :=
  if c =? 0 then PrimFloat.zero
  else if 0 <? c then nearest_double c 100
  else PrimFloat.opp (nearest_double (- c) 100).

(** Binary64 arithmetic. *)
#[export] Instance Binary64 : LuaNumber float := {|
  num_zero := PrimFloat.zero;
  num_add := PrimFloat.add;
  num_lt := PrimFloat.ltb;
  num_le := PrimFloat.leb;
  num_eqb := PrimFloat.eqb;
  tonumber_decimal := float_of_cents;
  num_tostring := float_tostring
|}.

(* ===================================================================== *)
(** ** The hot store (Redis) *)
(* ===================================================================== *)

(** [CREATE TYPE auction_status AS ENUM (...)]. *)
Inductive Status := draft | scheduled | active | ended | cancelled.

Definition status_eqb (a b : Status) : bool :=
  match a, b with
  | draft, draft | scheduled, scheduled | active, active
  | ended, ended | cancelled, cancelled => true
  | _, _ => false
  end.

Section HotStore.
Context {N : Type} `{LuaNumber N}.

(** The hash [auction:{auctionId}]. *)
Record AuctionHash := mkAuctionHash {
  h_id : string;
  h_title : string;
  h_seller_id : string;
  h_starting_price : N;
  h_current_bid : option N;
  h_bid_increment : option N;
  h_highest_bidder_id : option string;
  h_total_bids : option Z;
  h_start_time : Z;
  h_end_time : Z;
  h_original_end_time : Z;
  h_status : Status
}.

(** A member of the sorted set [auction:{auctionId}:bids]: the table that
    place-bid.lua encodes with [cjson.encode]; [amount] and [previous_bid]
    are the numbers of the strings [tostring] wrote. *)
Record BidEntry := mkBidEntry {
  bidder_id : string;
  amount : N;
  time : Z;
  previous_bid : N
}.

Definition bid_entry_eqb (a b : BidEntry) : bool :=
  String.eqb (bidder_id a) (bidder_id b) && num_eqb (amount a) (amount b)
  && Z.eqb (time a) (time b) && num_eqb (previous_bid a) (previous_bid b).

(** The Redis keyspace the engine uses. *)
Record Store := mkStore {
  hashes : gmap string AuctionHash;          (* auction:{id} *)
  bid_sets : gmap string (list (BidEntry * N)); (* auction:{id}:bids, member and score *)
  active_index : gmap string Z;              (* auctions:active, member -> score *)
  expire_at : gmap string Z;                 (* EXPIREAT deadlines *)
  rate_limit : gset string                   (* rate_limit:bid:{bidderId} keys *)
}.

Definition with_hashes (s : Store) (m : gmap string AuctionHash) : Store :=
  mkStore m (bid_sets s) (active_index s) (expire_at s) (rate_limit s).
Definition with_bid_sets (s : Store) (m : gmap string (list (BidEntry * N))) : Store :=
  mkStore (hashes s) m (active_index s) (expire_at s) (rate_limit s).
Definition with_active_index (s : Store) (m : gmap string Z) : Store :=
  mkStore (hashes s) (bid_sets s) m (expire_at s) (rate_limit s).
Definition with_expire_at (s : Store) (m : gmap string Z) : Store :=
  mkStore (hashes s) (bid_sets s) (active_index s) m (rate_limit s).
Definition with_rate_limit (s : Store) (m : gset string) : Store :=
  mkStore (hashes s) (bid_sets s) (active_index s) (expire_at s) m.

(** *** Redis commands *)

Definition HGETALL (s : Store) (key : string) : option AuctionHash :=
  hashes s !! key.

Definition EXISTS (s : Store) (key : string) : bool :=
  bool_decide (is_Some (hashes s !! key)) || bool_decide (is_Some (bid_sets s !! key)).

(** [HSET key field value ...] on a hash the caller has found to exist. *)
Definition HSET (s : Store) (key : string) (set : AuctionHash -> AuctionHash) : Store :=
  with_hashes s (alter set key (hashes s)).

Definition set_current_bid (v : N) (h : AuctionHash) : AuctionHash :=
  mkAuctionHash (h_id h) (h_title h) (h_seller_id h) (h_starting_price h)
    (Some v) (h_bid_increment h) (h_highest_bidder_id h) (h_total_bids h)
    (h_start_time h) (h_end_time h) (h_original_end_time h) (h_status h).
Definition set_highest_bidder_id (v : string) (h : AuctionHash) : AuctionHash :=
  mkAuctionHash (h_id h) (h_title h) (h_seller_id h) (h_starting_price h)
    (h_current_bid h) (h_bid_increment h) (Some v) (h_total_bids h)
    (h_start_time h) (h_end_time h) (h_original_end_time h) (h_status h).
Definition set_total_bids (v : Z) (h : AuctionHash) : AuctionHash :=
  mkAuctionHash (h_id h) (h_title h) (h_seller_id h) (h_starting_price h)
    (h_current_bid h) (h_bid_increment h) (h_highest_bidder_id h) (Some v)
    (h_start_time h) (h_end_time h) (h_original_end_time h) (h_status h).
Definition set_end_time (v : Z) (h : AuctionHash) : AuctionHash :=
  mkAuctionHash (h_id h) (h_title h) (h_seller_id h) (h_starting_price h)
    (h_current_bid h) (h_bid_increment h) (h_highest_bidder_id h) (h_total_bids h)
    (h_start_time h) v (h_original_end_time h) (h_status h).
Definition set_status (v : Status) (h : AuctionHash) : AuctionHash :=
  mkAuctionHash (h_id h) (h_title h) (h_seller_id h) (h_starting_price h)
    (h_current_bid h) (h_bid_increment h) (h_highest_bidder_id h) (h_total_bids h)
    (h_start_time h) (h_end_time h) (h_original_end_time h) v.

(** [HINCRBY key total_bids by]: an absent field counts as 0; the new value
    is returned. *)
Definition HINCRBY_total_bids (s : Store) (key : string) (by_ : Z) : Z * Store :=
  let old := match hashes s !! key with
             | Some h => default 0 (h_total_bids h)
             | None => 0
             end in
  (old + by_, HSET s key (set_total_bids (old + by_))).

(** [ZADD key score member] on a bid set: a member already present gets the
    new score, a new member is added. *)
Fixpoint zadd (l : list (BidEntry * N)) (score : N) (member : BidEntry)
  : list (BidEntry * N) :=
  match l with
  | [] => [(member, score)]
  | (m, sc) :: l' =>
      if bid_entry_eqb m member then (m, score) :: l'
      else (m, sc) :: zadd l' score member
  end.

Definition ZADD_bids (s : Store) (key : string) (score : N) (member : BidEntry) : Store :=
  with_bid_sets s (<[key := zadd (default [] (bid_sets s !! key)) score member]> (bid_sets s)).

Definition ZADD_active (s : Store) (score : Z) (member : string) : Store :=
  with_active_index s (<[member := score]> (active_index s)).

Definition ZREM_active (s : Store) (member : string) : Store :=
  with_active_index s (delete member (active_index s)).

(** [EXPIREAT key t] only applies to an existing key. *)
Definition EXPIREAT (s : Store) (key : string) (t : Z) : Store :=
  if EXISTS s key then with_expire_at s (<[key := t]> (expire_at s)) else s.

(* ===================================================================== *)
(** ** place-bid.lua *)
(* ===================================================================== *)

(** The replies of the script.  An amount of the payload is the number of
    the string the script puts there with [tostring]. *)
Inductive PlaceBidResult :=
| PB_OK (auction_id : string) (current_bid : N) (highest_bidder_id : string)
        (total_bids : Z) (previous_bid : N) (previous_bidder_id : string)
| PB_TOO_LOW (auction_id : string) (current_bid minimum_bid your_bid : N)
        (is_first_bid : bool)
| PB_ENDED (auction_id : string) (end_time current_time : Z)
| PB_NOT_FOUND
| PB_NOT_ACTIVE (auction_id : string) (status : Status)
| PB_SELLER_CANNOT_BID (auction_id : string)
| PB_INVALID_AMOUNT.

(** The [status] field of the encoded result. *)
Definition pb_status (r : PlaceBidResult) : Z :=
  match r with
  | PB_OK _ _ _ _ _ _ => 1
  | PB_TOO_LOW _ _ _ _ _ => 0
  | PB_ENDED _ _ _ => -1
  | PB_NOT_FOUND => -2
  | PB_NOT_ACTIVE _ _ => -3
  | PB_SELLER_CANNOT_BID _ => -4
  | PB_INVALID_AMOUNT => -5
  end.

(** [local isFirstBid = (not auction['highest_bidder_id']) or
    (auction['highest_bidder_id'] == '')]. *)
Definition isFirstBid (auction : AuctionHash) : bool :=
  match h_highest_bidder_id auction with
  | None => true
  | Some b => String.eqb b ""
  end.

(** [tonumber(auction['current_bid']) or tonumber(auction['starting_price'])]. *)
Definition currentBid (auction : AuctionHash) : N :=
  match h_current_bid auction with
  | Some c => c
  | None => h_starting_price auction
  end.

(** Lines 77-85: the increment in force for a call.  [bidIncrementInput] is
    [tonumber(ARGV[4])], [None] for the empty string. *)
Definition effectiveIncrement (auction : AuctionHash) (bidIncrementInput : option N) : N :=
  match bidIncrementInput with
  | Some i => if num_lt num_zero i then i
              else default num_zero (h_bid_increment auction)
  | None => default num_zero (h_bid_increment auction)
  end.

(** The script.  [bidAmount] is [tonumber(ARGV[1])], [None] when the argument
    is not a number; [currentTime] is [tonumber(ARGV[3])].

    The model covers the amounts the callers pass: [BidService.placeBid]
    is only called with a number that is not NaN (the [BID_PLACED] listener
    refuses NaN).  On the argument ["nan"] the real script passes every check
    and is aborted by Redis at [ZADD] (a NaN score is refused) after [HSET]
    and [HINCRBY] have been applied; that run is not represented here, and
    the properties that depend on it exclude NaN by hypothesis. *)
Definition place_bid (s : Store) (auctionKey : string)
    (bidAmount : option N) (bidderId : string) (currentTime : Z)
    (bidIncrementInput : option N) : PlaceBidResult * Store :=
  match HGETALL s auctionKey with
  | None => (PB_NOT_FOUND, s)
  | Some auction =>
    let bidIncrement := effectiveIncrement auction bidIncrementInput in
    match bidAmount with
    | None => (PB_INVALID_AMOUNT, s)
    | Some bidAmount =>
      if num_le bidAmount num_zero then (PB_INVALID_AMOUNT, s)
      else
      let auctionId := h_id auction in
      if negb (status_eqb (h_status auction) active) then
        (PB_NOT_ACTIVE auctionId (h_status auction), s)
      else
      let endTime := h_end_time auction in
      if endTime <=? currentTime then
        (PB_ENDED auctionId endTime currentTime, s)
      else if String.eqb bidderId (h_seller_id auction) then
        (PB_SELLER_CANNOT_BID auctionId, s)
      else
      let isFirst := isFirstBid auction in
      let current := currentBid auction in
      let minimum := if isFirst then h_starting_price auction
                     else num_add current bidIncrement in
      if num_lt bidAmount minimum then
        (PB_TOO_LOW auctionId (num_tostring current) (num_tostring minimum)
                    (num_tostring bidAmount) isFirst, s)
      else
      let previousBid := current in
      let previousBidder := h_highest_bidder_id auction in
      let s1 := HSET s auctionKey
                  (fun h => set_highest_bidder_id bidderId
                              (set_current_bid (num_tostring bidAmount) h)) in
      let '(totalBids, s2) := HINCRBY_total_bids s1 auctionKey 1 in
      let bidData := mkBidEntry bidderId (num_tostring bidAmount) currentTime
                       (num_tostring previousBid) in
      let bidsKey := auctionKey +:+ ":bids" in
      let s3 := ZADD_bids s2 bidsKey bidAmount bidData in
      let s4 := EXPIREAT s3 bidsKey (endTime + 86400) in
      (PB_OK auctionId (num_tostring bidAmount) bidderId totalBids
             (num_tostring previousBid) (default "none" previousBidder), s4)
    end
  end.

(* ===================================================================== *)
(** ** extend-auction.lua *)
(* ===================================================================== *)

Inductive ExtendResult :=
| EX_EXTENDED (auction_id : string)
    (old_end_time new_end_time extended_by time_remaining : Z)
| EX_NOT_EXTENDED (auction_id : string) (end_time time_remaining : Z)
| EX_NOT_FOUND
| EX_NOT_ACTIVE (auction_id : string) (status : Status).

Definition ex_status (r : ExtendResult) : Z :=
  match r with
  | EX_EXTENDED _ _ _ _ _ => 1
  | EX_NOT_EXTENDED _ _ _ => 0
  | EX_NOT_FOUND => -1
  | EX_NOT_ACTIVE _ _ => -2
  end.

(** [EXISTS] and [HGETALL] on the auction key are one lookup here: the key
    holds a hash or is absent. *)
Definition extend_auction (s : Store) (auctionKey : string)
    (currentTime extensionThreshold extensionDuration : Z) : ExtendResult * Store :=
  match HGETALL s auctionKey with
  | None => (EX_NOT_FOUND, s)
  | Some auction =>
    let auctionId := h_id auction in
    if negb (status_eqb (h_status auction) active) then
      (EX_NOT_ACTIVE auctionId (h_status auction), s)
    else
    let endTime := h_end_time auction in
    let timeRemaining := endTime - currentTime in
    if (0 <? timeRemaining) && (timeRemaining <=? extensionThreshold) then
      let newEndTime := endTime + extensionDuration in
      let s1 := HSET s auctionKey (set_end_time newEndTime) in
      let s2 := ZADD_active s1 newEndTime auctionId in
      let s3 := EXPIREAT s2 auctionKey (newEndTime + 86400) in
      (EX_EXTENDED auctionId endTime newEndTime extensionDuration timeRemaining, s3)
    else
      (EX_NOT_EXTENDED auctionId endTime timeRemaining, s)
  end.

(* ===================================================================== *)
(** ** The finalize-auction script *)
(* ===================================================================== *)

(** The replies of the script; [reserve_price], which no code stores in the
    hash, is left out of the payload. *)
Inductive FinalizeResult :=
| FIN_FINALIZED (auction_id : string) (winner_id : option string)
    (winning_bid : option N) (total_bids : Z) (end_time : Z) (starting_price : N)
| FIN_NO_BIDS (auction_id : string) (total_bids : Z) (starting_price : N)
| FIN_NOT_FOUND
| FIN_NOT_ENDED (auction_id : string) (end_time current_time time_remaining : Z)
| FIN_ALREADY_FINAL (auction_id : string) (status : Status).

Definition fin_status (r : FinalizeResult) : Z :=
  match r with
  | FIN_FINALIZED _ _ _ _ _ _ => 1
  | FIN_NO_BIDS _ _ _ => 0
  | FIN_NOT_FOUND => -1
  | FIN_NOT_ENDED _ _ _ _ => -2
  | FIN_ALREADY_FINAL _ _ => -3
  end.

Definition finalize_auction (s : Store) (auctionKey : string) (currentTime : Z)
  : FinalizeResult * Store :=
  match HGETALL s auctionKey with
  | None => (FIN_NOT_FOUND, s)
  | Some auction =>
    let auctionId := h_id auction in
    if status_eqb (h_status auction) ended then
      (FIN_ALREADY_FINAL auctionId (h_status auction), s)
    else
    let endTime := h_end_time auction in
    if currentTime <? endTime then
      (FIN_NOT_ENDED auctionId endTime currentTime (endTime - currentTime), s)
    else
    let winnerId := h_highest_bidder_id auction in
    let winningBid := h_current_bid auction in
    let totalBids := default 0 (h_total_bids auction) in
    let s1 := HSET s auctionKey (set_status ended) in
    let s2 := ZREM_active s1 auctionId in
    let s3 := EXPIREAT s2 auctionKey (currentTime + 86400) in
    (* [totalBids > 0 and winnerId]: any string, the empty one too, is true *)
    if (0 <? totalBids) && bool_decide (is_Some winnerId) then
      (FIN_FINALIZED auctionId winnerId winningBid totalBids endTime
                     (h_starting_price auction), s3)
    else
      (FIN_NO_BIDS auctionId totalBids (h_starting_price auction), s3)
  end.

End HotStore.

Arguments AuctionHash N : clear implicits.
Arguments BidEntry N : clear implicits.
Arguments Store N : clear implicits.
Arguments PlaceBidResult N : clear implicits.
Arguments FinalizeResult N : clear implicits.

Arguments ExtendResult : clear implicits.

(* ===================================================================== *)
(** ** The cold store (PostgreSQL) *)
(* ===================================================================== *)

(** The outcome of a query: rows, or the SQLSTATE of the error [pg] throws. *)
Inductive DbResult (A : Type) :=
| DbOk (a : A)
| DbError (sqlstate : string).
Arguments DbOk {A} a.
Arguments DbError {A} sqlstate.

(** [x || null] for an optional string. *)
Definition or_null (x : option string) : option string :=
  match x with
  | Some v => if String.eqb v "" then None else Some v
  | None => None
  end.

(** A number sent as a query parameter for a [DECIMAL(12, 2)] column:
    node-postgres sends its decimal string and PostgreSQL rounds it to two
    fractional digits, or refuses it when ten integer digits do not hold it
    (SQLSTATE 22003).  The conversion belongs to the driver and the
    database; the repositories are written over it. *)
Class PgNumeric (N : Type) := {
  numeric_12_2 : N -> option N
}.

(** In exact decimals: the amounts below 10^10, unchanged. *)
#[export] Instance Cents_numeric : PgNumeric Z := {|
  numeric_12_2 := fun c =>
    if (- 10 ^ 12 <? c) && (c <? 10 ^ 12) then Some c else None
|}.

Section ColdStore.
Context {N : Type} `{LuaNumber N}.

(** A row of [auctions]: the columns the engine reads or writes.  Ids are
    strings that stand for UUIDs, times are epoch milliseconds, [None] is
    SQL NULL.  Of the columns left out, [updated_at] is set to the time of
    the statement by a trigger on every UPDATE. *)
Record AuctionRow := mkAuctionRow {
  r_id : string;
  r_seller_id : string;
  r_title : string;
  r_starting_price : N;
  r_current_bid : option N;
  r_bid_increment : N;
  r_highest_bidder_id : option string;
  r_total_bids : Z;
  r_start_time : Z;
  r_end_time : Z;
  r_original_end_time : Z;
  r_status : Status
}.

(** A row of [bids]. *)
Record BidRow := mkBidRow {
  b_id : nat;
  b_auction_id : string;
  b_bidder_id : string;
  b_amount : N;
  b_bid_time : Z;
  b_previous_bid : option N;
  b_is_winning : bool;
  b_ip_address : option string;
  b_user_agent : option string
}.

Record ColdStore := mkColdStore {
  (** the ids of [users] *)
  users : gset string;
  auctions : gmap string AuctionRow;
  bids : list BidRow;
  (** the next value of [uuid_generate_v4()], the default of [bids.id] *)
  next_uuid : nat
}.

(** The [updates] object of [AuctionRepository.update] with the keys its
    callers pass: a field is [Some] when the key is present. *)
Record Updates := mkUpdates {
  u_current_bid : option (option N);
  u_highest_bidder_id : option (option string);
  u_total_bids : option Z;
  u_status : option Status
}.

Definition apply_updates (updates : Updates) (r : AuctionRow) : AuctionRow :=
  mkAuctionRow (r_id r) (r_seller_id r) (r_title r) (r_starting_price r)
    (default (r_current_bid r) (u_current_bid updates))
    (r_bid_increment r)
    (default (r_highest_bidder_id r) (u_highest_bidder_id updates))
    (default (r_total_bids r) (u_total_bids updates))
    (r_start_time r)
    (r_end_time r)
    (r_original_end_time r)
    (default (r_status r) (u_status updates)).

(** The CHECK constraints of [auctions] that involve an updated column or a
    time: [valid_current_bid], [valid_time_range], [no_self_bid]. *)
Definition auction_checks (r : AuctionRow) : bool :=
  match r_current_bid r with Some c => num_le num_zero c | None => true end
  && (r_start_time r <? r_end_time r)
  && match r_highest_bidder_id r with
     | Some b => negb (String.eqb (r_seller_id r) b)
     | None => true
     end.

Definition no_updates (updates : Updates) : bool :=
  match u_current_bid updates, u_highest_bidder_id updates, u_total_bids updates,
        u_status updates with
  | None, None, None, None => true
  | _, _, _, _ => false
  end.

(** The range of an [INTEGER] column. *)
Definition int4 (n : Z) : bool := (- 2 ^ 31 <=? n) && (n <? 2 ^ 31).

End ColdStore.

Arguments AuctionRow N : clear implicits.
Arguments BidRow N : clear implicits.
Arguments ColdStore N : clear implicits.
Arguments Updates N : clear implicits.

Module AuctionRepository.
Section Queries.
Context {N : Type} `{LuaNumber N} `{PgNumeric N}.

(** [SELECT ... FROM auctions a JOIN users u ... WHERE a.id = $1]. *)
Definition findById (db : ColdStore N) (auctionId : string) : option (AuctionRow N) :=
  auctions db !! auctionId.

(** The values of the parameters as the columns hold them; [None] when one
    of them is out of the range of its column (22003). *)
Definition stored_updates (updates : Updates N) : option (Updates N) :=
  match u_current_bid updates with
  | Some (Some v) =>
      match numeric_12_2 v with
      | Some v' =>
          if match u_total_bids updates with Some n => int4 n | None => true end
          then Some (mkUpdates (Some (Some v')) (u_highest_bidder_id updates)
                       (u_total_bids updates) (u_status updates))
          else None
      | None => None
      end
  | _ =>
      if match u_total_bids updates with Some n => int4 n | None => true end
      then Some updates
      else None
  end.

(** The foreign key of [highest_bidder_id]: a new value names a user. *)
Definition bidder_reference_ok (db : ColdStore N) (old new : option string) : bool :=
  match new with
  | Some b => bool_decide (old = Some b) || bool_decide (b ∈ users db)
  | None => true
  end.

(** [UPDATE auctions SET <fields> WHERE id = $n RETURNING *]: the WHERE
    clause names the id and nothing else.  Without fields the statement is
    no SQL (42601); a row that breaks a CHECK constraint is refused with
    23514, one that breaks the foreign key with 23503. *)
Definition update (db : ColdStore N) (auctionId : string) (updates : Updates N)
  : DbResult (option (AuctionRow N)) * ColdStore N :=
  if no_updates updates then (DbError "42601", db)
  else
  match stored_updates updates with
  | None => (DbError "22003", db)
  | Some updates' =>
    match auctions db !! auctionId with
    | None => (DbOk None, db)
    | Some r =>
        let r' := apply_updates updates' r in
        if negb (auction_checks r') then (DbError "23514", db)
        else if negb (bidder_reference_ok db (r_highest_bidder_id r)
                        (r_highest_bidder_id r'))
        then (DbError "23503", db)
        else
          (DbOk (Some r'),
           mkColdStore (users db) (<[auctionId := r']> (auctions db)) (bids db)
             (next_uuid db))
    end
  end.

End Queries.
End AuctionRepository.

Module BidRepository.
Section Queries.
Context {N : Type} `{LuaNumber N} `{PgNumeric N}.

(** The [bidData] object of [BidRepository.create]. *)
Record BidData := mkBidData {
  bd_auction_id : string;
  bd_bidder_id : string;
  bd_amount : N;
  bd_bid_time : option Z;
  bd_previous_bid : option N;
  bd_is_winning : bool;
  bd_ip_address : option string;
  bd_user_agent : option string
}.

(** [create]: the INSERT into [bids], [now] being the reading of the clock
    for [bid_time || new Date()].  The statement names no [id]: the row gets
    the next generated key.  The amounts are stored as [DECIMAL(12, 2)]
    (22003 when out of range); the CHECK constraints [positive_bid_amount]
    and [no_self_bid_check] (23514) and the foreign keys to [auctions] and
    [users] (23503) are those the schema declares for the table.  The
    address, when there is one, is taken to be one that the [INET] column
    accepts. *)
Definition create (db : ColdStore N) (now : Z) (bidData : BidData)
  : DbResult (BidRow N) * ColdStore N :=
  match numeric_12_2 (bd_amount bidData),
        match bd_previous_bid bidData with
        | Some p => option_map Some (numeric_12_2 p)
        | None => Some None
        end with
  | Some amount, Some previous_bid =>
      if negb (num_lt num_zero amount) then (DbError "23514", db)
      else
      match auctions db !! bd_auction_id bidData with
      | Some a =>
          if String.eqb (r_seller_id a) (bd_bidder_id bidData) then (DbError "23514", db)
          else if negb (bool_decide (bd_bidder_id bidData ∈ users db))
          then (DbError "23503", db)
          else
            let row := mkBidRow (next_uuid db) (bd_auction_id bidData)
                         (bd_bidder_id bidData) amount
                         (default now (bd_bid_time bidData)) previous_bid
                         (bd_is_winning bidData) (or_null (bd_ip_address bidData))
                         (or_null (bd_user_agent bidData)) in
            (DbOk row,
             mkColdStore (users db) (auctions db) (bids db ++ [row]) (S (next_uuid db)))
      | None => (DbError "23503", db)
      end
  | _, _ => (DbError "22003", db)
  end.

End Queries.

Arguments BidData N : clear implicits.

End BidRepository.

(* ===================================================================== *)
(** ** workers/bid-persistence.worker.js *)
(* ===================================================================== *)

(** What a job processor does: it returns a result, or throws and BullMQ
    retries the job. *)
Inductive JobOutcome (R : Type) :=
| Completed (r : R)
| Thrown (code : string).
Arguments Completed {R} r.
Arguments Thrown {R} code.

Section Workers.
Context {N : Type} `{LuaNumber N} `{PgNumeric N}.

(** [job.data] of a persist-bid job, as [BidService.placeBid] builds it.
    [j_amount] is the number of the bid; [j_previousBid] is the number that
    [parseFloat] reads from the string of the script's reply, [None] when
    the field is absent; an absent [bidId] is [None]. *)
Record PersistBidJob := mkPersistBidJob {
  j_auctionId : string;
  j_bidderId : string;
  j_amount : N;
  j_currentTime : option Z;
  j_previousBid : option N;
  j_totalBids : option Z;
  j_ipAddress : option string;
  j_userAgent : option string;
  j_bidId : option string
}.

Inductive PersistResult :=
| already_persisted (bidId : string)
| persisted_all (bidId : nat) (auctionId : string) (amount : N)
| duplicate (auctionId : string).

(** The [catch] block of [processBidPersistence]. *)
Definition catch_persist (auctionId code : string) : JobOutcome PersistResult :=
  if String.eqb code "23505" then Completed (duplicate auctionId)
  else Thrown code.

(** [new Date(currentTime ? currentTime * 1000 : Date.now())], in epoch
    milliseconds; [now] is the reading of [Date.now()]. *)
Definition persist_bid_time (now : Z) (job : PersistBidJob) : Z :=
  match j_currentTime job with
  | Some t => if t =? 0 then now else t * 1000
  | None => now
  end.

(** The object passed to [bidRepository.create]. *)
Definition persist_bid_data (now : Z) (job : PersistBidJob) : BidRepository.BidData N :=
  BidRepository.mkBidData (j_auctionId job) (j_bidderId job) (j_amount job)
    (Some (persist_bid_time now job)) (j_previousBid job) true
    (j_ipAddress job) (j_userAgent job).

(** The mirror update of the auction row: [current_bid], [highest_bidder_id]
    and [total_bids] ([parseInt(job.data.totalBids || 0, 10)]). *)
Definition persist_updates (job : PersistBidJob) : Updates N :=
  mkUpdates (Some (Some (j_amount job))) (Some (Some (j_bidderId job)))
            (Some (default 0 (j_totalBids job))) None.

(** [processBidPersistence].  The idempotency check calls
    [bidRepository.findById], which [BidRepository] does not define: for a
    job with a [bidId] the call throws a TypeError, which the [catch] block
    rethrows. *)
Definition processBidPersistence (db : ColdStore N) (now : Z) (job : PersistBidJob)
  : JobOutcome PersistResult * ColdStore N :=
  if negb (bool_decide (or_null (j_bidId job) = None))
  then (catch_persist (j_auctionId job) "TypeError", db)
  else
    match BidRepository.create db now (persist_bid_data now job) with
    | (DbError code, db1) => (catch_persist (j_auctionId job) code, db1)
    | (DbOk bid, db1) =>
      match AuctionRepository.update db1 (j_auctionId job) (persist_updates job) with
      | (DbError code, db2) => (catch_persist (j_auctionId job) code, db2)
      | (DbOk _, db2) =>
          (Completed (persisted_all (b_id bid) (j_auctionId job) (j_amount job)), db2)
      end
    end.

End Workers.

Arguments PersistBidJob N : clear implicits.
Arguments PersistResult N : clear implicits.

(* ===================================================================== *)
(** ** Queues, pub/sub and the services *)
(* ===================================================================== *)

(** What a service method does: it returns, or throws an [AppError]. *)
Inductive Raised (A : Type) :=
| Returned (a : A)
| AppError (code : string) (statusCode : Z).
Arguments Returned {A} a.
Arguments AppError {A} code statusCode.

Section Services.
Context {N : Type} `{LuaNumber N}.

(** BullMQ job ids as workers/queues.js builds them:
    [bid-${auctionId}-${bidderId}-${Date.now()}],
    [auction-update-${auctionId}-${Date.now()}], [finalize-${auctionId}]. *)
Inductive JobId :=
| bid_job_id (auctionId bidderId : string) (now : Z)
| auction_update_job_id (auctionId : string) (now : Z)
| finalize_job_id (auctionId : string).

(** What the services and workers hand to BullMQ and to Redis pub/sub, in
    order (the temporary [id] of a published bid is left out). *)
Inductive Effect :=
| EnqueuePersistBid (jobId : JobId) (data : PersistBidJob N)
| EnqueueAuctionUpdate (jobId : JobId) (auctionId : string) (endTime : Z)
| EnqueueFinalize (jobId : JobId) (auctionId : string) (delay : option Z)
| Publish_bid_placed (auctionId : string) (amount : N)
    (bidderId bidderUsername : string) (timestamp totalBids : Z) (previousBid : N)
    (extended : bool) (extensionData : option (Z * Z * Z))
| Publish_auction_ended (auctionId : string) (winnerId : option string)
    (winningBid : option N) (totalBids : Z) (endTime : Z).

Record System := mkSystem {
  redis : Store N;
  postgres : ColdStore N;
  effects : list Effect
}.

Definition with_redis (sys : System) (s : Store N) : System :=
  mkSystem s (postgres sys) (effects sys).
Definition emit_effect (sys : System) (e : Effect) : System :=
  mkSystem (redis sys) (postgres sys) (effects sys ++ [e]).

(** The successive readings of [Date.now()] (epoch milliseconds) during one
    call of [BidService.placeBid]. *)
Record Clock := mkClock {
  at_placeBid : Z;
  at_load : Z;
  at_schedule : Z;
  at_persist_job : Z;
  at_update_job : Z
}.

(** *** workers/queues.js *)

Definition addBidPersistenceJob (sys : System) (now : Z) (bidData : PersistBidJob N) : System :=
  emit_effect sys
    (EnqueuePersistBid (bid_job_id (j_auctionId bidData) (j_bidderId bidData) now) bidData).

Definition addAuctionUpdateJob (sys : System) (now : Z) (auctionId : string) (endTime : Z)
  : System :=
  emit_effect sys (EnqueueAuctionUpdate (auction_update_job_id auctionId now) auctionId endTime).

Definition scheduleAuctionFinalization (sys : System) (now : Z) (auctionId : string)
    (endTime : Z) : System :=
  let delay := endTime - now in
  if delay <=? 0 then
    emit_effect sys (EnqueueFinalize (finalize_job_id auctionId) auctionId None)
  else
    emit_effect sys (EnqueueFinalize (finalize_job_id auctionId) auctionId (Some delay)).

(** *** AuctionService.loadAuctionToRedis *)

Definition auction_key (auctionId : string) : string := "auction:" +:+ auctionId.

Definition loadAuctionToRedis (sys : System) (now now_schedule : Z) (auction : AuctionRow N)
  : System :=
  let auctionKey := auction_key (r_id auction) in
  let endTime := r_end_time auction / 1000 in
  let currentTime := now / 1000 in
  let ttl := endTime - currentTime in
  if ttl <=? 0 then sys
  else
    let hash := mkAuctionHash (r_id auction) (r_title auction) (r_seller_id auction)
                  (r_starting_price auction)
                  (Some (default (r_starting_price auction) (r_current_bid auction)))
                  (Some (r_bid_increment auction))
                  (Some (default "" (r_highest_bidder_id auction)))
                  (Some (r_total_bids auction))
                  (r_start_time auction / 1000) endTime
                  (r_original_end_time auction / 1000) (r_status auction) in
    let s1 := with_hashes (redis sys) (<[auctionKey := hash]> (hashes (redis sys))) in
    let s2 := EXPIREAT s1 auctionKey (currentTime + (ttl + 86400)) in
    let s3 := ZADD_active s2 endTime (r_id auction) in
    scheduleAuctionFinalization (with_redis sys s3) now_schedule (r_id auction)
      (r_end_time auction).

(** *** redis/scripts.js: the LuaScriptManager *)

(** [LuaScriptManager.placeBid]: it runs place-bid.lua with
    KEYS[1] = [auction:${auctionId}] and the arguments
    [bidAmount, bidderId, currentTime.toString(), bidIncrement], and parses
    the JSON reply; the empty string that [bidIncrement] defaults to is
    [None]. *)
Definition luaScripts_placeBid (s : Store N) (auctionId : string) (amount : N)
    (bidderId : string) (currentTime : Z) (bidIncrement : option N)
  : PlaceBidResult N * Store N :=
  place_bid s (auction_key auctionId) (Some amount) bidderId currentTime bidIncrement.

(** [LuaScriptManager.extendAuction]: it runs extend-auction.lua with
    KEYS[1] = [auction:${auctionId}] and the three numbers as strings. *)
Definition luaScripts_extendAuction (s : Store N) (auctionId : string)
    (currentTime extensionThreshold extensionDuration : Z) : ExtendResult * Store N :=
  extend_auction s (auction_key auctionId) currentTime extensionThreshold
    extensionDuration.

(** *** BidService *)

Inductive BidOutcome :=
| Rejected (errorCode : string) (data : PlaceBidResult N)
| Accepted (amount : N) (bidderId bidderUsername : string) (timestamp totalBids : Z)
    (extended : bool) (extensionData : option (Z * Z * Z)).

Definition getErrorCode (status : Z) : string :=
  if status =? 0 then "BID_TOO_LOW"
  else if status =? -1 then "AUCTION_ENDED"
  else if status =? -2 then "AUCTION_NOT_FOUND"
  else if status =? -3 then "AUCTION_NOT_ACTIVE"
  else if status =? -4 then "SELLER_CANNOT_BID"
  else if status =? -5 then "INVALID_BID_AMOUNT"
  else "UNKNOWN_ERROR".

(** [extensionData] holds [oldEndTime], [newEndTime] (epoch milliseconds of
    the ISO strings) and [extendedBy]. *)
Definition checkAndExtendAuction (sys : System) (now_job : Z) (auctionId : string)
    (currentTime : Z) : System * (bool * option (Z * Z * Z)) :=
  let extensionThreshold := 30 in
  let extensionDuration := 30 in
  let '(result, s') := luaScripts_extendAuction (redis sys) auctionId currentTime
                         extensionThreshold extensionDuration in
  let sys1 := with_redis sys s' in
  match result with
  | EX_EXTENDED _ old_end_time new_end_time extended_by _ =>
      (addAuctionUpdateJob sys1 now_job auctionId (new_end_time * 1000),
       (true, Some (old_end_time * 1000, new_end_time * 1000, extended_by)))
  | _ => (sys1, (false, None))
  end.

(** [username || 'User']. *)
Definition username_or_default (username : option string) : string :=
  match username with
  | Some u => if String.eqb u "" then "User" else u
  | None => "User"
  end.

Definition rate_limit_key (bidderId : string) : string := "rate_limit:bid:" +:+ bidderId.

Definition placeBid (sys : System) (clock : Clock) (auctionId bidderId : string)
    (username : option string) (amount : N) (ipAddress userAgent : option string)
  : Raised BidOutcome * System :=
  let currentTime := at_placeBid clock / 1000 in
  let rateLimitKey := rate_limit_key bidderId in
  (* SET key 1 NX EX 1 *)
  if bool_decide (rateLimitKey ∈ rate_limit (redis sys)) then
    (AppError "RATE_LIMIT_EXCEEDED" 429, sys)
  else
  let s0 := with_expire_at
              (with_rate_limit (redis sys) ({[rateLimitKey]} ∪ rate_limit (redis sys)))
              (<[rateLimitKey := currentTime + 1]> (expire_at (redis sys))) in
  let sys0 := with_redis sys s0 in
  let '(result, s1) := luaScripts_placeBid s0 auctionId amount bidderId currentTime
                         None in
  let sys1 := with_redis sys0 s1 in
  let retried :=
    if pb_status result =? -2 then
      match AuctionRepository.findById (postgres sys1) auctionId with
      | None => None
      | Some auction =>
          let sys2 := loadAuctionToRedis sys1 (at_load clock) (at_schedule clock) auction in
          let '(result', s3) := luaScripts_placeBid (redis sys2) auctionId amount
                                  bidderId currentTime
                                  (Some (r_bid_increment auction)) in
          Some (result', with_redis sys2 s3)
      end
    else Some (result, sys1) in
  match retried with
  | None => (AppError "AUCTION_NOT_FOUND" 404, sys1)
  | Some (result, sys3) =>
    match result with
    | PB_OK _ _ _ total_bids previous_bid _ =>
        let timestamp := currentTime * 1000 in
        let sys4 := addBidPersistenceJob sys3 (at_persist_job clock)
                      (mkPersistBidJob auctionId bidderId amount (Some currentTime)
                         (Some previous_bid) (Some total_bids) ipAddress userAgent None) in
        let '(sys5, (extended, extensionData)) :=
          checkAndExtendAuction sys4 (at_update_job clock) auctionId currentTime in
        let sys6 := emit_effect sys5
                      (Publish_bid_placed auctionId amount bidderId
                         (username_or_default username) timestamp total_bids previous_bid
                         extended extensionData) in
        (Returned (Accepted amount bidderId (username_or_default username) timestamp
                     total_bids extended extensionData), sys6)
    | _ => (Returned (Rejected (getErrorCode (pb_status result)) result), sys3)
    end
  end.

End Services.

Arguments JobId : clear implicits.
Arguments Effect N : clear implicits.
Arguments System N : clear implicits.
Arguments BidOutcome N : clear implicits.

(* ===================================================================== *)
(** ** The Socket.io gateway *)
(* ===================================================================== *)

Section Gateway.
Context {N : Type} `{LuaNumber N}.

(** [jwt.verify(token, secret)]: the decoded [userId] and [username], or
    [None] when verification throws. *)
Variable jwt_verify : string -> option (string * string).

Record Socket := mkSocket {
  socket_id : string;
  userId : string;
  username : string;
  joinedAuctions : gset string
}.

(** Messages the server emits. *)
Inductive ServerMsg :=
| M_error (code : string)
| M_auction_joined (auctionId : string)
| M_auction_viewer_joined (auctionId : string) (viewerCount : nat)
| M_auction_left (auctionId : string)
| M_auction_viewer_left (auctionId : string) (viewerCount : nat)
| M_auction_viewer_count (auctionId : string) (viewerCount : nat)
| M_BID_ACCEPTED (auctionId : string) (amount : N) (bidderId bidderUsername : string)
    (timestamp totalBids : Z)
| M_BID_REJECTED (auctionId : option string) (code : string)
    (details : option (PlaceBidResult N))
| M_BID_HISTORY (auctionId : string)
| M_UPDATE_BID (auctionId : string) (amount : N) (bidderId bidderUsername : string)
    (timestamp totalBids : Z)
| M_AUCTION_EXTENDED (auctionId : string) (oldEndTime newEndTime extendedBy : Z)
| M_AUCTION_ENDED (auctionId : string) (winnerId : option string)
    (winningBid : option N) (totalBids : Z) (endTime : Z).

(** The event name passed to [emit]. *)
Definition event_name (m : ServerMsg) : string :=
  match m with
  | M_error _ => "error"
  | M_auction_joined _ => "auction:joined"
  | M_auction_viewer_joined _ _ => "auction:viewer_joined"
  | M_auction_left _ => "auction:left"
  | M_auction_viewer_left _ _ => "auction:viewer_left"
  | M_auction_viewer_count _ _ => "auction:viewer_count"
  | M_BID_ACCEPTED _ _ _ _ _ _ => "BID_ACCEPTED"
  | M_BID_REJECTED _ _ _ => "BID_REJECTED"
  | M_BID_HISTORY _ => "BID_HISTORY"
  | M_UPDATE_BID _ _ _ _ _ _ => "UPDATE_BID"
  | M_AUCTION_EXTENDED _ _ _ _ => "AUCTION_EXTENDED"
  | M_AUCTION_ENDED _ _ _ _ _ => "AUCTION_ENDED"
  end.

(** [socket.emit], [socket.to(room).emit], [io.to(room).emit]. *)
Inductive Target :=
| ToSocket (socketId : string)
| ToRoomExcept (roomName socketId : string)
| ToRoom (roomName : string).

(** The rooms of the Socket.io adapter: room name to socket ids. *)
Record GatewayState := mkGatewayState {
  sockets : gmap string Socket;
  rooms : gmap string (gset string)
}.

Definition viewerCount (gw : GatewayState) (roomName : string) : nat :=
  size (default ∅ (rooms gw !! roomName)).

(** The [io.use] middleware of [initializeSocketServer]; [token] is
    [handshake.auth.token || handshake.headers.authorization?.split(' ')[1]]. *)
Definition authenticate (socketId : string) (token : option string) : string + Socket :=
  match token with
  | None => inl "Authentication error: Token required"
  | Some t =>
      if String.eqb t "" then inl "Authentication error: Token required"
      else match jwt_verify t with
           | None => inl "Authentication error: Invalid token"
           | Some (uid, uname) => inr (mkSocket socketId uid uname ∅)
           end
  end.

(** The two ['connection'] listeners ([registerBidHandlers] and
    [initializeSocketServer]): they set [socket.joinedAuctions = new Set()]
    and register the event listeners below; neither calls [emit]. *)
Definition on_connection (gw : GatewayState) (socket : Socket)
  : GatewayState * list (Target * ServerMsg) :=
  (mkGatewayState
     (<[socket_id socket :=
          mkSocket (socket_id socket) (userId socket) (username socket) ∅]> (sockets gw))
     (rooms gw),
   []).

(** A handshake: the middleware, then the connection listeners. *)
Definition connect (gw : GatewayState) (socketId : string) (token : option string)
  : GatewayState * (string + list (Target * ServerMsg)) :=
  match authenticate socketId token with
  | inl err => (gw, inl err)
  | inr socket => let '(gw', out) := on_connection gw socket in (gw', inr out)
  end.

(** The [amount] of a [BID_PLACED] payload as the listener reads it: a
    falsy value (missing, [null], [0], [NaN], [false], the empty string); a
    truthy value in which [parseFloat] finds no number; or a truthy value
    and the number [parseFloat] reads from it (a number is read as itself,
    the string ['1e999'] as the infinite number, the string ['0'] as 0). *)
Inductive AmountField :=
| amount_falsy
| amount_not_numeric
| amount_parsed (x : N).

(** The payload of a [BID_PLACED] event. *)
Record BidPayload := mkBidPayload {
  p_auctionId : option string;
  p_amount : AmountField
}.

(** Events a connected client sends; the payload of [BID_PLACED] and of
    [GET_BID_HISTORY] is [None] when the event comes without one. *)
Inductive ClientEvent :=
| E_auction_join (auctionId : option string)
| E_auction_leave (auctionId : option string)
| E_auction_get_viewers (auctionId : string)
| E_BID_PLACED (data : option BidPayload) (ipAddress userAgent : option string)
| E_GET_BID_HISTORY (data : option (option string))
| E_disconnect.

(** [!x] for an optional string. *)
Definition falsy (x : option string) : bool :=
  match x with
  | None => true
  | Some v => String.eqb v ""
  end.

Definition set_joined (socket : Socket) (j : gset string) : Socket :=
  mkSocket (socket_id socket) (userId socket) (username socket) j.

Definition on_auction_join (gw : GatewayState) (socket : Socket) (auctionId : option string)
  : GatewayState * list (Target * ServerMsg) :=
  match auctionId with
  | Some a =>
      if String.eqb a "" then (gw, [(ToSocket (socket_id socket), M_error "INVALID_AUCTION_ID")])
      else
        let roomName := auction_key a in
        let members := {[socket_id socket]} ∪ default ∅ (rooms gw !! roomName) in
        let gw' := mkGatewayState
                     (<[socket_id socket := set_joined socket ({[a]} ∪ joinedAuctions socket)]>
                        (sockets gw))
                     (<[roomName := members]> (rooms gw)) in
        (gw', [(ToSocket (socket_id socket), M_auction_joined a);
               (ToRoomExcept roomName (socket_id socket),
                M_auction_viewer_joined a (viewerCount gw' roomName))])
  | None => (gw, [(ToSocket (socket_id socket), M_error "INVALID_AUCTION_ID")])
  end.

Definition on_auction_leave (gw : GatewayState) (socket : Socket) (auctionId : option string)
  : GatewayState * list (Target * ServerMsg) :=
  if falsy auctionId then (gw, [])
  else
    let a := default "" auctionId in
    let roomName := auction_key a in
    let members := default ∅ (rooms gw !! roomName) ∖ {[socket_id socket]} in
    let gw' := mkGatewayState
                 (<[socket_id socket := set_joined socket (joinedAuctions socket ∖ {[a]})]>
                    (sockets gw))
                 (<[roomName := members]> (rooms gw)) in
    (gw', [(ToSocket (socket_id socket), M_auction_left a);
           (ToRoomExcept roomName (socket_id socket),
            M_auction_viewer_left a (viewerCount gw' roomName))]).

Definition on_auction_get_viewers (gw : GatewayState) (socket : Socket) (auctionId : string)
  : list (Target * ServerMsg) :=
  [(ToSocket (socket_id socket),
    M_auction_viewer_count auctionId (viewerCount gw (auction_key auctionId)))].

(** On ['disconnect'] the socket has left its rooms already. *)
Definition on_disconnect (gw : GatewayState) (socket : Socket)
  : GatewayState * list (Target * ServerMsg) :=
  let gw' := mkGatewayState (delete (socket_id socket) (sockets gw))
               ((fun members => members ∖ {[socket_id socket]}) <$> rooms gw) in
  (gw', (fun a => (ToRoomExcept (auction_key a) (socket_id socket),
                   M_auction_viewer_left a (viewerCount gw' (auction_key a))))
        <$> elements (joinedAuctions socket)).

(** The [BID_PLACED] listener of [registerBidHandlers].  On an event
    without payload the destructuring of [data] throws, the [catch] block
    throws again at [data.auctionId], and the client gets no reply. *)
Definition on_BID_PLACED (sys : System N) (clock : Clock) (socket : Socket)
    (data : option BidPayload) (ipAddress userAgent : option string)
  : System N * list (Target * ServerMsg) :=
  let to_me m := [(ToSocket (socket_id socket), m)] in
  match data with
  | None => (sys, [])
  | Some payload =>
    let auctionId := p_auctionId payload in
    match p_amount payload with
    | amount_falsy => (sys, to_me (M_BID_REJECTED auctionId "INVALID_INPUT" None))
    | amount_not_numeric =>
        if falsy auctionId then (sys, to_me (M_BID_REJECTED auctionId "INVALID_INPUT" None))
        else (sys, to_me (M_BID_REJECTED auctionId "INVALID_AMOUNT" None))
    | amount_parsed bidAmount =>
      if falsy auctionId then (sys, to_me (M_BID_REJECTED auctionId "INVALID_INPUT" None))
      else if isNaN bidAmount || num_le bidAmount num_zero then
        (sys, to_me (M_BID_REJECTED auctionId "INVALID_AMOUNT" None))
      else
      let a := default "" auctionId in
      match placeBid sys clock a (userId socket) (Some (username socket)) bidAmount
              ipAddress userAgent with
      | (Returned (Accepted amt bidder uname timestamp totalBids _ _), sys') =>
          (sys', to_me (M_BID_ACCEPTED a amt bidder uname timestamp totalBids))
      | (Returned (Rejected errorCode data), sys') =>
          (sys', to_me (M_BID_REJECTED auctionId errorCode (Some data)))
      | (AppError _ _, sys') =>
          (sys', to_me (M_BID_REJECTED auctionId "BID_FAILED" None))
      end
    end
  end.

(** The [GET_BID_HISTORY] listener, the query taken to succeed; the rows of
    the reply are not modelled. *)
Definition on_GET_BID_HISTORY (socket : Socket) (data : option (option string))
  : list (Target * ServerMsg) :=
  match data with
  | None => [(ToSocket (socket_id socket), M_error "FETCH_FAILED")]
  | Some auctionId =>
      if falsy auctionId then [(ToSocket (socket_id socket), M_error "INVALID_INPUT")]
      else [(ToSocket (socket_id socket), M_BID_HISTORY (default "" auctionId))]
  end.

(** Dispatch of one client event to its listener. *)
Definition handle (gw : GatewayState) (sys : System N) (clock : Clock) (socket : Socket)
    (ev : ClientEvent) : GatewayState * System N * list (Target * ServerMsg) :=
  match ev with
  | E_auction_join a => let '(gw', out) := on_auction_join gw socket a in (gw', sys, out)
  | E_auction_leave a => let '(gw', out) := on_auction_leave gw socket a in (gw', sys, out)
  | E_auction_get_viewers a => (gw, sys, on_auction_get_viewers gw socket a)
  | E_BID_PLACED data ip ua =>
      let '(sys', out) := on_BID_PLACED sys clock socket data ip ua in (gw, sys', out)
  | E_GET_BID_HISTORY a => (gw, sys, on_GET_BID_HISTORY socket a)
  | E_disconnect => let '(gw', out) := on_disconnect gw socket in (gw', sys, out)
  end.

(** [initializeBidSubscriptions]: what a gateway emits on a pub/sub message. *)
Definition on_pubsub (e : Effect N) : list (Target * ServerMsg) :=
  match e with
  | Publish_bid_placed a amt bidder uname timestamp totalBids _ extended extensionData =>
      (ToRoom (auction_key a), M_UPDATE_BID a amt bidder uname timestamp totalBids)
      :: match extended, extensionData with
         | true, Some (oldEnd, newEnd, by_) =>
             [(ToRoom (auction_key a), M_AUCTION_EXTENDED a oldEnd newEnd by_)]
         | _, _ => []
         end
  | Publish_auction_ended a winnerId winningBid totalBids endTime =>
      [(ToRoom (auction_key a), M_AUCTION_ENDED a winnerId winningBid totalBids endTime)]
  | _ => []
  end.

End Gateway.

Arguments ServerMsg N : clear implicits.
Arguments AmountField N : clear implicits.
Arguments BidPayload N : clear implicits.
Arguments ClientEvent N : clear implicits.

(* ===================================================================== *)
(** ** Runs of calls *)
(* ===================================================================== *)

Section Calls.
Context {N : Type} `{LuaNumber N}.

(** One call of place-bid.lua. *)
Record BidCall := mkBidCall {
  c_amount : option N;
  c_bidderId : string;
  c_time : Z;
  c_hint : option N
}.

(** The store after a sequence of calls on one auction. *)
Fixpoint place_bids (s : Store N) (auctionKey : string) (calls : list BidCall) : Store N :=
  match calls with
  | [] => s
  | c :: calls' =>
      place_bids (snd (place_bid s auctionKey (c_amount c) (c_bidderId c) (c_time c)
                         (c_hint c)))
        auctionKey calls'
  end.

(** The amounts of the calls of a sequence that place-bid.lua answers with
    status 1, in commit order. *)
Fixpoint accepted_bids (s : Store N) (auctionKey : string) (calls : list BidCall)
  : list N :=
  match calls with
  | [] => []
  | c :: calls' =>
      let '(r, s') := place_bid s auctionKey (c_amount c) (c_bidderId c) (c_time c)
                        (c_hint c) in
      match r, c_amount c with
      | PB_OK _ _ _ _ _ _, Some x => x :: accepted_bids s' auctionKey calls'
      | _, _ => accepted_bids s' auctionKey calls'
      end
  end.

(** The replies and the final store of a sequence of finalize calls. *)
Fixpoint finalize_calls (s : Store N) (auctionKey : string) (times : list Z)
  : list (FinalizeResult N) * Store N :=
  match times with
  | [] => ([], s)
  | t :: times' =>
      let '(r, s') := finalize_auction s auctionKey t in
      let '(rs, s'') := finalize_calls s' auctionKey times' in
      (r :: rs, s'')
  end.

End Calls.

Arguments BidCall N : clear implicits.

(* ===================================================================== *)
(** ** Sample data *)
(* ===================================================================== *)

Section Samples.
Context {N : Type} `{LuaNumber N}.

(** The cold row of auction A of scenario S1 (times in epoch milliseconds):
    startingPrice 100.00, bidIncrement 5.00, endTime 1000 s, and the column
    defaults current_bid 0 and total_bids 0. *)
Definition rowA : AuctionRow N :=
  mkAuctionRow "A" "seller" "Vintage Watch" (tonumber_decimal 10000)
    (Some (tonumber_decimal 0)) (tonumber_decimal 500) None 0 0 1000000 1000000 active.

(** The users of the samples: the seller and three bidders. *)
Definition usersS : gset string := {["seller"; "U1"; "U2"; "U3"]}.

Definition coldA : ColdStore N := mkColdStore usersS {["A" := rowA]} [] 0.

(** The system once [loadAuctionToRedis] has installed auction A, at
    second 800, and its hot store. *)
Definition systemA : System N :=
  loadAuctionToRedis (mkSystem (mkStore ∅ ∅ ∅ ∅ ∅) coldA []) 800000 800001 rowA.

Definition storeA : Store N := redis systemA.

(** The record of auction A in [storeA]. *)
Definition auctionA : AuctionHash N :=
  mkAuctionHash "A" "Vintage Watch" "seller" (tonumber_decimal 10000)
    (Some (tonumber_decimal 0)) (Some (tonumber_decimal 500)) (Some "") (Some 0)
    0 1000 1000 active.

(** The same auction after U1's bid of 100.00 at time 900. *)
Definition storeA1 : Store N :=
  snd (place_bid storeA "auction:A" (Some (tonumber_decimal 10000)) "U1" 900 None).

(** The auction once finalized at its end time. *)
Definition storeA_ended : Store N :=
  snd (finalize_auction storeA1 "auction:A" 1000).

(** An auction with startingPrice 1.10 and bidIncrement 2.20 on which U1
    holds the first bid of 1.10. *)
Definition auctionD : AuctionHash N :=
  mkAuctionHash "D" "Postcard" "seller" (tonumber_decimal 110)
    (Some (tonumber_decimal 110)) (Some (tonumber_decimal 220)) (Some "U1") (Some 1)
    0 1000 1000 active.

Definition storeD : Store N :=
  mkStore {["auction:D" := auctionD]} ∅ {["D" := 1000]} ∅ ∅.

Definition rowD : AuctionRow N :=
  mkAuctionRow "D" "seller" "Postcard" (tonumber_decimal 110)
    (Some (tonumber_decimal 110)) (tonumber_decimal 220) (Some "U1") 1
    0 1000000 1000000 active.

Definition systemD : System N :=
  mkSystem storeD (mkColdStore usersS {["D" := rowD]} [] 0) [].

(** Auction L, with the increment 1.00 that the schema gives by default and
    startingPrice 1.00; nobody has bid. *)
Definition auctionL : AuctionHash N :=
  mkAuctionHash "L" "Estate" "seller" (tonumber_decimal 100)
    (Some (tonumber_decimal 0)) (Some (tonumber_decimal 100)) (Some "") (Some 0)
    0 1000 1000 active.

Definition storeL : Store N :=
  mkStore {["auction:L" := auctionL]} ∅ {["L" := 1000]} ∅ ∅.

(** Scenarios S1 and S2: U1 opens at 100.00, U2 and U3 both bid 105.00, U3
    then bids 110.00. *)
Definition calls_S2 : list (BidCall N) :=
  [ mkBidCall (Some (tonumber_decimal 10000)) "U1" 900 None;
    mkBidCall (Some (tonumber_decimal 10500)) "U2" 910 None;
    mkBidCall (Some (tonumber_decimal 10500)) "U3" 910 None;
    mkBidCall (Some (tonumber_decimal 11000)) "U3" 920 None ].

(** Scenario S1: every reading of the clock falls in second 900. *)
Definition clockS1 : Clock := mkClock 900000 900001 900002 900003 900004.

(** The persist-bid job of U1's bid of 100.00 in scenario S1, as
    [BidService.placeBid] hands it to the queue. *)
Definition jobS1 : PersistBidJob N :=
  mkPersistBidJob "A" "U1" (tonumber_decimal 10000) (Some 900)
    (Some (tonumber_decimal 0)) (Some 1) None None None.

(** The cold row of auction A once it has ended with U2 winning at 105.00
    after two bids. *)
Definition rowA_ended : AuctionRow N :=
  mkAuctionRow "A" "seller" "Vintage Watch" (tonumber_decimal 10000)
    (Some (tonumber_decimal 10500)) (tonumber_decimal 500) (Some "U2") 2
    0 1000000 1000000 ended.

Definition coldA_ended : ColdStore N := mkColdStore usersS {["A" := rowA_ended]} [] 0.

(** Auction E is over in the cold store and has no record in the hot
    store; the clock reads second 2000. *)
Definition rowE : AuctionRow N :=
  mkAuctionRow "E" "seller" "Old Map" (tonumber_decimal 10000) None
    (tonumber_decimal 500) None 0 0 1000000 1000000 active.

Definition systemE : System N :=
  mkSystem (mkStore ∅ ∅ ∅ ∅ ∅) (mkColdStore usersS {["E" := rowE]} [] 0) [].

Definition clockE : Clock := mkClock 2000000 2000001 2000002 2000003 2000004.

Definition socketU1 : Socket := mkSocket "socket-1" "U1" "alice" ∅.

End Samples.

(* ===================================================================== *)
(** ** The finalization worker *)
(* ===================================================================== *)

Section Finalization.
Context {N : Type} `{LuaNumber N} `{PgNumeric N}.

Definition with_postgres (sys : System N) (db : ColdStore N) : System N :=
  mkSystem (redis sys) db (effects sys).

(** [LuaScriptManager.finalizeAuction]: it runs the finalize-auction script
    with KEYS[1] = [auction:${auctionId}] and the time as a string. *)
Definition luaScripts_finalizeAuction (s : Store N) (auctionId : string) (currentTime : Z)
  : FinalizeResult N * Store N :=
  finalize_auction s (auction_key auctionId) currentTime.

(** What [processAuctionFinalization] returns. *)
Inductive FinalizationResult :=
| not_found_in_redis (auctionId : string)
| already_finalized (auctionId : string)
| finalized (auctionId : string) (winnerId : option string) (winningBid : option N)
    (totalBids : Z) (hasWinner : bool).

(** [broadcastAuctionEnded]: one message on the channel [auction:ended]. *)
Definition broadcastAuctionEnded (sys : System N) (auctionId : string)
    (winnerId : option string) (winningBid : option N) (totalBids endTime : Z)
  : System N :=
  emit_effect sys (Publish_auction_ended auctionId winnerId winningBid totalBids endTime).

(** [processAuctionFinalization]; [now] is the reading of [Date.now()].
    The reply of the script for an auction without bids has no [end_time],
    so [new Date(end_time * 1000).toISOString()] throws a RangeError while
    the arguments of [broadcastAuctionEnded] are built. *)
Definition processAuctionFinalization (sys : System N) (now : Z) (auctionId : string)
  : JobOutcome FinalizationResult * System N :=
  let currentTime := now / 1000 in
  let '(result, s') := luaScripts_finalizeAuction (redis sys) auctionId currentTime in
  let sys1 := with_redis sys s' in
  match result with
  | FIN_NOT_FOUND =>
      match AuctionRepository.findById (postgres sys1) auctionId with
      | Some auction =>
          if status_eqb (r_status auction) active then
            match AuctionRepository.update (postgres sys1) auctionId
                    (mkUpdates None None None (Some ended)) with
            | (DbError code, db') => (Thrown code, with_postgres sys1 db')
            | (DbOk _, db') =>
                (Completed (not_found_in_redis auctionId),
                 broadcastAuctionEnded (with_postgres sys1 db') auctionId
                   (r_highest_bidder_id auction) (r_current_bid auction)
                   (r_total_bids auction) (r_end_time auction))
            end
          else (Completed (not_found_in_redis auctionId), sys1)
      | None => (Completed (not_found_in_redis auctionId), sys1)
      end
  | FIN_NOT_ENDED _ _ _ _ => (Thrown "Auction not ended yet", sys1)
  | FIN_ALREADY_FINAL _ _ => (Completed (already_finalized auctionId), sys1)
  | FIN_FINALIZED _ winner_id winning_bid total_bids end_time _ =>
      match AuctionRepository.update (postgres sys1) auctionId
              (mkUpdates (Some winning_bid) (Some (or_null winner_id)) (Some total_bids)
                         (Some ended)) with
      | (DbError code, db') => (Thrown code, with_postgres sys1 db')
      | (DbOk _, db') =>
          (Completed (finalized auctionId winner_id winning_bid total_bids true),
           broadcastAuctionEnded (with_postgres sys1 db') auctionId winner_id winning_bid
             total_bids (end_time * 1000))
      end
  | FIN_NO_BIDS _ total_bids _ =>
      match AuctionRepository.update (postgres sys1) auctionId
              (mkUpdates (Some None) (Some None) (Some total_bids) (Some ended)) with
      | (DbError code, db') => (Thrown code, with_postgres sys1 db')
      | (DbOk _, db') => (Thrown "RangeError", with_postgres sys1 db')
      end
  end.

End Finalization.

Arguments FinalizationResult N : clear implicits.

(* ===================================================================== *)
(** ** AuctionService.getAuctions: the pagination *)
(* ===================================================================== *)

Record Pagination := mkPagination {
  pg_page : Z;
  pg_limit : Z;
  pg_total : Z;
  pg_totalPages : Z;
  pg_hasNext : bool;
  pg_hasPrev : bool
}.

(** The numbers of [getAuctions] are doubles; they are modelled by the
    integers they hold, for [page] and [total] of at most 10^13 in absolute
    value and [parseInt] yielding a number: on these every product and
    quotient below is exact or rounds to the same integer. *)

(** [Math.ceil(total / limitNum)]. *)
Definition ceil_div (total limitNum : Z) : Z := - ((- total) / limitNum).

(** The [offset] passed to [auctionRepository.findAll]; [page] and [limit]
    are the values [parseInt] yields. *)
Definition page_offset (page limit : Z) : Z :=
  let pageNum := Z.max 1 page in
  let limitNum := Z.min 100 (Z.max 1 limit) in
  (pageNum - 1) * limitNum.

(** The [pagination] object of the reply, for [total] matching rows. *)
Definition pagination (page limit total : Z) : Pagination :=
  let pageNum := Z.max 1 page in
  let limitNum := Z.min 100 (Z.max 1 limit) in
  mkPagination pageNum limitNum total (ceil_div total limitNum)
    (pageNum * limitNum <? total) (1 <? pageNum).

(* ===================================================================== *)
(** ** More sample data *)
(* ===================================================================== *)

Section MoreSamples.
Context {N : Type} `{LuaNumber N}.

(** Scenario S1 played through the service: U1's bid of 100.00 on auction A. *)
Definition systemA1 : System N :=
  snd (placeBid systemA clockS1 "A" "U1" (Some "alice") (tonumber_decimal 10000) None None).

(** The clock of a second bidder, one second before the end of auction A. *)
Definition clockLate : Clock := mkClock 999000 999001 999002 999003 999004.

(** Readings of the clock after the end of auction A. *)
Definition clockAfter : Z := 1000500.

(** Auction B ends without bids: it is in the hot store, nobody bids. *)
Definition rowB : AuctionRow N :=
  mkAuctionRow "B" "seller" "Old Lamp" (tonumber_decimal 2000)
    (Some (tonumber_decimal 0)) (tonumber_decimal 100) None 0 0 1000000 1000000 active.

Definition systemB : System N :=
  loadAuctionToRedis
    (mkSystem (mkStore ∅ ∅ ∅ ∅ ∅) (mkColdStore usersS {["B" := rowB]} [] 0) [])
    800000 800001 rowB.

(** Auction E of the cold store with its end still ahead. *)
Definition clockEarly : Clock := mkClock 900000 900001 900002 900003 900004.

Definition socketU2 : Socket := mkSocket "socket-2" "U2" "bob" ∅.

Definition gatewayEmpty : GatewayState := mkGatewayState ∅ ∅.

End MoreSamples.

(** Auction D after the call of place-bid.lua with the amount ["1e999"],
    which [tonumber] reads as the infinite double. *)
Definition storeD_infinite : Store float :=
  snd (place_bid storeD "auction:D" (Some PrimFloat.infinity) "U2" 900 None).

(** Two bids on auction L: 123456789012344.00, then 123456789012342.00. *)
Definition calls_descending : list (BidCall float) :=
  [ mkBidCall (Some (tonumber_decimal 12345678901234400)) "U1" 900 None;
    mkBidCall (Some (tonumber_decimal 12345678901234200)) "U2" 910 None ].

(** Two bids on auction A: 1234567890123.44, then 1234567890128.42. *)
Definition calls_short_step : list (BidCall float) :=
  [ mkBidCall (Some (tonumber_decimal 123456789012344)) "U1" 900 None;
    mkBidCall (Some (tonumber_decimal 123456789012842)) "U2" 910 None ].

(* ===================================================================== *)
(** ** Vocabulary of the further properties *)
(* ===================================================================== *)

Section Vocabulary.
Context {N : Type} `{LuaNumber N}.

(** The record an accepted bid of [x] by [bidder] leaves: the amount as
    [tostring] prints it, the bidder, one more bid; the other fields as they
    were. *)
Definition committed (a : AuctionHash N) (x : N) (bidder : string) : AuctionHash N :=
  mkAuctionHash (h_id a) (h_title a) (h_seller_id a) (h_starting_price a)
    (Some (num_tostring x)) (h_bid_increment a) (Some bidder)
    (Some (default 0 (h_total_bids a) + 1))
    (h_start_time a) (h_end_time a) (h_original_end_time a) (h_status a).

(** The finalization jobs among the effects. *)
Definition is_finalize_job (e : Effect N) : bool :=
  match e with EnqueueFinalize _ _ _ => true | _ => false end.

(** [BidService.placeBid] from the point where the script's last reply is
    known ([// Check result status], lines 515-574): the rejection object, or
    the persist-bid job, the extension check and the publication. *)
Definition placeBid_reply (sys3 : System N) (clock : Clock) (auctionId bidderId : string)
    (username : option string) (amount : N) (ipAddress userAgent : option string)
    (result : PlaceBidResult N) : Raised (BidOutcome N) * System N :=
  let currentTime := at_placeBid clock / 1000 in
  match result with
  | PB_OK _ _ _ total_bids previous_bid _ =>
      let timestamp := currentTime * 1000 in
      let sys4 := addBidPersistenceJob sys3 (at_persist_job clock)
                    (mkPersistBidJob auctionId bidderId amount (Some currentTime)
                       (Some previous_bid) (Some total_bids) ipAddress userAgent None) in
      let '(sys5, (extended, extensionData)) :=
        checkAndExtendAuction sys4 (at_update_job clock) auctionId currentTime in
      let sys6 := emit_effect sys5
                    (Publish_bid_placed auctionId amount bidderId
                       (username_or_default username) timestamp total_bids previous_bid
                       extended extensionData) in
      (Returned (Accepted amount bidderId (username_or_default username) timestamp
                   total_bids extended extensionData), sys6)
  | _ => (Returned (Rejected (getErrorCode (pb_status result)) result), sys3)
  end.

End Vocabulary.

(* ===================================================================== *)
(** * Properties *)
(* ===================================================================== *)

(** ** The scenarios of the specification, in exact decimals *)

(** S1: the first bid of 100.00 is accepted with totalBids 1. *)
Example scenario_S1 :
  fst (place_bid (N := Z) storeA "auction:A" (Some 10000) "U1" 900 None)
  = PB_OK "A" 10000 "U1" 1 0 ""
  /\ hashes (storeA1 (N := Z)) !! "auction:A"
     = Some (mkAuctionHash "A" "Vintage Watch" "seller" 10000 (Some 10000) (Some 500)
               (Some "U1") (Some 1) 0 1000 1000 active).
Proof. split; reflexivity. Qed.

(** S2: of two bids of 105.00 the second is rejected, with current bid
    105.00 and minimum bid 110.00. *)
Example scenario_S2 :
  let s2 := snd (place_bid (N := Z) storeA1 "auction:A" (Some 10500) "U2" 910 None) in
  fst (place_bid (N := Z) storeA1 "auction:A" (Some 10500) "U2" 910 None)
  = PB_OK "A" 10500 "U2" 2 10000 "U1"
  /\ fst (place_bid s2 "auction:A" (Some 10500) "U3" 910 None)
     = PB_TOO_LOW "A" 10500 11000 10500 false.
Proof. split; reflexivity. Qed.

(** S3: a bid at 985 on an auction ending at 1000 extends it to 1030. *)
Example scenario_S3 :
  fst (extend_auction (N := Z) storeA1 "auction:A" 985 30 30)
  = EX_EXTENDED "A" 1000 1030 30 15
  /\ active_index (snd (extend_auction (N := Z) storeA1 "auction:A" 985 30 30)) !! "A"
     = Some 1030.
Proof. split; reflexivity. Qed.

(** S4: a bid at serverTime = endTime is rejected and the store is as
    before. *)
Example scenario_S4 :
  place_bid (N := Z) storeA1 "auction:A" (Some 10500) "U2" 1000 None
  = (PB_ENDED "A" 1000 1000, storeA1).
Proof. reflexivity. Qed.

(** ** The Redis commands *)

Section StoreFacts.
Context {N : Type} `{LuaNumber N}.

Lemma hashes_EXPIREAT (s : Store N) key t : hashes (EXPIREAT s key t) = hashes s.
Proof. unfold EXPIREAT. destruct (EXISTS s key); reflexivity. Qed.

Lemma bid_sets_EXPIREAT (s : Store N) key t : bid_sets (EXPIREAT s key t) = bid_sets s.
Proof. unfold EXPIREAT. destruct (EXISTS s key); reflexivity. Qed.

Lemma active_index_EXPIREAT (s : Store N) key t :
  active_index (EXPIREAT s key t) = active_index s.
Proof. unfold EXPIREAT. destruct (EXISTS s key); reflexivity. Qed.

Lemma rate_limit_EXPIREAT (s : Store N) key t : rate_limit (EXPIREAT s key t) = rate_limit s.
Proof. unfold EXPIREAT. destruct (EXISTS s key); reflexivity. Qed.

(** [ZADD] of a member the set does not hold appends it. *)
Lemma zadd_fresh (l : list (BidEntry N * N)) (score : N) (member : BidEntry N) :
  forallb (fun p => negb (bid_entry_eqb (fst p) member)) l = true ->
  zadd l score member = l ++ [(member, score)].
Proof.
  induction l as [|[m sc] l IH]; [reflexivity|].
  cbn. intros Hl. apply andb_prop in Hl as [Hm Hl].
  destruct (bid_entry_eqb m member); [discriminate|].
  rewrite (IH Hl). reflexivity.
Qed.

(** Two [HSET]s on an existing hash amount to storing the updated record. *)
Lemma alter_alter_lookup (m : gmap string (AuctionHash N)) key h f g :
  m !! key = Some h -> alter g key (alter f key m) = <[key := g (f h)]> m.
Proof.
  intros Hm. apply map_eq. intros k. destruct (decide (key = k)) as [<-|Hne].
  - rewrite lookup_insert_eq, !lookup_alter_eq, Hm. reflexivity.
  - rewrite lookup_insert_ne, !lookup_alter_ne by assumption. reflexivity.
Qed.

Lemma alter_lookup (m : gmap string (AuctionHash N)) key h f :
  m !! key = Some h -> alter f key m = <[key := f h]> m.
Proof.
  intros Hm. apply map_eq. intros k. destruct (decide (key = k)) as [<-|Hne].
  - rewrite lookup_insert_eq, lookup_alter_eq, Hm. reflexivity.
  - rewrite lookup_insert_ne, lookup_alter_ne by assumption. reflexivity.
Qed.

End StoreFacts.

(** ** The outcome of place-bid.lua *)

Section ScriptFacts.
Context {N : Type} `{LuaNumber N}.

(** A call of place-bid.lua on an existing record is rejected and leaves
    the store as it is, or is accepted after all five checks. *)
Lemma place_bid_outcome (s : Store N) key (a : AuctionHash N) amount bidder t hint :
  hashes s !! key = Some a ->
  (pb_status (fst (place_bid s key amount bidder t hint)) <> 1
   /\ snd (place_bid s key amount bidder t hint) = s)
  \/ (exists x,
        amount = Some x /\ num_le x num_zero = false /\ h_status a = active
        /\ t < h_end_time a /\ bidder <> h_seller_id a
        /\ num_lt x (if isFirstBid a then h_starting_price a
                     else num_add (currentBid a) (effectiveIncrement a hint)) = false
        /\ fst (place_bid s key amount bidder t hint)
           = PB_OK (h_id a) (num_tostring x) bidder (default 0 (h_total_bids a) + 1)
               (num_tostring (currentBid a)) (default "none" (h_highest_bidder_id a))
        /\ hashes (snd (place_bid s key amount bidder t hint))
           = <[key := committed a x bidder]> (hashes s)
        /\ bid_sets (snd (place_bid s key amount bidder t hint))
           = <[key +:+ ":bids" :=
                 zadd (default [] (bid_sets s !! (key +:+ ":bids"))) x
                   (mkBidEntry bidder (num_tostring x) t (num_tostring (currentBid a)))]>
               (bid_sets s)
        /\ active_index (snd (place_bid s key amount bidder t hint)) = active_index s
        /\ rate_limit (snd (place_bid s key amount bidder t hint)) = rate_limit s
        /\ expire_at (snd (place_bid s key amount bidder t hint))
           = <[key +:+ ":bids" := h_end_time a + 86400]> (expire_at s)).
Proof.
  intros Ha. unfold place_bid, HGETALL. rewrite Ha.
  destruct amount as [x|]; [|left; split; [cbn; discriminate|reflexivity]].
  destruct (num_le x num_zero) eqn:Hx; [left; split; [cbn; discriminate|reflexivity]|].
  destruct (h_status a) eqn:Hst; cbn [status_eqb negb];
    try (left; split; [cbn; discriminate|reflexivity]).
  destruct (Z.leb_spec (h_end_time a) t); [left; split; [cbn; discriminate|reflexivity]|].
  destruct (String.eqb_spec bidder (h_seller_id a));
    [left; split; [cbn; discriminate|reflexivity]|].
  destruct (num_lt x _) eqn:Hlow; [left; split; [cbn; discriminate|reflexivity]|].
  right. exists x.
  unfold HINCRBY_total_bids, HSET. cbn [hashes with_hashes fst snd].
  rewrite lookup_alter_eq, Ha. cbn [fmap option_fmap option_map fst snd].
  rewrite hashes_EXPIREAT, bid_sets_EXPIREAT, active_index_EXPIREAT, rate_limit_EXPIREAT.
  cbn. rewrite (alter_alter_lookup _ _ _ _ _ Ha).
  repeat split; try assumption; try reflexivity.
  unfold EXPIREAT, EXISTS, ZADD_bids. cbn.
  rewrite lookup_insert_eq.
  rewrite (bool_decide_eq_true_2 (is_Some (Some _))) by eauto.
  rewrite orb_true_r. reflexivity.
Qed.

End ScriptFacts.

(** ** C4: rejection atomicity of placeBid *)

(** C4.  A call of place-bid.lua that returns a status other than OK
    (NOT_FOUND, INVALID_AMOUNT, NOT_ACTIVE, ENDED, SELLER_CANNOT_BID or
    TOO_LOW) leaves the whole store as it was: the auction hash, the bid
    history, the active-auctions index and the key deadlines. *)
Theorem place_bid_rejection_atomic (N : Type) (L : LuaNumber N) (s : Store N)
    (key : string) (amount : option N) (bidder : string) (t : Z) (hint : option N) :
  pb_status (fst (place_bid s key amount bidder t hint)) <> 1 ->
  snd (place_bid s key amount bidder t hint) = s.
Proof.
  unfold place_bid, HGETALL.
  destruct (hashes s !! key) as [a|]; [|reflexivity].
  destruct amount as [x|]; [|reflexivity].
  destruct (num_le x num_zero); [reflexivity|].
  destruct (negb (status_eqb (h_status a) active)); [reflexivity|].
  destruct (h_end_time a <=? t); [reflexivity|].
  destruct (String.eqb bidder (h_seller_id a)); [reflexivity|].
  destruct (num_lt x _); [reflexivity|].
  destruct (HINCRBY_total_bids _ key 1) as [total s2]. cbn.
  intros Hne. contradiction Hne. reflexivity.
Qed.

Lemma place_bid_rejection_atomic_witness :
  pb_status (fst (place_bid (N := Z) storeA1 "auction:A" (Some 10499) "U2" 910 None)) <> 1
  /\ snd (place_bid (N := Z) storeA1 "auction:A" (Some 10499) "U2" 910 None) = storeA1.
Proof.
  split.
  - vm_compute. discriminate.
  - apply (place_bid_rejection_atomic Z Cents storeA1 "auction:A" (Some 10499) "U2" 910 None).
    vm_compute. discriminate.
Defined.

(** ** C1: place-bid.lua and the amounts that are not finite *)

(** C1, the code at the failing input.  The amount check of place-bid.lua
    is [not bidAmount or bidAmount <= 0]: it lets the infinite number
    through, which [tonumber] reads from ["1e999"] or ["Infinity"], where
    primitive P1 answers INVALID_AMOUNT.  On auction D (current bid 1.10 by
    U1, increment 2.20) the script accepts U2's infinite bid and stores it as
    the current bid; from then on every finite amount is below the minimum
    bid, so no finite bid is accepted any more.  The [BID_PLACED] listener
    passes such an amount on: the client gets BID_ACCEPTED. *)
Theorem infinite_amount_is_accepted :
  fst (place_bid (N := float) storeD "auction:D" (Some PrimFloat.infinity) "U2" 900 None)
  = PB_OK "D" PrimFloat.infinity "U2" 2 (tonumber_decimal 110) "U1"
  /\ hashes storeD_infinite !! "auction:D"
     = Some (mkAuctionHash "D" "Postcard" "seller" (tonumber_decimal 110)
               (Some PrimFloat.infinity) (Some (tonumber_decimal 220)) (Some "U2") (Some 2)
               0 1000 1000 active)
  /\ (forall (x : float) (bidder : string) (t : Z),
        PrimFloat.ltb x PrimFloat.infinity = true ->
        pb_status (fst (place_bid storeD_infinite "auction:D" (Some x) bidder t None)) <> 1
        /\ snd (place_bid storeD_infinite "auction:D" (Some x) bidder t None)
           = storeD_infinite)
  /\ snd (on_BID_PLACED (N := float) systemD clockS1 socketU2
            (Some (mkBidPayload (Some "D") (amount_parsed PrimFloat.infinity))) None None)
     = [(ToSocket "socket-2", M_BID_ACCEPTED "D" PrimFloat.infinity "U2" "bob" 900000 2)].
Proof.
  split; [vm_compute; reflexivity|].
  split; [vm_compute; reflexivity|].
  split; [|vm_compute; reflexivity].
  intros x bidder t Hx.
  assert (Ha : hashes storeD_infinite !! "auction:D"
               = Some (mkAuctionHash "D" "Postcard" "seller" (tonumber_decimal 110)
                         (Some PrimFloat.infinity) (Some (tonumber_decimal 220))
                         (Some "U2") (Some 2) 0 1000 1000 active))
    by (vm_compute; reflexivity).
  destruct (place_bid_outcome storeD_infinite "auction:D" _ (Some x) bidder t None Ha)
    as [Hrej|(y & Hy & _ & _ & _ & _ & Hlow & _)]; [exact Hrej|].
  injection Hy as <-. exfalso.
  vm_compute in Hlow. vm_compute in Hx. congruence.
Qed.

Lemma infinite_amount_is_accepted_witness :
  pb_status (fst (place_bid storeD_infinite "auction:D" (Some (tonumber_decimal 100000))
                    "U3" 910 None)) <> 1
  /\ snd (place_bid storeD_infinite "auction:D" (Some (tonumber_decimal 100000))
            "U3" 910 None) = storeD_infinite.
Proof.
  destruct infinite_amount_is_accepted as (_ & _ & Hlater & _).
  apply (Hlater (tonumber_decimal 100000) "U3" 910). vm_compute. reflexivity.
Defined.

(** ** C5: extension semantics *)

(** C5.  On an existing active auction, extend-auction.lua with
    0 < endTime - serverTime <= threshold sets endTime to the old endTime
    plus duration and leaves the other fields of the record as they were,
    updates the auction's entry of the active-auctions index to the new
    endTime and reports extended with oldEndTime, newEndTime and extendedBy;
    otherwise it changes nothing and reports not-extended with endTime and
    timeRemaining.  On any store and for any call, the endTime of the record
    after the call is the old one plus duration when the call reports
    extended and the old one otherwise; so with a positive duration no call
    decreases it. *)
Theorem extend_auction_semantics :
  (forall (N : Type) (L : LuaNumber N) (s : Store N) (key : string)
          (a : AuctionHash N) (t threshold duration : Z),
      hashes s !! key = Some a -> h_status a = active ->
      (0 < h_end_time a - t <= threshold ->
         fst (extend_auction s key t threshold duration)
         = EX_EXTENDED (h_id a) (h_end_time a) (h_end_time a + duration) duration
                       (h_end_time a - t)
         /\ hashes (snd (extend_auction s key t threshold duration))
            = <[key := mkAuctionHash (h_id a) (h_title a) (h_seller_id a)
                         (h_starting_price a) (h_current_bid a) (h_bid_increment a)
                         (h_highest_bidder_id a) (h_total_bids a) (h_start_time a)
                         (h_end_time a + duration) (h_original_end_time a) active]>
                (hashes s)
         /\ active_index (snd (extend_auction s key t threshold duration))
            = <[h_id a := h_end_time a + duration]> (active_index s)
         /\ bid_sets (snd (extend_auction s key t threshold duration)) = bid_sets s)
      /\ (~ (0 < h_end_time a - t <= threshold) ->
            extend_auction s key t threshold duration
            = (EX_NOT_EXTENDED (h_id a) (h_end_time a) (h_end_time a - t), s)))
  /\ (forall (N : Type) (L : LuaNumber N) (s : Store N) (key : string)
             (a : AuctionHash N) (t threshold duration : Z),
        hashes s !! key = Some a ->
        exists a', hashes (snd (extend_auction s key t threshold duration)) !! key = Some a'
                   /\ h_end_time a'
                      = (if ex_status (fst (extend_auction s key t threshold duration)) =? 1
                         then h_end_time a + duration else h_end_time a)
                   /\ (0 < duration -> h_end_time a <= h_end_time a')).
Proof.
  split.
  - intros N L s key a t threshold duration Ha Hact.
    unfold extend_auction, HGETALL. rewrite Ha, Hact. cbn [status_eqb negb].
    split.
    + intros [Hlo Hhi].
      destruct (Z.ltb_spec 0 (h_end_time a - t)); [|lia].
      destruct (Z.leb_spec (h_end_time a - t) threshold); [|lia].
      cbn [andb fst snd].
      rewrite hashes_EXPIREAT, active_index_EXPIREAT, bid_sets_EXPIREAT.
      unfold ZADD_active, HSET. cbn.
      rewrite (alter_lookup _ _ _ _ Ha). unfold set_end_time. rewrite Hact.
      repeat split.
    + intros Hout.
      destruct (Z.ltb_spec 0 (h_end_time a - t));
        destruct (Z.leb_spec (h_end_time a - t) threshold); cbn [andb];
        try reflexivity.
      contradiction Hout. lia.
  - intros N L s key a t threshold duration Ha.
    unfold extend_auction, HGETALL. rewrite Ha.
    destruct (negb (status_eqb (h_status a) active)).
    { exists a. cbn. split; [exact Ha|split; [reflexivity|lia]]. }
    destruct ((0 <? h_end_time a - t) && (h_end_time a - t <=? threshold)).
    + cbn [fst snd ex_status]. rewrite hashes_EXPIREAT. unfold ZADD_active, HSET. cbn.
      rewrite (alter_lookup _ _ _ _ Ha), lookup_insert_eq.
      eexists. split; [reflexivity|]. cbn. split; [reflexivity|lia].
    + exists a. cbn. split; [exact Ha|split; [reflexivity|lia]].
Qed.

Lemma extend_auction_semantics_witness :
  fst (extend_auction (N := Z) storeA1 "auction:A" 985 30 30)
  = EX_EXTENDED "A" 1000 1030 30 15
  /\ hashes (snd (extend_auction (N := Z) storeA1 "auction:A" 985 30 30))
     = <["auction:A" := mkAuctionHash "A" "Vintage Watch" "seller" 10000 (Some 10000)
                          (Some 500) (Some "U1") (Some 1) 0 1030 1000 active]>
         (hashes storeA1)
  /\ extend_auction (N := Z) storeA1 "auction:A" 900 30 30
     = (EX_NOT_EXTENDED "A" 1000 100, storeA1)
  /\ exists a', hashes (snd (extend_auction (N := Z) storeA1 "auction:A" 985 30 30))
                  !! "auction:A" = Some a'
                /\ h_end_time a'
                   = (if ex_status (fst (extend_auction (N := Z) storeA1 "auction:A" 985
                                           30 30)) =? 1
                      then 1000 + 30 else 1000)
                /\ (0 < 30 -> 1000 <= h_end_time a').
Proof.
  destruct extend_auction_semantics as [Hsem Hmono].
  set (a1 := mkAuctionHash "A" "Vintage Watch" "seller" 10000 (Some 10000)
               (Some 500) (Some "U1") (Some 1) 0 1000 1000 active : AuctionHash Z).
  assert (Ha1 : hashes (storeA1 (N := Z)) !! "auction:A" = Some a1) by reflexivity.
  assert (Hact : h_status a1 = active) by reflexivity.
  destruct (Hsem Z Cents storeA1 "auction:A" a1 985 30 30 Ha1 Hact) as [Hyes _].
  destruct (Hsem Z Cents storeA1 "auction:A" a1 900 30 30 Ha1 Hact) as [_ Hno].
  assert (Hin : 0 < h_end_time a1 - 985 <= 30) by (cbn; lia).
  assert (Hout : ~ (0 < h_end_time a1 - 900 <= 30)) by (cbn; lia).
  destruct (Hyes Hin) as (Hr & Hh & _ & _).
  split; [exact Hr|]. split; [exact Hh|]. split; [exact (Hno Hout)|].
  exact (Hmono Z Cents storeA1 "auction:A" a1 985 30 30 Ha1).
Defined.

(** ** C3: ended is terminal, finalize is exactly-once *)

Section Terminal.
Context {N : Type} `{LuaNumber N}.

Lemma finalize_ended (s : Store N) key a t :
  hashes s !! key = Some a -> h_status a = ended ->
  finalize_auction s key t = (FIN_ALREADY_FINAL (h_id a) ended, s).
Proof.
  intros Ha Hst. unfold finalize_auction, HGETALL. rewrite Ha, Hst. reflexivity.
Qed.

Lemma extend_ended (s : Store N) key a t threshold duration :
  hashes s !! key = Some a -> h_status a = ended ->
  extend_auction s key t threshold duration = (EX_NOT_ACTIVE (h_id a) ended, s).
Proof.
  intros Ha Hst. unfold extend_auction, HGETALL. rewrite Ha, Hst. reflexivity.
Qed.

Lemma place_bid_ended (s : Store N) key a amount bidder t hint :
  hashes s !! key = Some a -> h_status a = ended ->
  place_bid s key amount bidder t hint
  = (match amount with
     | Some x => if num_le x num_zero then PB_INVALID_AMOUNT
                 else PB_NOT_ACTIVE (h_id a) ended
     | None => PB_INVALID_AMOUNT
     end, s).
Proof.
  intros Ha Hst. unfold place_bid, HGETALL. rewrite Ha, Hst.
  destruct amount as [x|]; [|reflexivity].
  destruct (num_le x num_zero); reflexivity.
Qed.

Lemma finalize_calls_ended (s : Store N) key a ts :
  hashes s !! key = Some a -> h_status a = ended ->
  finalize_calls s key ts = (replicate (length ts) (FIN_ALREADY_FINAL (h_id a) ended), s).
Proof.
  intros Ha Hst. induction ts as [|t ts IH]; [reflexivity|].
  cbn [finalize_calls]. rewrite (finalize_ended s key a t Ha Hst), IH. reflexivity.
Qed.

End Terminal.

(** C3.  Once an auction's status is ended no primitive changes the
    store: finalize returns ALREADY_FINAL, extend returns NOT_ACTIVE, and
    placeBid returns NOT_ACTIVE (INVALID_AMOUNT for an amount that is missing
    or not positive, which the amount check of P1 turns down first).  Hence,
    on an existing active auction, of any sequence of finalize calls with
    serverTime >= endTime the first one succeeds (it sets status to ended,
    leaves the other fields as they were and removes the auction from the
    active-auctions index) and all later ones return ALREADY_FINAL and
    change nothing. *)
Theorem ended_is_terminal :
  (forall (N : Type) (L : LuaNumber N) (s : Store N) (key : string) (a : AuctionHash N),
      hashes s !! key = Some a -> h_status a = ended ->
      (forall t, finalize_auction s key t = (FIN_ALREADY_FINAL (h_id a) ended, s))
      /\ (forall t threshold duration,
            extend_auction s key t threshold duration = (EX_NOT_ACTIVE (h_id a) ended, s))
      /\ (forall amount bidder t hint,
            snd (place_bid s key amount bidder t hint) = s
            /\ fst (place_bid s key amount bidder t hint)
               = match amount with
                 | Some x => if num_le x num_zero then PB_INVALID_AMOUNT
                             else PB_NOT_ACTIVE (h_id a) ended
                 | None => PB_INVALID_AMOUNT
                 end))
  /\ (forall (N : Type) (L : LuaNumber N) (s : Store N) (key : string)
             (a : AuctionHash N) (t : Z) (ts : list Z),
        hashes s !! key = Some a -> h_status a = active ->
        Forall (fun t' => h_end_time a <= t') (t :: ts) ->
        (fin_status (fst (finalize_auction s key t)) = 1
         \/ fin_status (fst (finalize_auction s key t)) = 0)
        /\ hashes (snd (finalize_auction s key t)) !! key
           = Some (mkAuctionHash (h_id a) (h_title a) (h_seller_id a) (h_starting_price a)
                     (h_current_bid a) (h_bid_increment a) (h_highest_bidder_id a)
                     (h_total_bids a) (h_start_time a) (h_end_time a)
                     (h_original_end_time a) ended)
        /\ active_index (snd (finalize_auction s key t)) = delete (h_id a) (active_index s)
        /\ finalize_calls s key (t :: ts)
           = (fst (finalize_auction s key t)
              :: replicate (length ts) (FIN_ALREADY_FINAL (h_id a) ended),
              snd (finalize_auction s key t))).
Proof.
  split.
  - intros N L s key a Ha Hst. split; [|split].
    + intros t. apply finalize_ended; assumption.
    + intros t threshold duration. apply extend_ended; assumption.
    + intros amount bidder t hint.
      rewrite (place_bid_ended s key a amount bidder t hint Ha Hst). split; reflexivity.
  - intros N L s key a t ts Ha Hact Hts.
    assert (Hs1 : hashes (snd (finalize_auction s key t)) !! key = Some (set_status ended a)
                  /\ active_index (snd (finalize_auction s key t))
                     = delete (h_id a) (active_index s)
                  /\ (fin_status (fst (finalize_auction s key t)) = 1
                      \/ fin_status (fst (finalize_auction s key t)) = 0)).
    { unfold finalize_auction, HGETALL. rewrite Ha, Hact. cbn [status_eqb].
      apply Forall_cons in Hts as [Ht _].
      destruct (Z.ltb_spec t (h_end_time a)); [lia|].
      destruct ((0 <? default 0 (h_total_bids a))
                && bool_decide (is_Some (h_highest_bidder_id a)));
        cbn [fst snd fin_status];
        rewrite hashes_EXPIREAT, active_index_EXPIREAT; unfold ZREM_active, HSET; cbn;
        rewrite (alter_lookup _ _ _ _ Ha), lookup_insert_eq; auto. }
    destruct Hs1 as (Hh & Hidx & Hr). repeat split; try assumption.
    cbn [finalize_calls].
    destruct (finalize_auction s key t) as [r s1]. cbn [fst snd] in *.
    rewrite (finalize_calls_ended s1 key (set_status ended a) ts Hh eq_refl).
    reflexivity.
Qed.

Lemma ended_is_terminal_witness :
  finalize_auction (N := Z) storeA_ended "auction:A" 1001
  = (FIN_ALREADY_FINAL "A" ended, storeA_ended)
  /\ finalize_calls (N := Z) storeA1 "auction:A" [1000; 1000; 1003]
     = ([FIN_FINALIZED "A" (Some "U1") (Some 10000) 1 1000 10000;
         FIN_ALREADY_FINAL "A" ended; FIN_ALREADY_FINAL "A" ended], storeA_ended).
Proof.
  destruct ended_is_terminal as [Hterm Honce].
  set (a1 := mkAuctionHash "A" "Vintage Watch" "seller" 10000 (Some 10000)
               (Some 500) (Some "U1") (Some 1) 0 1000 1000 active : AuctionHash Z).
  split.
  - apply (Hterm Z Cents storeA_ended "auction:A" (set_status ended a1)); reflexivity.
  - assert (Hts : Forall (fun t' => h_end_time a1 <= t') [1000; 1000; 1003]).
    { repeat constructor; cbn; lia. }
    assert (Ha1 : hashes (storeA1 (N := Z)) !! "auction:A" = Some a1) by reflexivity.
    destruct (Honce Z Cents storeA1 "auction:A" a1 1000 [1000; 1003] Ha1 eq_refl Hts)
      as (_ & _ & _ & Hcalls).
    rewrite Hcalls. reflexivity.
Defined.

(** ** C2: the price over a sequence of bids *)

(** C2, the code at the failing input.  place-bid.lua compares doubles and
    stores the accepted amount as [tostring] prints it, with fourteen
    significant digits.  On auction L (bidIncrement 1.00) the bid
    123456789012344.00 is accepted and stored as 123456789012340; the bid
    123456789012342.00 that follows is two units below the first one and is
    accepted as well: the accepted amounts go down.  On auction A
    (bidIncrement 5.00) the bid 1234567890128.42 is accepted after
    1234567890123.44, 4.98 above it. *)
Theorem large_amounts_break_monotonic_price :
  h_bid_increment (auctionL (N := float)) = Some (tonumber_decimal 100)
  /\ accepted_bids storeL "auction:L" calls_descending
     = [tonumber_decimal 12345678901234400; tonumber_decimal 12345678901234200]
  /\ PrimFloat.ltb (tonumber_decimal 12345678901234200) (tonumber_decimal 12345678901234400)
     = true
  /\ (h_current_bid <$> hashes (place_bids storeL "auction:L" (take 1 calls_descending))
                          !! "auction:L")
     = Some (Some (tonumber_decimal 12345678901234000))
  /\ (h_current_bid <$> hashes (place_bids storeL "auction:L" calls_descending)
                          !! "auction:L")
     = Some (Some (tonumber_decimal 12345678901234000))
  /\ (h_bid_increment <$> hashes (storeA (N := float)) !! "auction:A")
     = Some (Some (tonumber_decimal 500))
  /\ accepted_bids storeA "auction:A" calls_short_step
     = [tonumber_decimal 123456789012344; tonumber_decimal 123456789012842]
  /\ PrimFloat.ltb (tonumber_decimal 123456789012842)
       (PrimFloat.add (tonumber_decimal 123456789012344) (tonumber_decimal 500))
     = true.
Proof. repeat split; vm_compute; reflexivity. Qed.


(** ** C10: lazy hydration of an auction that has ended *)

Section Hydration.
Context {N : Type} `{LuaNumber N}.

Lemma place_bid_absent (s : Store N) key amount bidder t hint :
  hashes s !! key = None -> place_bid s key amount bidder t hint = (PB_NOT_FOUND, s).
Proof. intros Hk. unfold place_bid, HGETALL. rewrite Hk. reflexivity. Qed.

(** [loadAuctionToRedis] refuses an auction whose end is not in the future. *)
Lemma loadAuctionToRedis_ended (sys : System N) now now_schedule (auction : AuctionRow N) :
  r_end_time auction <= now -> loadAuctionToRedis sys now now_schedule auction = sys.
Proof.
  intros Hend. unfold loadAuctionToRedis.
  assert (r_end_time auction / 1000 <= now / 1000) by (apply Z.div_le_mono; lia).
  destruct (Z.leb_spec (r_end_time auction / 1000 - now / 1000) 0); [reflexivity|lia].
Qed.

Lemma placeBid_ended_in_cold_store (sys : System N) (clock : Clock) auctionId bidder
    username amount ip ua (row : AuctionRow N) :
  rate_limit_key bidder ∉ rate_limit (redis sys) ->
  hashes (redis sys) !! auction_key auctionId = None ->
  auctions (postgres sys) !! auctionId = Some row ->
  r_end_time row <= at_load clock ->
  fst (placeBid sys clock auctionId bidder username amount ip ua)
  = Returned (Rejected "AUCTION_NOT_FOUND" PB_NOT_FOUND)
  /\ hashes (redis (snd (placeBid sys clock auctionId bidder username amount ip ua)))
     = hashes (redis sys)
  /\ effects (snd (placeBid sys clock auctionId bidder username amount ip ua))
     = effects sys.
Proof.
  intros Hrate Hhot Hcold Hend. unfold placeBid, luaScripts_placeBid.
  rewrite (bool_decide_eq_false_2 _ Hrate).
  rewrite place_bid_absent by exact Hhot.
  cbn [pb_status Z.eqb Z.opp Pos.eqb].
  unfold AuctionRepository.findById. cbn [postgres with_redis]. rewrite Hcold.
  rewrite (loadAuctionToRedis_ended _ _ _ _ Hend).
  cbn [redis with_redis].
  rewrite place_bid_absent by exact Hhot.
  cbn. repeat split.
Qed.

End Hydration.

(** C10.  When the auction is in the cold store with its endTime in the
    past and has no record in the hot store, a bid on it (by a bidder who is
    not rate-limited) is rejected with AUCTION_NOT_FOUND, not AUCTION_ENDED:
    [loadAuctionToRedis] installs nothing because endTime - now is not
    positive, the one retry of place-bid.lua answers NOT_FOUND again, no job
    is queued and nothing is published, and the gateway sends the client
    BID_REJECTED with code AUCTION_NOT_FOUND. *)
Theorem ended_auction_bid_rejected_not_found (N : Type) (L : LuaNumber N)
    (sys : System N) (clock : Clock) (socket : Socket) (auctionId : string)
    (amount : N) (ip ua : option string) (row : AuctionRow N) :
  rate_limit_key (userId socket) ∉ rate_limit (redis sys) ->
  hashes (redis sys) !! auction_key auctionId = None ->
  auctions (postgres sys) !! auctionId = Some row ->
  r_end_time row <= at_load clock ->
  auctionId <> "" -> isNaN amount = false -> num_le amount num_zero = false ->
  fst (placeBid sys clock auctionId (userId socket) (Some (username socket)) amount ip ua)
  = Returned (Rejected "AUCTION_NOT_FOUND" PB_NOT_FOUND)
  /\ hashes (redis (snd (placeBid sys clock auctionId (userId socket)
                           (Some (username socket)) amount ip ua)))
       !! auction_key auctionId = None
  /\ effects (snd (placeBid sys clock auctionId (userId socket)
                     (Some (username socket)) amount ip ua)) = effects sys
  /\ snd (on_BID_PLACED sys clock socket
            (Some (mkBidPayload (Some auctionId) (amount_parsed amount))) ip ua)
     = [(ToSocket (socket_id socket),
         M_BID_REJECTED (Some auctionId) "AUCTION_NOT_FOUND" (Some PB_NOT_FOUND))].
Proof.
  intros Hrate Hhot Hcold Hend Hid Hnan Hpos.
  destruct (placeBid_ended_in_cold_store sys clock auctionId (userId socket)
              (Some (username socket)) amount ip ua row Hrate Hhot Hcold Hend)
    as (Hres & Hhashes & Heff).
  split; [exact Hres|]. split; [rewrite Hhashes; exact Hhot|]. split; [exact Heff|].
  unfold on_BID_PLACED, falsy. cbn [p_auctionId p_amount]. rewrite Hnan, Hpos.
  destruct (String.eqb_spec auctionId ""); [contradiction|]. cbn [orb default].
  unfold id.
  destruct (placeBid sys clock auctionId (userId socket) (Some (username socket)) amount
              ip ua) as [out sys'].
  cbn [fst] in Hres. rewrite Hres. reflexivity.
Qed.

Lemma ended_auction_bid_rejected_not_found_witness :
  snd (on_BID_PLACED (N := Z) systemE clockE socketU1
         (Some (mkBidPayload (Some "E") (amount_parsed 10000))) None None)
  = [(ToSocket "socket-1",
      M_BID_REJECTED (Some "E") "AUCTION_NOT_FOUND" (Some PB_NOT_FOUND))].
Proof.
  apply (ended_auction_bid_rejected_not_found Z Cents systemE clockE socketU1 "E" 10000
           None None rowE).
  - apply not_elem_of_empty.
  - reflexivity.
  - reflexivity.
  - cbn. lia.
  - discriminate.
  - reflexivity.
  - reflexivity.
Defined.

(** ** C6 and C7: the persist-bid worker on the cold store *)

Section MirrorWrites.
Context {N : Type} `{LuaNumber N} `{PgNumeric N}.

(** Applying the same updates twice is applying them once. *)
Lemma apply_updates_twice (u : Updates N) (r : AuctionRow N) :
  apply_updates u (apply_updates u r) = apply_updates u r.
Proof.
  unfold apply_updates. cbn.
  destruct (u_current_bid u), (u_highest_bidder_id u), (u_total_bids u), (u_status u);
    reflexivity.
Qed.

(** The parameters of the mirror update as the columns hold them. *)
Lemma stored_persist_updates (job : PersistBidJob N) (u : Updates N) :
  AuctionRepository.stored_updates (persist_updates job) = Some u ->
  exists v, numeric_12_2 (j_amount job) = Some v
            /\ u = mkUpdates (Some (Some v)) (Some (Some (j_bidderId job)))
                     (Some (default 0 (j_totalBids job))) None.
Proof.
  unfold AuctionRepository.stored_updates, persist_updates.
  cbn [u_current_bid u_highest_bidder_id u_total_bids u_status].
  destruct (numeric_12_2 (j_amount job)) as [v|]; [|discriminate].
  destruct (int4 _); [|discriminate].
  intros [= <-]. exists v. split; reflexivity.
Qed.

(** The row that the mirror update of a persist-bid job leaves. *)
Lemma persist_updates_row (job : PersistBidJob N) (v : N) (r : AuctionRow N) :
  apply_updates (mkUpdates (Some (Some v)) (Some (Some (j_bidderId job)))
                   (Some (default 0 (j_totalBids job))) None) r
  = mkAuctionRow (r_id r) (r_seller_id r) (r_title r) (r_starting_price r)
      (Some v) (r_bid_increment r) (Some (j_bidderId job))
      (default 0 (j_totalBids job)) (r_start_time r) (r_end_time r)
      (r_original_end_time r) (r_status r).
Proof. reflexivity. Qed.

(** A delivery of a job without bidId whose insert and update pass: it
    inserts one row into [bids], with the next generated key, and writes the
    job's bid, bidder and count to the auction row, whatever the status of
    that row. *)
Lemma processBidPersistence_inserts (db : ColdStore N) (now : Z) (job : PersistBidJob N)
    (r : AuctionRow N) (v : N) (prev : option N) :
  or_null (j_bidId job) = None ->
  numeric_12_2 (j_amount job) = Some v ->
  match j_previousBid job with
  | Some p => option_map Some (numeric_12_2 p)
  | None => Some None
  end = Some prev ->
  num_lt num_zero v = true ->
  auctions db !! j_auctionId job = Some r ->
  String.eqb (r_seller_id r) (j_bidderId job) = false ->
  j_bidderId job ∈ users db ->
  int4 (default 0 (j_totalBids job)) = true ->
  auction_checks
    (mkAuctionRow (r_id r) (r_seller_id r) (r_title r) (r_starting_price r)
       (Some v) (r_bid_increment r) (Some (j_bidderId job))
       (default 0 (j_totalBids job)) (r_start_time r) (r_end_time r)
       (r_original_end_time r) (r_status r)) = true ->
  processBidPersistence db now job
  = (Completed (persisted_all (next_uuid db) (j_auctionId job) (j_amount job)),
     mkColdStore (users db)
       (<[j_auctionId job :=
            mkAuctionRow (r_id r) (r_seller_id r) (r_title r) (r_starting_price r)
              (Some v) (r_bid_increment r) (Some (j_bidderId job))
              (default 0 (j_totalBids job)) (r_start_time r) (r_end_time r)
              (r_original_end_time r) (r_status r)]> (auctions db))
       (bids db ++ [mkBidRow (next_uuid db) (j_auctionId job) (j_bidderId job) v
                      (persist_bid_time now job) prev true (or_null (j_ipAddress job))
                      (or_null (j_userAgent job))])
       (S (next_uuid db))).
Proof.
  intros Hid Hv Hprev Hpos Hr Hseller Huser Hint Hchecks.
  unfold processBidPersistence. rewrite Hid.
  rewrite (bool_decide_eq_true_2 (None = None) eq_refl). cbn [negb].
  unfold BidRepository.create, persist_bid_data.
  cbn [BidRepository.bd_amount BidRepository.bd_previous_bid BidRepository.bd_auction_id
       BidRepository.bd_bidder_id BidRepository.bd_bid_time BidRepository.bd_is_winning
       BidRepository.bd_ip_address BidRepository.bd_user_agent].
  rewrite Hv, Hprev, Hpos, Hr, Hseller.
  rewrite (bool_decide_eq_true_2 _ Huser). cbn [negb default].
  unfold AuctionRepository.update, AuctionRepository.stored_updates, persist_updates.
  cbn [no_updates u_current_bid u_highest_bidder_id u_total_bids u_status].
  rewrite Hv, Hint. cbn [auctions users bids next_uuid]. rewrite Hr.
  rewrite persist_updates_row, Hchecks. cbn [negb r_highest_bidder_id].
  unfold AuctionRepository.bidder_reference_ok. cbn [users].
  rewrite (bool_decide_eq_true_2 _ Huser), orb_true_r. reflexivity.
Qed.

(** Such a delivery is the only way a job completes with [persisted_all]. *)
Lemma processBidPersistence_completed (db : ColdStore N) (now : Z) (job : PersistBidJob N)
    (bidId : nat) (auctionId : string) (amt : N) :
  fst (processBidPersistence db now job) = Completed (persisted_all bidId auctionId amt) ->
  exists (r : AuctionRow N) (v : N) (prev : option N),
    or_null (j_bidId job) = None
    /\ numeric_12_2 (j_amount job) = Some v
    /\ match j_previousBid job with
       | Some p => option_map Some (numeric_12_2 p)
       | None => Some None
       end = Some prev
    /\ num_lt num_zero v = true
    /\ auctions db !! j_auctionId job = Some r
    /\ String.eqb (r_seller_id r) (j_bidderId job) = false
    /\ j_bidderId job ∈ users db
    /\ int4 (default 0 (j_totalBids job)) = true
    /\ auction_checks
         (mkAuctionRow (r_id r) (r_seller_id r) (r_title r) (r_starting_price r)
            (Some v) (r_bid_increment r) (Some (j_bidderId job))
            (default 0 (j_totalBids job)) (r_start_time r) (r_end_time r)
            (r_original_end_time r) (r_status r)) = true
    /\ bidId = next_uuid db /\ auctionId = j_auctionId job /\ amt = j_amount job.
Proof.
  unfold processBidPersistence.
  destruct (or_null (j_bidId job)) as [b|] eqn:Hid.
  { rewrite bool_decide_eq_false_2 by discriminate.
    unfold catch_persist; cbn; discriminate. }
  rewrite (bool_decide_eq_true_2 (None = None) eq_refl). cbn [negb].
  unfold BidRepository.create, persist_bid_data.
  cbn [BidRepository.bd_amount BidRepository.bd_previous_bid BidRepository.bd_auction_id
       BidRepository.bd_bidder_id BidRepository.bd_bid_time BidRepository.bd_is_winning
       BidRepository.bd_ip_address BidRepository.bd_user_agent].
  destruct (numeric_12_2 (j_amount job)) as [v|] eqn:Hv;
    [|unfold catch_persist; cbn; discriminate].
  destruct (match j_previousBid job with
            | Some p => option_map Some (numeric_12_2 p)
            | None => Some None
            end) as [prev|] eqn:Hprev; [|unfold catch_persist; cbn; discriminate].
  destruct (num_lt num_zero v) eqn:Hpos; cbn [negb];
    [|unfold catch_persist; cbn; discriminate].
  destruct (auctions db !! j_auctionId job) as [r|] eqn:Hr;
    [|unfold catch_persist; cbn; discriminate].
  destruct (String.eqb (r_seller_id r) (j_bidderId job)) eqn:Hseller;
    [unfold catch_persist; cbn; discriminate|].
  destruct (decide (j_bidderId job ∈ users db)) as [Huser|Huser].
  2:{ rewrite (bool_decide_eq_false_2 _ Huser). unfold catch_persist; cbn; discriminate. }
  rewrite (bool_decide_eq_true_2 _ Huser). cbn [negb].
  unfold AuctionRepository.update, AuctionRepository.stored_updates, persist_updates.
  cbn [no_updates u_current_bid u_highest_bidder_id u_total_bids u_status].
  rewrite Hv.
  destruct (int4 (default 0 (j_totalBids job))) eqn:Hint;
    [|unfold catch_persist; cbn; discriminate].
  cbn [auctions users bids next_uuid]. rewrite Hr. rewrite persist_updates_row.
  destruct (auction_checks _) eqn:Hchecks; cbn [negb];
    [|unfold catch_persist; cbn; discriminate].
  destruct (negb (AuctionRepository.bidder_reference_ok _ _ _));
    [unfold catch_persist; cbn; discriminate|].
  cbn [fst snd b_id]. intros [= <- <- <-].
  exists r, v, prev. repeat split; assumption || reflexivity.
Qed.

(** A persist-bid job that completes once completes again on redelivery,
    and each delivery adds a row to [bids]. *)
Lemma persist_bid_redelivery (db : ColdStore N) (now now' : Z) (job : PersistBidJob N)
    (bidId : nat) :
  fst (processBidPersistence db now job)
  = Completed (persisted_all bidId (j_auctionId job) (j_amount job)) ->
  let db1 := snd (processBidPersistence db now job) in
  fst (processBidPersistence db1 now' job)
  = Completed (persisted_all (S bidId) (j_auctionId job) (j_amount job))
  /\ length (bids db1) = S (length (bids db))
  /\ length (bids (snd (processBidPersistence db1 now' job))) = S (S (length (bids db))).
Proof.
  intros Hfst.
  destruct (processBidPersistence_completed db now job _ _ _ Hfst)
    as (r & v & prev & Hid & Hv & Hprev & Hpos & Hr & Hseller & Huser & Hint & Hchecks
        & -> & _ & _).
  rewrite (processBidPersistence_inserts db now job r v prev Hid Hv Hprev Hpos Hr Hseller
             Huser Hint Hchecks).
  cbn [snd].
  erewrite (processBidPersistence_inserts _ now' job _ v prev Hid Hv Hprev Hpos);
    [ | apply lookup_insert_eq | exact Hseller | exact Huser | exact Hint | exact Hchecks ].
  cbn [fst snd bids next_uuid]. rewrite !length_app. cbn. repeat split; lia.
Qed.

End MirrorWrites.

(** *** C6: the mirror write and the status of the row *)

(** C6, the code at the failing input.  [AuctionRepository.update] names
    only the id in its WHERE clause, so the auction update that
    [processBidPersistence] performs is applied whatever the status of the
    row: whenever the job completes, the row holds the job's bid, bidder and
    count, and its status is as before.  Auction A has ended with U2 winning
    at 105.00 after two bids; the persist-bid job of U1's earlier bid of
    100.00 is processed late: the final currentBid 105.00, winner U2 and
    totalBids 2 of the ended row are overwritten with 100.00, U1 and 1. *)
Theorem late_mirror_job_overwrites_ended_row :
  (forall (N : Type) (L : LuaNumber N) (P : PgNumeric N) (db : ColdStore N) (now : Z)
          (job : PersistBidJob N) (bidId : nat) (r : AuctionRow N),
      auctions db !! j_auctionId job = Some r ->
      fst (processBidPersistence db now job)
      = Completed (persisted_all bidId (j_auctionId job) (j_amount job)) ->
      exists v,
        numeric_12_2 (j_amount job) = Some v
        /\ auctions (snd (processBidPersistence db now job)) !! j_auctionId job
           = Some (mkAuctionRow (r_id r) (r_seller_id r) (r_title r) (r_starting_price r)
                     (Some v) (r_bid_increment r) (Some (j_bidderId job))
                     (default 0 (j_totalBids job)) (r_start_time r) (r_end_time r)
                     (r_original_end_time r) (r_status r)))
  /\ auctions (coldA_ended (N := Z)) !! "A"
     = Some (mkAuctionRow "A" "seller" "Vintage Watch" 10000 (Some 10500) 500 (Some "U2") 2
               0 1000000 1000000 ended)
  /\ fst (processBidPersistence (N := Z) coldA_ended 1000500 jobS1)
     = Completed (persisted_all 0 "A" 10000)
  /\ auctions (snd (processBidPersistence (N := Z) coldA_ended 1000500 jobS1)) !! "A"
     = Some (mkAuctionRow "A" "seller" "Vintage Watch" 10000 (Some 10000) 500 (Some "U1") 1
               0 1000000 1000000 ended).
Proof.
  split; [|repeat split; vm_compute; reflexivity].
  intros N L P db now job bidId r Hr Hfst.
  destruct (processBidPersistence_completed db now job _ _ _ Hfst)
    as (r' & v & prev & Hid & Hv & Hprev & Hpos & Hr' & Hseller & Huser & Hint & Hchecks
        & _).
  rewrite Hr in Hr'. injection Hr' as <-.
  exists v. split; [exact Hv|].
  rewrite (processBidPersistence_inserts db now job r v prev Hid Hv Hprev Hpos Hr Hseller
             Huser Hint Hchecks).
  cbn [snd auctions]. apply lookup_insert_eq.
Qed.

Lemma late_mirror_job_overwrites_ended_row_witness :
  exists v,
    numeric_12_2 (j_amount (jobS1 (N := Z))) = Some v
    /\ auctions (snd (processBidPersistence (N := Z) coldA_ended 1000500 jobS1))
         !! j_auctionId (jobS1 (N := Z))
       = Some (mkAuctionRow "A" "seller" "Vintage Watch" 10000 (Some v) 500 (Some "U1") 1
                 0 1000000 1000000 ended).
Proof.
  destruct late_mirror_job_overwrites_ended_row as [Hany _].
  assert (Hr : auctions (coldA_ended (N := Z)) !! j_auctionId (jobS1 (N := Z))
               = Some rowA_ended) by reflexivity.
  assert (Hfst : fst (processBidPersistence (N := Z) coldA_ended 1000500 jobS1)
                 = Completed (persisted_all 0 (j_auctionId (jobS1 (N := Z)))
                                (j_amount (jobS1 (N := Z)))))
    by (vm_compute; reflexivity).
  exact (Hany Z Cents Cents_numeric coldA_ended 1000500 jobS1 0%nat rowA_ended Hr Hfst).
Defined.

(** *** C7: redelivery of a persist-bid job *)

(** C7, the code at the failing input.  A persist-bid job that completes
    once completes again when it is delivered again, and each delivery
    inserts a row into bids.  The job that [BidService.placeBid] queues for
    U1's accepted bid carries no bidId, and its job id is built from
    [Date.now()]: processing that job once inserts one row, processing the
    same payload a second time inserts a second row for the same bid.  A
    job that does carry a bidId fails at the idempotency check, which calls
    a method the repository does not have. *)
Theorem redelivered_persist_bid_inserts_twice :
  (forall (N : Type) (L : LuaNumber N) (P : PgNumeric N) (db : ColdStore N)
          (now now' : Z) (job : PersistBidJob N) (bidId : nat),
      fst (processBidPersistence db now job)
      = Completed (persisted_all bidId (j_auctionId job) (j_amount job)) ->
      fst (processBidPersistence (snd (processBidPersistence db now job)) now' job)
      = Completed (persisted_all (S bidId) (j_auctionId job) (j_amount job))
      /\ length (bids (snd (processBidPersistence db now job))) = S (length (bids db))
      /\ length (bids (snd (processBidPersistence
                              (snd (processBidPersistence db now job)) now' job)))
         = S (S (length (bids db))))
  /\ effects (snd (placeBid (N := Z) systemA clockS1 "A" "U1" (Some "alice") 10000 None None))
     = [EnqueueFinalize (finalize_job_id "A") "A" (Some 199999);
        EnqueuePersistBid (bid_job_id "A" "U1" 900003) jobS1;
        Publish_bid_placed "A" 10000 "U1" "alice" 900000 1 0 false None]
  /\ j_bidId (jobS1 (N := Z)) = None
  /\ fst (processBidPersistence (N := Z) coldA 900500 jobS1)
     = Completed (persisted_all 0 "A" 10000)
  /\ bids (snd (processBidPersistence (N := Z) coldA 900500 jobS1))
     = [mkBidRow 0%nat "A" "U1" 10000 900000 (Some 0) true None None]
  /\ fst (processBidPersistence
            (snd (processBidPersistence (N := Z) coldA 900500 jobS1)) 902500 jobS1)
     = Completed (persisted_all 1 "A" 10000)
  /\ bids (snd (processBidPersistence
                  (snd (processBidPersistence (N := Z) coldA 900500 jobS1)) 902500 jobS1))
     = [mkBidRow 0%nat "A" "U1" 10000 900000 (Some 0) true None None;
        mkBidRow 1%nat "A" "U1" 10000 900000 (Some 0) true None None]
  /\ processBidPersistence (N := Z) coldA 900500
       (mkPersistBidJob "A" "U1" 10000 (Some 900) (Some 0) (Some 1) None None (Some "bid-1"))
     = (Thrown "TypeError", coldA).
Proof.
  split; [|repeat split; vm_compute; reflexivity].
  intros N L P db now now' job bidId Hfst.
  exact (persist_bid_redelivery db now now' job bidId Hfst).
Qed.

Lemma redelivered_persist_bid_inserts_twice_witness :
  fst (processBidPersistence
         (snd (processBidPersistence (N := Z) coldA 900500 jobS1)) 902500 jobS1)
  = Completed (persisted_all 1 (j_auctionId (jobS1 (N := Z))) (j_amount (jobS1 (N := Z))))
  /\ length (bids (snd (processBidPersistence (N := Z) coldA 900500 jobS1)))
     = S (length (bids (coldA (N := Z))))
  /\ length (bids (snd (processBidPersistence
                          (snd (processBidPersistence (N := Z) coldA 900500 jobS1))
                          902500 jobS1)))
     = S (S (length (bids (coldA (N := Z))))).
Proof.
  destruct redelivered_persist_bid_inserts_twice as [Hany _].
  apply (Hany Z Cents Cents_numeric coldA 900500 902500 jobS1 0%nat).
  vm_compute. reflexivity.
Defined.

(** ** C8: the arithmetic of the admission path *)

(** C8, the code at the failing input.  On an auction with currentBid 1.10
    and bidIncrement 2.20 the bid 3.30 is exactly the minimum bid: in exact
    decimals place-bid.lua accepts it.  With the binary64 numbers of Lua,
    1.10 + 2.20 is 3.3000000000000003, the bid 3.30 (3.2999999999999998) is
    below it, and the script answers TOO_LOW; the reply prints the minimum
    bid with fourteen digits, as 3.3. *)
Theorem binary64_rejects_exact_minimum_bid :
  pb_status (fst (place_bid (N := Z) storeD "auction:D" (Some (tonumber_decimal 330))
                    "U2" 900 None)) = 1
  /\ fst (place_bid (N := float) storeD "auction:D" (Some (tonumber_decimal 330))
            "U2" 900 None)
     = PB_TOO_LOW "D" (tonumber_decimal 110)
         (num_tostring (PrimFloat.add (tonumber_decimal 110) (tonumber_decimal 220)))
         (tonumber_decimal 330) false
  /\ PrimFloat.ltb (tonumber_decimal 330)
       (PrimFloat.add (tonumber_decimal 110) (tonumber_decimal 220)) = true
  /\ num_tostring (PrimFloat.add (tonumber_decimal 110) (tonumber_decimal 220))
     = tonumber_decimal 330
  /\ (110 + 220 <=? 330) = true.
Proof. repeat split; vm_compute; reflexivity. Qed.

(** ** C9: clock sync on connect *)

(** C9, the code at the failing input.  A handshake that passes the
    authentication middleware runs the connection listeners, and they emit
    nothing: no SERVER_TIME message is sent on connect.  No message the
    gateway emits, on any event, is named SERVER_TIME. *)
Theorem no_SERVER_TIME_on_connect :
  (forall (N : Type) (jwt_verify : string -> option (string * string))
          (gw : GatewayState) (socketId : string) (token : option string),
      snd (connect (N := N) jwt_verify gw socketId token)
      = match authenticate jwt_verify socketId token with
        | inl err => inl err
        | inr _ => inr []
        end)
  /\ (forall (N : Type) (m : ServerMsg N), String.eqb (event_name m) "SERVER_TIME" = false)
  /\ snd (connect (N := Z) (fun _ => Some ("U1", "alice")) (mkGatewayState ∅ ∅)
            "socket-1" (Some "valid.jwt.token"))
     = inr [].
Proof.
  split; [|split].
  - intros N jwt_verify gw socketId token. unfold connect.
    destruct (authenticate jwt_verify socketId token); reflexivity.
  - intros N m. destruct m; reflexivity.
  - reflexivity.
Qed.
(* ===================================================================== *)
(** * Further properties: the scripts *)
(* ===================================================================== *)

(** X1.  A bid is accepted only on an active auction, strictly before its
    end time, from a bidder other than the seller and for a positive amount
    that is not below the minimum bid; the record then holds the amount as
    [tostring] prints it, the bidder as highest bidder and one more bid, its
    other fields being as before. *)
Theorem accepted_bid_guards (N : Type) (L : LuaNumber N) (s : Store N) (key : string)
    (x : N) (bidder : string) (t : Z) (hint : option N) :
  isNaN x = false ->
  pb_status (fst (place_bid s key (Some x) bidder t hint)) = 1 ->
  exists a,
    hashes s !! key = Some a /\ num_le x num_zero = false
    /\ h_status a = active /\ t < h_end_time a /\ bidder <> h_seller_id a
    /\ num_lt x (if isFirstBid a then h_starting_price a
                 else num_add (currentBid a) (effectiveIncrement a hint)) = false
    /\ hashes (snd (place_bid s key (Some x) bidder t hint)) !! key
       = Some (mkAuctionHash (h_id a) (h_title a) (h_seller_id a) (h_starting_price a)
                 (Some (num_tostring x)) (h_bid_increment a) (Some bidder)
                 (Some (default 0 (h_total_bids a) + 1))
                 (h_start_time a) (h_end_time a) (h_original_end_time a) active).
Proof.
  intros _ Hok. destruct (hashes s !! key) as [a|] eqn:Ha.
  - destruct (place_bid_outcome s key a (Some x) bidder t hint Ha)
      as [[Hne _]|(x' & Hx & Hpos & Hact & Ht & Hseller & Hmin & _ & Hh & _)];
      [contradiction|].
    injection Hx as <-.
    exists a. rewrite Hh, lookup_insert_eq. unfold committed. rewrite Hact.
    repeat split; assumption.
  - unfold place_bid, HGETALL in Hok. rewrite Ha in Hok. discriminate.
Qed.

Lemma accepted_bid_guards_witness :
  exists a,
    hashes (storeA1 (N := Z)) !! "auction:A" = Some a
    /\ num_le 10500 num_zero = false /\ h_status a = active /\ 910 < h_end_time a
    /\ "U2" <> h_seller_id a
    /\ num_lt 10500 (if isFirstBid a then h_starting_price a
                     else num_add (currentBid a) (effectiveIncrement a None)) = false
    /\ hashes (snd (place_bid storeA1 "auction:A" (Some 10500) "U2" 910 None))
         !! "auction:A"
       = Some (mkAuctionHash (h_id a) (h_title a) (h_seller_id a) (h_starting_price a)
                 (Some (num_tostring 10500)) (h_bid_increment a) (Some "U2")
                 (Some (default 0 (h_total_bids a) + 1))
                 (h_start_time a) (h_end_time a) (h_original_end_time a) active).
Proof.
  apply (accepted_bid_guards Z Cents storeA1 "auction:A" 10500 "U2" 910 None);
    reflexivity.
Defined.

(** X2.  A call of place-bid.lua on one auction never touches the record of
    another auction, the active-auctions index or the rate-limit keys, and
    on its own record it keeps id, seller, starting price, bid increment,
    start, end and original end time and status. *)
Theorem place_bid_frame (N : Type) (L : LuaNumber N) (s : Store N) (key : string)
    (amount : option N) (bidder : string) (t : Z) (hint : option N) :
  (forall key', key' <> key ->
     hashes (snd (place_bid s key amount bidder t hint)) !! key' = hashes s !! key')
  /\ active_index (snd (place_bid s key amount bidder t hint)) = active_index s
  /\ rate_limit (snd (place_bid s key amount bidder t hint)) = rate_limit s
  /\ (forall a, hashes s !! key = Some a ->
        exists a', hashes (snd (place_bid s key amount bidder t hint)) !! key = Some a'
          /\ h_id a' = h_id a /\ h_seller_id a' = h_seller_id a
          /\ h_starting_price a' = h_starting_price a
          /\ h_bid_increment a' = h_bid_increment a
          /\ h_start_time a' = h_start_time a /\ h_end_time a' = h_end_time a
          /\ h_original_end_time a' = h_original_end_time a
          /\ h_status a' = h_status a)
  /\ (hashes s !! key = None -> snd (place_bid s key amount bidder t hint) = s).
Proof.
  destruct (hashes s !! key) as [a|] eqn:Ha.
  - destruct (place_bid_outcome s key a amount bidder t hint Ha)
      as [[_ Hsame]|(x & _ & _ & _ & _ & _ & _ & _ & Hh & _ & Hidx & Hrl & _)].
    + rewrite Hsame. split; [reflexivity|]. split; [reflexivity|].
      split; [reflexivity|]. split; [|discriminate].
      intros a' [= <-]. exists a. rewrite Ha. split; [reflexivity|]. tauto.
    + rewrite Hh, Hidx, Hrl. split; [|split; [reflexivity|]].
      * intros key' Hne. apply lookup_insert_ne. congruence.
      * split; [reflexivity|]. split; [|discriminate].
        intros a' [= <-]. exists (committed a x bidder).
        rewrite lookup_insert_eq. split; [reflexivity|]. cbn. tauto.
  - unfold place_bid, HGETALL. rewrite Ha. cbn.
    split; [reflexivity|]. split; [reflexivity|]. split; [reflexivity|].
    split; [intros a [=]|reflexivity].
Qed.

Lemma place_bid_frame_witness :
  hashes (snd (place_bid (N := Z) storeA "auction:A" (Some 10000) "U1" 900 None))
    !! "auction:B" = hashes (storeA (N := Z)) !! "auction:B"
  /\ exists a', hashes (snd (place_bid (N := Z) storeA "auction:A" (Some 10000) "U1" 900
                               None)) !! "auction:A" = Some a'
                /\ h_end_time a' = 1000 /\ h_status a' = active.
Proof.
  destruct (place_bid_frame Z Cents storeA "auction:A" (Some 10000) "U1" 900 None)
    as (Hother & _ & _ & Hown & _).
  split.
  - apply Hother. discriminate.
  - assert (Ha : hashes (storeA (N := Z)) !! "auction:A" = Some auctionA) by reflexivity.
    destruct (Hown auctionA Ha) as (a' & Ha' & _ & _ & _ & _ & _ & Hend & _ & Hst).
    exists a'. repeat split; assumption.
Defined.

Section Runs.
Context {N : Type} `{LuaNumber N}.

(** One more call in front of a run. *)
Lemma place_bids_step (s : Store N) key (a : AuctionHash N) (c : BidCall N)
    (cs : list (BidCall N)) :
  hashes s !! key = Some a ->
  (place_bids s key (c :: cs) = place_bids s key cs
   /\ accepted_bids s key (c :: cs) = accepted_bids s key cs)
  \/ (exists x s',
        c_bidderId c <> h_seller_id a
        /\ hashes s' !! key = Some (committed a x (c_bidderId c))
        /\ place_bids s key (c :: cs) = place_bids s' key cs
        /\ accepted_bids s key (c :: cs) = x :: accepted_bids s' key cs).
Proof.
  intros Ha. cbn [place_bids accepted_bids].
  destruct (place_bid_outcome s key a (c_amount c) (c_bidderId c) (c_time c) (c_hint c) Ha)
    as [[Hne Hsame]|(x & Hx & _ & _ & _ & Hseller & _ & Hfst & Hh & _)].
  - left. destruct (place_bid s key _ _ _ _) as [r s']. cbn [fst snd] in *. subst s'.
    split; [reflexivity|]. destruct r; try reflexivity. contradiction Hne. reflexivity.
  - right. destruct (place_bid s key _ _ _ _) as [r s']. cbn [fst snd] in *. subst r.
    rewrite Hx. exists x, s'. rewrite Hh, lookup_insert_eq. repeat split; assumption.
Qed.

Lemma total_bids_run (key : string) (calls : list (BidCall N)) :
  forall (s : Store N) (a : AuctionHash N),
    hashes s !! key = Some a ->
    exists a', hashes (place_bids s key calls) !! key = Some a'
      /\ default 0 (h_total_bids a')
         = default 0 (h_total_bids a) + Z.of_nat (length (accepted_bids s key calls))
      /\ (h_highest_bidder_id a <> Some (h_seller_id a) ->
          h_highest_bidder_id a' <> Some (h_seller_id a'))
      /\ h_seller_id a' = h_seller_id a.
Proof.
  induction calls as [|c cs IH]; intros s a Ha.
  - exists a. cbn. repeat split; [exact Ha|lia|auto].
  - destruct (place_bids_step s key a c cs Ha)
      as [[Hrun Hacc]|(x & s' & Hseller & Ha' & Hrun & Hacc)]; rewrite Hrun, Hacc.
    + apply IH. exact Ha.
    + destruct (IH s' _ Ha') as (a'' & Hfin & Htotal & Hinv & Hsel).
      exists a''. split; [exact Hfin|]. split; [|split].
      * rewrite Htotal. cbn [length committed h_total_bids default from_option id].
        unfold id. lia.
      * intros _. apply Hinv. cbn. congruence.
      * rewrite Hsel. reflexivity.
Qed.

(** [ZADD] leaves the member in the set with the score: the member itself,
    or the equal member that the set held. *)
Lemma zadd_In (l : list (BidEntry N * N)) (score : N) (member : BidEntry N) :
  exists m, In (m, score) (zadd l score member)
            /\ (m = member \/ bid_entry_eqb m member = true).
Proof.
  induction l as [|[m sc] l IH]; [exists member; split; [left; reflexivity|left; reflexivity]|].
  cbn [zadd]. destruct (bid_entry_eqb m member) eqn:Heq.
  - exists m. split; [left; reflexivity|right; exact Heq].
  - destruct IH as (m' & Hin & Hm'). exists m'. split; [right; exact Hin|exact Hm'].
Qed.

End Runs.

(** X3.  Along any sequence of placeBid calls on an auction whose amounts
    are numbers (none is NaN), total_bids grows by exactly the number of
    accepted bids. *)
Theorem total_bids_counts_accepted_bids (N : Type) (L : LuaNumber N) (s : Store N)
    (key : string) (a : AuctionHash N) (calls : list (BidCall N)) :
  hashes s !! key = Some a ->
  Forall (fun c => match c_amount c with
                   | Some x => isNaN x = false
                   | None => True
                   end) calls ->
  exists a', hashes (place_bids s key calls) !! key = Some a'
    /\ default 0 (h_total_bids a')
       = default 0 (h_total_bids a) + Z.of_nat (length (accepted_bids s key calls)).
Proof.
  intros Ha _. destruct (total_bids_run key calls s a Ha) as (a' & Hfin & Htotal & _).
  exists a'. split; assumption.
Qed.

Lemma total_bids_counts_accepted_bids_witness :
  exists a', hashes (place_bids (N := Z) storeA "auction:A" calls_S2) !! "auction:A"
             = Some a'
    /\ default 0 (h_total_bids a')
       = default 0 (h_total_bids (auctionA (N := Z)))
         + Z.of_nat (length (accepted_bids (N := Z) storeA "auction:A" calls_S2)).
Proof.
  apply (total_bids_counts_accepted_bids Z Cents storeA "auction:A" auctionA calls_S2).
  - reflexivity.
  - repeat constructor.
Defined.

(** X4.  No sequence of placeBid calls makes the seller the highest bidder
    of the own auction: if the highest bidder is not the seller before, it
    is not the seller after. *)
Theorem seller_never_highest_bidder (N : Type) (L : LuaNumber N) (s : Store N)
    (key : string) (a : AuctionHash N) (calls : list (BidCall N)) :
  hashes s !! key = Some a -> h_highest_bidder_id a <> Some (h_seller_id a) ->
  exists a', hashes (place_bids s key calls) !! key = Some a'
    /\ h_seller_id a' = h_seller_id a
    /\ h_highest_bidder_id a' <> Some (h_seller_id a).
Proof.
  intros Ha Hne. destruct (total_bids_run key calls s a Ha) as (a' & Hfin & _ & Hinv & Hs).
  exists a'. split; [exact Hfin|]. split; [exact Hs|]. rewrite <- Hs. auto.
Qed.

Lemma seller_never_highest_bidder_witness :
  exists a', hashes (place_bids (N := Z) storeA "auction:A"
                       [mkBidCall (Some 10000) "seller" 900 None;
                        mkBidCall (Some 10000) "U1" 901 None]) !! "auction:A" = Some a'
    /\ h_seller_id a' = h_seller_id (auctionA (N := Z))
    /\ h_highest_bidder_id a' <> Some (h_seller_id (auctionA (N := Z))).
Proof.
  apply (seller_never_highest_bidder Z Cents storeA "auction:A" auctionA);
    [reflexivity|discriminate].
Defined.

(** X5.  An accepted bid is in the auction's bid history afterwards: the
    history holds, scored by the amount, the member {bidder, amount, time,
    previous bid} with the two amounts as [tostring] prints them (the very
    member, or the equal one the set held already), and the history key is
    set to expire 86400 seconds after the auction's end time. *)
Theorem accepted_bid_is_recorded (N : Type) (L : LuaNumber N) (s : Store N)
    (key : string) (x : N) (bidder : string) (t : Z) (hint : option N) :
  isNaN x = false ->
  pb_status (fst (place_bid s key (Some x) bidder t hint)) = 1 ->
  exists a m,
    hashes s !! key = Some a
    /\ In (m, x) (default [] (bid_sets (snd (place_bid s key (Some x) bidder t hint))
                                !! (key +:+ ":bids")))
    /\ (m = mkBidEntry bidder (num_tostring x) t (num_tostring (currentBid a))
        \/ bid_entry_eqb m (mkBidEntry bidder (num_tostring x) t
                              (num_tostring (currentBid a))) = true)
    /\ expire_at (snd (place_bid s key (Some x) bidder t hint)) !! (key +:+ ":bids")
       = Some (h_end_time a + 86400).
Proof.
  intros _ Hok. destruct (hashes s !! key) as [a|] eqn:Ha.
  - destruct (place_bid_outcome s key a (Some x) bidder t hint Ha)
      as [[Hne _]|(x' & Hx & _ & _ & _ & _ & _ & _ & _ & Hb & _ & _ & He)];
      [contradiction|].
    injection Hx as <-.
    destruct (zadd_In (default [] (bid_sets s !! (key +:+ ":bids"))) x
                (mkBidEntry bidder (num_tostring x) t (num_tostring (currentBid a))))
      as (m & Hin & Hm).
    exists a, m. rewrite Hb, He, !lookup_insert_eq. repeat split; assumption.
  - unfold place_bid, HGETALL in Hok. rewrite Ha in Hok. discriminate.
Qed.

Lemma accepted_bid_is_recorded_witness :
  exists a m,
    hashes (storeA (N := Z)) !! "auction:A" = Some a
    /\ In (m, 10000)
         (default [] (bid_sets (snd (place_bid (N := Z) storeA "auction:A" (Some 10000)
                                       "U1" 900 None)) !! ("auction:A" +:+ ":bids")))
    /\ (m = mkBidEntry "U1" (num_tostring 10000) 900 (num_tostring (currentBid a))
        \/ bid_entry_eqb m (mkBidEntry "U1" (num_tostring 10000) 900
                              (num_tostring (currentBid a))) = true)
    /\ expire_at (snd (place_bid (N := Z) storeA "auction:A" (Some 10000) "U1" 900 None))
         !! ("auction:A" +:+ ":bids")
       = Some (h_end_time a + 86400).
Proof.
  apply (accepted_bid_is_recorded Z Cents storeA "auction:A" 10000 "U1" 900 None);
    reflexivity.
Defined.

(** X6.  A finalize call that is answered NOT_FOUND, NOT_ENDED or
    ALREADY_FINAL leaves the whole store as it was; NOT_ENDED reports the
    positive time remaining, endTime - serverTime. *)
Theorem finalize_rejection_atomic (N : Type) (L : LuaNumber N) (s : Store N)
    (key : string) (t : Z) :
  fin_status (fst (finalize_auction s key t)) < 0 ->
  snd (finalize_auction s key t) = s
  /\ forall id e c remaining,
       fst (finalize_auction s key t) = FIN_NOT_ENDED id e c remaining ->
       c = t /\ remaining = e - t /\ 0 < remaining.
Proof.
  unfold finalize_auction, HGETALL.
  destruct (hashes s !! key) as [a|]; [|intros _; split; [reflexivity|discriminate]].
  destruct (status_eqb (h_status a) ended);
    [intros _; split; [reflexivity|discriminate]|].
  destruct (Z.ltb_spec t (h_end_time a)).
  - intros _. split; [reflexivity|]. cbn. intros id e c remaining [= _ <- <- <-]. lia.
  - destruct ((0 <? default 0 (h_total_bids a))
              && bool_decide (is_Some (h_highest_bidder_id a))); cbn; lia.
Qed.

Lemma finalize_rejection_atomic_witness :
  snd (finalize_auction (N := Z) storeA1 "auction:A" 940) = storeA1
  /\ forall id e c remaining,
       fst (finalize_auction (N := Z) storeA1 "auction:A" 940)
       = FIN_NOT_ENDED id e c remaining ->
       c = 940 /\ remaining = e - 940 /\ 0 < remaining.
Proof.
  apply (finalize_rejection_atomic Z Cents storeA1 "auction:A" 940).
  vm_compute. reflexivity.
Defined.

(** X7.  Finalizing after an accepted bid reports that bid: the winner is
    its bidder, the winning bid its amount as [tostring] printed it and
    totalBids the count it returned; the record keeps them and has status
    ended. *)
Theorem finalize_reports_last_accepted_bid (N : Type) (L : LuaNumber N) (s : Store N)
    (key : string) (a : AuctionHash N) (x : N) (bidder : string)
    (t t' : Z) (hint : option N) :
  hashes s !! key = Some a ->
  isNaN x = false ->
  pb_status (fst (place_bid s key (Some x) bidder t hint)) = 1 ->
  0 <= default 0 (h_total_bids a) -> h_end_time a <= t' ->
  fst (finalize_auction (snd (place_bid s key (Some x) bidder t hint)) key t')
  = FIN_FINALIZED (h_id a) (Some bidder) (Some (num_tostring x))
      (default 0 (h_total_bids a) + 1) (h_end_time a) (h_starting_price a)
  /\ hashes (snd (finalize_auction (snd (place_bid s key (Some x) bidder t hint)) key t'))
       !! key
     = Some (mkAuctionHash (h_id a) (h_title a) (h_seller_id a) (h_starting_price a)
               (Some (num_tostring x)) (h_bid_increment a) (Some bidder)
               (Some (default 0 (h_total_bids a) + 1))
               (h_start_time a) (h_end_time a) (h_original_end_time a) ended).
Proof.
  intros Ha _ Hok Htotal Hend.
  destruct (place_bid_outcome s key a (Some x) bidder t hint Ha)
    as [[Hne _]|(x' & Hx & _ & Hact & _ & _ & _ & _ & Hh & _)]; [contradiction|].
  injection Hx as <-.
  assert (Ha' : hashes (snd (place_bid s key (Some x) bidder t hint)) !! key
                = Some (committed a x bidder)) by (rewrite Hh; apply lookup_insert_eq).
  unfold finalize_auction, HGETALL. rewrite Ha'.
  cbn [committed h_status h_id h_end_time h_highest_bidder_id h_current_bid h_total_bids
       h_starting_price].
  rewrite Hact. cbn [status_eqb].
  destruct (Z.ltb_spec t' (h_end_time a)); [lia|].
  cbn [default from_option].
  change (id (default 0 (h_total_bids a) + 1)) with (default 0 (h_total_bids a) + 1).
  destruct (Z.ltb_spec 0 (default 0 (h_total_bids a) + 1)); [|lia].
  rewrite (bool_decide_eq_true_2 (is_Some (Some bidder))) by eauto.
  cbn [andb fst snd]. split; [reflexivity|].
  rewrite hashes_EXPIREAT. unfold ZREM_active, HSET. cbn.
  rewrite (alter_lookup _ _ _ _ Ha'), lookup_insert_eq. reflexivity.
Qed.

Lemma finalize_reports_last_accepted_bid_witness :
  fst (finalize_auction (N := Z)
         (snd (place_bid storeA "auction:A" (Some 10000) "U1" 900 None)) "auction:A" 1000)
  = FIN_FINALIZED "A" (Some "U1") (Some 10000) 1 1000 10000
  /\ hashes (snd (finalize_auction (N := Z)
                    (snd (place_bid storeA "auction:A" (Some 10000) "U1" 900 None))
                    "auction:A" 1000)) !! "auction:A"
     = Some (mkAuctionHash "A" "Vintage Watch" "seller" 10000 (Some 10000) (Some 500)
               (Some "U1") (Some 1) 0 1000 1000 ended).
Proof.
  assert (Ha : hashes (storeA (N := Z)) !! "auction:A" = Some auctionA) by reflexivity.
  assert (Hnan : isNaN (10000 : Z) = false) by reflexivity.
  assert (Hok : pb_status (fst (place_bid (N := Z) storeA "auction:A" (Some 10000) "U1"
                                  900 None)) = 1) by reflexivity.
  assert (Htotal : 0 <= default 0 (h_total_bids (auctionA (N := Z)))) by (cbn; lia).
  assert (Hend : h_end_time (auctionA (N := Z)) <= 1000) by (cbn; lia).
  exact (finalize_reports_last_accepted_bid Z Cents storeA "auction:A" auctionA
           10000 "U1" 900 1000 None Ha Hnan Hok Htotal Hend).
Defined.

(** An extend call that does not extend returns the store it was given. *)
Lemma extend_rejection_store {N : Type} `{LuaNumber N} (s : Store N) (key : string)
    (t threshold duration : Z) :
  ex_status (fst (extend_auction s key t threshold duration)) <> 1 ->
  snd (extend_auction s key t threshold duration) = s.
Proof.
  unfold extend_auction, HGETALL.
  destruct (hashes s !! key) as [a|]; [|reflexivity].
  destruct (negb (status_eqb (h_status a) active)); [reflexivity|].
  destruct ((0 <? h_end_time a - t) && (h_end_time a - t <=? threshold)); [|reflexivity].
  cbn. intros Hne. contradiction Hne. reflexivity.
Qed.

(** The record after an extend call is the record before, up to its end
    time, which is not lowered when the duration is not negative. *)
Lemma extend_auction_record {N : Type} `{LuaNumber N} (s : Store N) (key : string)
    (t threshold duration : Z) (a : AuctionHash N) :
  hashes s !! key = Some a ->
  exists e, hashes (snd (extend_auction s key t threshold duration)) !! key
            = Some (set_end_time e a)
            /\ (0 <= duration -> h_end_time a <= e).
Proof.
  intros Ha. unfold extend_auction, HGETALL. rewrite Ha.
  destruct (negb (status_eqb (h_status a) active));
    [exists (h_end_time a); cbn [snd]; rewrite Ha; destruct a; split; [reflexivity|cbn; lia]|].
  destruct ((0 <? h_end_time a - t) && (h_end_time a - t <=? threshold));
    [|exists (h_end_time a); cbn [snd]; rewrite Ha; destruct a; split; [reflexivity|cbn; lia]].
  exists (h_end_time a + duration). cbn [snd]. rewrite hashes_EXPIREAT.
  unfold ZADD_active, HSET. cbn. rewrite (alter_lookup _ _ _ _ Ha).
  split; [apply lookup_insert_eq|lia].
Qed.

(** X8.  extend-auction.lua changes nothing but the end time: whatever the
    call, bid histories, rate-limiter keys and all other records stay as they
    are, the record itself differs at most in [end_time] (bid, bidder, count,
    status and original end time are kept), and a call that does not extend
    (NOT_FOUND, NOT_ACTIVE, not-extended) returns the store unchanged. *)
Theorem extend_auction_frame (N : Type) (L : LuaNumber N) (s : Store N) (key : string)
    (t threshold duration : Z) :
  bid_sets (snd (extend_auction s key t threshold duration)) = bid_sets s
  /\ rate_limit (snd (extend_auction s key t threshold duration)) = rate_limit s
  /\ (forall k, k <> key ->
        hashes (snd (extend_auction s key t threshold duration)) !! k = hashes s !! k)
  /\ (forall a, hashes s !! key = Some a ->
        exists e, hashes (snd (extend_auction s key t threshold duration)) !! key
                  = Some (set_end_time e a))
  /\ (ex_status (fst (extend_auction s key t threshold duration)) <> 1 ->
        snd (extend_auction s key t threshold duration) = s).
Proof.
  split; [|split; [|split; [|split]]]; try apply extend_rejection_store.
  - unfold extend_auction, HGETALL.
    destruct (hashes s !! key) as [a|]; [|reflexivity].
    destruct (negb (status_eqb (h_status a) active)); [reflexivity|].
    destruct ((0 <? h_end_time a - t) && (h_end_time a - t <=? threshold)); [|reflexivity].
    cbn [snd]. rewrite bid_sets_EXPIREAT. reflexivity.
  - unfold extend_auction, HGETALL.
    destruct (hashes s !! key) as [a|]; [|reflexivity].
    destruct (negb (status_eqb (h_status a) active)); [reflexivity|].
    destruct ((0 <? h_end_time a - t) && (h_end_time a - t <=? threshold)); [|reflexivity].
    cbn [snd]. rewrite rate_limit_EXPIREAT. reflexivity.
  - intros k Hk. unfold extend_auction, HGETALL.
    destruct (hashes s !! key) as [a|]; [|reflexivity].
    destruct (negb (status_eqb (h_status a) active)); [reflexivity|].
    destruct ((0 <? h_end_time a - t) && (h_end_time a - t <=? threshold)); [|reflexivity].
    cbn [snd]. rewrite hashes_EXPIREAT. unfold ZADD_active, HSET. cbn.
    apply lookup_alter_ne. congruence.
  - intros a Ha.
    destruct (extend_auction_record s key t threshold duration a Ha) as (e & He & _).
    exists e. exact He.
Qed.

(** What an extending call did. *)
Lemma extend_auction_extended (N : Type) (L : LuaNumber N) (s : Store N) (key : string)
    (t threshold duration : Z) :
  ex_status (fst (extend_auction s key t threshold duration)) = 1 ->
  exists a,
    hashes s !! key = Some a /\ h_status a = active
    /\ 0 < h_end_time a - t <= threshold
    /\ extend_auction s key t threshold duration
       = (EX_EXTENDED (h_id a) (h_end_time a) (h_end_time a + duration) duration
            (h_end_time a - t),
          EXPIREAT (ZADD_active (HSET s key (set_end_time (h_end_time a + duration)))
                      (h_end_time a + duration) (h_id a))
            key (h_end_time a + duration + 86400)).
Proof.
  unfold extend_auction, HGETALL.
  destruct (hashes s !! key) as [a|] eqn:Ha; [|discriminate].
  destruct (h_status a) eqn:Hact; cbn [status_eqb negb]; try discriminate.
  destruct (Z.ltb_spec 0 (h_end_time a - t));
    destruct (Z.leb_spec (h_end_time a - t) threshold); cbn [andb]; try discriminate.
  intros _. exists a. repeat split; try assumption; lia.
Qed.

(** X9.  When the duration is at least the threshold, as with the 30 s / 30 s
    of the bid service, an auction that was just extended at time t is not
    extended again by a second call at the same time: the time remaining is
    then above the threshold. *)
Theorem extend_once_per_instant (N : Type) (L : LuaNumber N) (s : Store N) (key : string)
    (t threshold duration : Z) :
  ex_status (fst (extend_auction s key t threshold duration)) = 1 ->
  threshold <= duration ->
  ex_status (fst (extend_auction (snd (extend_auction s key t threshold duration)) key t
                    threshold duration)) = 0
  /\ snd (extend_auction (snd (extend_auction s key t threshold duration)) key t
            threshold duration)
     = snd (extend_auction s key t threshold duration).
Proof.
  intros Hex Hdur.
  destruct (extend_auction_extended N L s key t threshold duration Hex)
    as (a & Ha & Hact & Hwin & ->).
  cbn [snd]. set (s' := EXPIREAT _ key _).
  assert (Ha' : hashes s' !! key = Some (set_end_time (h_end_time a + duration) a)).
  { unfold s'. rewrite hashes_EXPIREAT. unfold ZADD_active, HSET. cbn.
    rewrite (alter_lookup _ _ _ _ Ha). apply lookup_insert_eq. }
  unfold extend_auction, HGETALL. rewrite Ha'. cbn [set_end_time h_status h_end_time h_id].
  rewrite Hact. cbn [status_eqb negb].
  destruct (Z.ltb_spec 0 (h_end_time a + duration - t));
    destruct (Z.leb_spec (h_end_time a + duration - t) threshold); cbn [andb];
    try (split; reflexivity).
  lia.
Qed.

Lemma extend_once_per_instant_witness :
  ex_status (fst (extend_auction (N := Z)
                    (snd (extend_auction (N := Z) storeA1 "auction:A" 985 30 30))
                    "auction:A" 985 30 30)) = 0
  /\ snd (extend_auction (N := Z)
            (snd (extend_auction (N := Z) storeA1 "auction:A" 985 30 30))
            "auction:A" 985 30 30)
     = snd (extend_auction (N := Z) storeA1 "auction:A" 985 30 30).
Proof.
  apply (extend_once_per_instant Z Cents storeA1 "auction:A" 985 30 30);
    [reflexivity|lia].
Defined.

(* ===================================================================== *)
(** * Further properties: the bid service *)
(* ===================================================================== *)

Section ServiceFacts.
Context {N : Type} `{LuaNumber N}.

(** The keys of the rate limiter are no auction keys. *)
Lemma rate_limit_key_not_auction (bidder auctionId : string) :
  rate_limit_key bidder <> auction_key auctionId.
Proof. unfold rate_limit_key, auction_key. cbn. discriminate. Qed.

Lemma rate_limit_key_not_bids (bidder key : string) :
  rate_limit_key bidder <> auction_key key +:+ ":bids".
Proof. unfold rate_limit_key, auction_key. cbn. discriminate. Qed.

Lemma expire_at_EXPIREAT (s : Store N) key t k :
  k <> key -> expire_at (EXPIREAT s key t) !! k = expire_at s !! k.
Proof.
  intros Hk. unfold EXPIREAT. destruct (EXISTS s key); [|reflexivity].
  cbn. apply lookup_insert_ne. congruence.
Qed.

(** place-bid.lua reaches the rate limiter's keys in no case. *)
Lemma place_bid_keeps (s : Store N) key amount bidder t hint :
  rate_limit (snd (place_bid s key amount bidder t hint)) = rate_limit s
  /\ forall k, k <> key +:+ ":bids" ->
       expire_at (snd (place_bid s key amount bidder t hint)) !! k = expire_at s !! k.
Proof.
  destruct (hashes s !! key) as [a|] eqn:Ha.
  - destruct (place_bid_outcome s key a amount bidder t hint Ha)
      as [[_ ->]|(x & _ & _ & _ & _ & _ & _ & _ & _ & _ & _ & Hr & He)].
    + split; reflexivity.
    + split; [exact Hr|]. intros k Hk. rewrite He. apply lookup_insert_ne. congruence.
  - rewrite place_bid_absent by exact Ha. split; reflexivity.
Qed.

(** A record that exists is never answered NOT_FOUND. *)
Lemma place_bid_found_status (s : Store N) key (a : AuctionHash N) amount bidder t hint :
  hashes s !! key = Some a ->
  (pb_status (fst (place_bid s key amount bidder t hint)) =? -2) = false.
Proof.
  intros Ha. unfold place_bid, HGETALL. rewrite Ha.
  destruct amount as [x|]; [|reflexivity].
  destruct (num_le x num_zero); [reflexivity|].
  destruct (negb (status_eqb (h_status a) active)); [reflexivity|].
  destruct (h_end_time a <=? t); [reflexivity|].
  destruct (String.eqb bidder (h_seller_id a)); [reflexivity|].
  destruct (num_lt x _); [reflexivity|].
  destruct (HINCRBY_total_bids _ _ _). reflexivity.
Qed.

Lemma extend_auction_keeps (s : Store N) key t threshold duration :
  rate_limit (snd (extend_auction s key t threshold duration)) = rate_limit s
  /\ bid_sets (snd (extend_auction s key t threshold duration)) = bid_sets s
  /\ forall k, k <> key ->
       expire_at (snd (extend_auction s key t threshold duration)) !! k = expire_at s !! k.
Proof.
  unfold extend_auction, HGETALL.
  destruct (hashes s !! key) as [a|]; [|repeat split].
  destruct (negb (status_eqb (h_status a) active)); [repeat split|].
  destruct ((0 <? h_end_time a - t) && (h_end_time a - t <=? threshold)); [|repeat split].
  cbn [snd]. rewrite rate_limit_EXPIREAT, bid_sets_EXPIREAT.
  split; [reflexivity|]. split; [reflexivity|].
  intros k Hk. rewrite expire_at_EXPIREAT by exact Hk. reflexivity.
Qed.

(** What [loadAuctionToRedis] installs for an auction whose end is ahead. *)
Lemma loadAuctionToRedis_ahead (sys : System N) now now_schedule (auction : AuctionRow N) :
  now / 1000 < r_end_time auction / 1000 ->
  loadAuctionToRedis sys now now_schedule auction
  = scheduleAuctionFinalization
      (with_redis sys
         (ZADD_active
            (EXPIREAT
               (with_hashes (redis sys)
                  (<[auction_key (r_id auction) :=
                       mkAuctionHash (r_id auction) (r_title auction) (r_seller_id auction)
                         (r_starting_price auction)
                         (Some (default (r_starting_price auction) (r_current_bid auction)))
                         (Some (r_bid_increment auction))
                         (Some (default "" (r_highest_bidder_id auction)))
                         (Some (r_total_bids auction))
                         (r_start_time auction / 1000) (r_end_time auction / 1000)
                         (r_original_end_time auction / 1000) (r_status auction)]>
                     (hashes (redis sys))))
               (auction_key (r_id auction))
               (now / 1000 + (r_end_time auction / 1000 - now / 1000 + 86400)))
            (r_end_time auction / 1000) (r_id auction)))
      now_schedule (r_id auction) (r_end_time auction).
Proof.
  intros Hahead. unfold loadAuctionToRedis.
  destruct (Z.leb_spec (r_end_time auction / 1000 - now / 1000) 0); [lia|reflexivity].
Qed.

Lemma redis_scheduleAuctionFinalization (sys : System N) now auctionId endTime :
  redis (scheduleAuctionFinalization sys now auctionId endTime) = redis sys
  /\ postgres (scheduleAuctionFinalization sys now auctionId endTime) = postgres sys
  /\ effects (scheduleAuctionFinalization sys now auctionId endTime)
     = effects sys ++ [EnqueueFinalize (finalize_job_id auctionId) auctionId
                         (if endTime - now <=? 0 then None else Some (endTime - now))].
Proof.
  unfold scheduleAuctionFinalization. destruct (endTime - now <=? 0); repeat split.
Qed.

Lemma loadAuctionToRedis_keeps (sys : System N) now now_schedule (auction : AuctionRow N) :
  rate_limit (redis (loadAuctionToRedis sys now now_schedule auction))
  = rate_limit (redis sys)
  /\ postgres (loadAuctionToRedis sys now now_schedule auction) = postgres sys
  /\ (forall k, k <> auction_key (r_id auction) ->
        expire_at (redis (loadAuctionToRedis sys now now_schedule auction)) !! k
        = expire_at (redis sys) !! k)
  /\ exists pre,
       effects (loadAuctionToRedis sys now now_schedule auction) = effects sys ++ pre
       /\ forallb is_finalize_job pre = true /\ (length pre <= 1)%nat.
Proof.
  unfold loadAuctionToRedis.
  destruct (r_end_time auction / 1000 - now / 1000 <=? 0).
  - repeat split. exists []. rewrite app_nil_r. repeat split. cbn. lia.
  - destruct (redis_scheduleAuctionFinalization
                (with_redis sys
                   (ZADD_active
                      (EXPIREAT
                         (with_hashes (redis sys)
                            (<[auction_key (r_id auction) :=
                                 mkAuctionHash (r_id auction) (r_title auction)
                                   (r_seller_id auction) (r_starting_price auction)
                                   (Some (default (r_starting_price auction)
                                            (r_current_bid auction)))
                                   (Some (r_bid_increment auction))
                                   (Some (default "" (r_highest_bidder_id auction)))
                                   (Some (r_total_bids auction))
                                   (r_start_time auction / 1000)
                                   (r_end_time auction / 1000)
                                   (r_original_end_time auction / 1000)
                                   (r_status auction)]> (hashes (redis sys))))
                         (auction_key (r_id auction))
                         (now / 1000 + (r_end_time auction / 1000 - now / 1000 + 86400)))
                      (r_end_time auction / 1000) (r_id auction)))
                now_schedule (r_id auction) (r_end_time auction)) as (Hr & Hp & He).
    cbv zeta. rewrite Hr, Hp, He. cbn [redis with_redis postgres effects].
    unfold ZADD_active. cbn [rate_limit with_active_index expire_at].
    rewrite rate_limit_EXPIREAT. cbn [rate_limit with_hashes].
    split; [reflexivity|]. split; [reflexivity|]. split.
    + intros k Hk. rewrite expire_at_EXPIREAT by exact Hk. reflexivity.
    + eexists. split; [reflexivity|]. split; [reflexivity|]. cbn. lia.
Qed.

(** [checkAndExtendAuction] when the script extends, and when it does not. *)
Lemma checkAndExtendAuction_extended (sys : System N) now_job auctionId t :
  ex_status (fst (extend_auction (redis sys) (auction_key auctionId) t 30 30)) = 1 ->
  exists a,
    hashes (redis sys) !! auction_key auctionId = Some a /\ h_status a = active
    /\ 0 < h_end_time a - t <= 30
    /\ checkAndExtendAuction sys now_job auctionId t
       = (emit_effect
            (with_redis sys (snd (extend_auction (redis sys) (auction_key auctionId) t 30 30)))
            (EnqueueAuctionUpdate (auction_update_job_id auctionId now_job) auctionId
               ((h_end_time a + 30) * 1000)),
          (true, Some (h_end_time a * 1000, (h_end_time a + 30) * 1000, 30))).
Proof.
  intros Hex.
  destruct (extend_auction_extended N _ (redis sys) (auction_key auctionId) t 30 30 Hex)
    as (a & Ha & Hact & Hwin & Heq).
  exists a. split; [exact Ha|]. split; [exact Hact|]. split; [exact Hwin|].
  unfold checkAndExtendAuction, luaScripts_extendAuction. rewrite Heq. reflexivity.
Qed.

Lemma checkAndExtendAuction_not_extended (sys : System N) now_job auctionId t :
  ex_status (fst (extend_auction (redis sys) (auction_key auctionId) t 30 30)) <> 1 ->
  checkAndExtendAuction sys now_job auctionId t = (sys, (false, None)).
Proof.
  intros Hex.
  pose proof (extend_rejection_store (redis sys) (auction_key auctionId) t 30 30 Hex) as Hs.
  unfold checkAndExtendAuction, luaScripts_extendAuction.
  destruct (extend_auction (redis sys) (auction_key auctionId) t 30 30) as [r s'].
  cbn [snd fst] in *. subst s'.
  destruct sys as [rd pg ef]. destruct r; cbn in *; try reflexivity. contradiction Hex.
  reflexivity.
Qed.


(** The store after the rate limiter has taken its key ([SET key 1 NX EX 1]). *)
Lemma placeBid_unfold (sys : System N) (clock : Clock) auctionId bidder username amount
    ip ua :
  rate_limit_key bidder ∉ rate_limit (redis sys) ->
  forall s0,
  s0 = with_expire_at
         (with_rate_limit (redis sys) ({[rate_limit_key bidder]} ∪ rate_limit (redis sys)))
         (<[rate_limit_key bidder := at_placeBid clock / 1000 + 1]> (expire_at (redis sys))) ->
  placeBid sys clock auctionId bidder username amount ip ua
  = match hashes (redis sys) !! auction_key auctionId with
    | Some _ =>
        placeBid_reply
          (with_redis sys (snd (place_bid s0 (auction_key auctionId) (Some amount) bidder
                                  (at_placeBid clock / 1000) None)))
          clock auctionId bidder username amount ip ua
          (fst (place_bid s0 (auction_key auctionId) (Some amount) bidder
                  (at_placeBid clock / 1000) None))
    | None =>
        match auctions (postgres sys) !! auctionId with
        | None => (AppError "AUCTION_NOT_FOUND" 404, with_redis sys s0)
        | Some row =>
            let sys2 := loadAuctionToRedis (with_redis sys s0) (at_load clock)
                          (at_schedule clock) row in
            placeBid_reply
              (with_redis sys2
                 (snd (place_bid (redis sys2) (auction_key auctionId) (Some amount) bidder
                         (at_placeBid clock / 1000) (Some (r_bid_increment row)))))
              clock auctionId bidder username amount ip ua
              (fst (place_bid (redis sys2) (auction_key auctionId) (Some amount) bidder
                      (at_placeBid clock / 1000) (Some (r_bid_increment row))))
        end
    end.
Proof.
  intros Hrate s0 ->. unfold placeBid, luaScripts_placeBid.
  rewrite (bool_decide_eq_false_2 _ Hrate).
  destruct (hashes (redis sys) !! auction_key auctionId) as [a|] eqn:Ha.
  - match goal with |- context [place_bid ?s _ _ _ _ _] =>
      pose proof (place_bid_found_status s (auction_key auctionId) a (Some amount) bidder
                    (at_placeBid clock / 1000) None Ha) as Hst;
      destruct (place_bid s (auction_key auctionId) (Some amount) bidder
                  (at_placeBid clock / 1000) None) as [r s1]
    end.
    cbn [fst snd] in *. rewrite Hst. reflexivity.
  - rewrite place_bid_absent by exact Ha.
    cbn [pb_status Z.eqb Z.opp Pos.eqb].
    unfold AuctionRepository.findById. cbn [postgres with_redis].
    destruct (auctions (postgres sys) !! auctionId) as [row|]; [|reflexivity].
    cbv zeta. unfold with_redis. cbn [redis postgres effects].
    match goal with |- context [place_bid ?s ?k ?x ?b ?t ?h] =>
      destruct (place_bid s k x b t h) as [r s1]
    end.
    reflexivity.
Qed.

Lemma placeBid_reply_rejected (sys3 : System N) clock auctionId bidder username amount ip ua
    (result : PlaceBidResult N) :
  pb_status result <> 1 ->
  placeBid_reply sys3 clock auctionId bidder username amount ip ua result
  = (Returned (Rejected (getErrorCode (pb_status result)) result), sys3).
Proof. destruct result; cbn; intros Hne; try reflexivity. contradiction Hne. reflexivity. Qed.

Lemma placeBid_reply_accepted (sys3 : System N) clock auctionId bidder username amount ip ua
    id x hb total previous pb :
  placeBid_reply sys3 clock auctionId bidder username amount ip ua
    (PB_OK id x hb total previous pb)
  = (Returned (Accepted amount bidder (username_or_default username)
                 (at_placeBid clock / 1000 * 1000) total
                 (fst (snd (checkAndExtendAuction
                              (addBidPersistenceJob sys3 (at_persist_job clock)
                                 (mkPersistBidJob auctionId bidder amount
                                    (Some (at_placeBid clock / 1000)) (Some previous)
                                    (Some total) ip ua None))
                              (at_update_job clock) auctionId (at_placeBid clock / 1000))))
                 (snd (snd (checkAndExtendAuction
                              (addBidPersistenceJob sys3 (at_persist_job clock)
                                 (mkPersistBidJob auctionId bidder amount
                                    (Some (at_placeBid clock / 1000)) (Some previous)
                                    (Some total) ip ua None))
                              (at_update_job clock) auctionId (at_placeBid clock / 1000))))),
     emit_effect
       (fst (checkAndExtendAuction
               (addBidPersistenceJob sys3 (at_persist_job clock)
                  (mkPersistBidJob auctionId bidder amount
                     (Some (at_placeBid clock / 1000)) (Some previous)
                     (Some total) ip ua None))
               (at_update_job clock) auctionId (at_placeBid clock / 1000)))
       (Publish_bid_placed auctionId amount bidder (username_or_default username)
          (at_placeBid clock / 1000 * 1000) total previous
          (fst (snd (checkAndExtendAuction
                       (addBidPersistenceJob sys3 (at_persist_job clock)
                          (mkPersistBidJob auctionId bidder amount
                             (Some (at_placeBid clock / 1000)) (Some previous)
                             (Some total) ip ua None))
                       (at_update_job clock) auctionId (at_placeBid clock / 1000))))
          (snd (snd (checkAndExtendAuction
                       (addBidPersistenceJob sys3 (at_persist_job clock)
                          (mkPersistBidJob auctionId bidder amount
                             (Some (at_placeBid clock / 1000)) (Some previous)
                             (Some total) ip ua None))
                       (at_update_job clock) auctionId (at_placeBid clock / 1000)))))).
Proof.
  unfold placeBid_reply.
  destruct (checkAndExtendAuction _ _ _ _) as [sys5 [extended extensionData]]. reflexivity.
Qed.

(** [checkAndExtendAuction] leaves the rate limiter's keys alone; it adds at
    most the auction-update job. *)
Lemma checkAndExtendAuction_keeps (sys : System N) now_job auctionId t :
  rate_limit (redis (fst (checkAndExtendAuction sys now_job auctionId t)))
  = rate_limit (redis sys)
  /\ postgres (fst (checkAndExtendAuction sys now_job auctionId t)) = postgres sys
  /\ forall k, k <> auction_key auctionId ->
       expire_at (redis (fst (checkAndExtendAuction sys now_job auctionId t))) !! k
       = expire_at (redis sys) !! k.
Proof.
  destruct (Z.eq_dec (ex_status (fst (extend_auction (redis sys) (auction_key auctionId) t
                                        30 30))) 1) as [Hex|Hex].
  - destruct (checkAndExtendAuction_extended sys now_job auctionId t Hex)
      as (a & _ & _ & _ & ->).
    destruct (extend_auction_keeps (redis sys) (auction_key auctionId) t 30 30)
      as (Hr & _ & He).
    cbn. split; [exact Hr|]. split; [reflexivity|]. exact He.
  - rewrite (checkAndExtendAuction_not_extended sys now_job auctionId t Hex).
    repeat split.
Qed.

Lemma placeBid_reply_keeps (sys3 : System N) clock auctionId bidder username amount ip ua
    (result : PlaceBidResult N) :
  rate_limit (redis (snd (placeBid_reply sys3 clock auctionId bidder username amount ip ua
                            result)))
  = rate_limit (redis sys3)
  /\ postgres (snd (placeBid_reply sys3 clock auctionId bidder username amount ip ua result))
     = postgres sys3
  /\ forall k, k <> auction_key auctionId ->
       expire_at (redis (snd (placeBid_reply sys3 clock auctionId bidder username amount ip
                                ua result))) !! k
       = expire_at (redis sys3) !! k.
Proof.
  destruct (Z.eq_dec (pb_status result) 1) as [Hok|Hne].
  - destruct result; try discriminate. rewrite placeBid_reply_accepted. cbn [snd].
    match goal with |- context [checkAndExtendAuction ?s ?n ?a ?t] =>
      destruct (checkAndExtendAuction_keeps s n a t) as (Hr & Hp & He)
    end.
    cbn [emit_effect redis postgres]. rewrite Hr, Hp. split; [reflexivity|].
    split; [reflexivity|]. intros k Hk. rewrite He by exact Hk. reflexivity.
  - rewrite placeBid_reply_rejected by exact Hne. repeat split.
Qed.

(** After any attempt that got past the rate limiter its key is set, with a
    deadline one second ahead. *)
Lemma placeBid_rate_limit (sys : System N) (clock : Clock) auctionId bidder username amount
    ip ua :
  rate_limit_key bidder ∉ rate_limit (redis sys) ->
  rate_limit (redis (snd (placeBid sys clock auctionId bidder username amount ip ua)))
  = {[rate_limit_key bidder]} ∪ rate_limit (redis sys)
  /\ expire_at (redis (snd (placeBid sys clock auctionId bidder username amount ip ua)))
       !! rate_limit_key bidder
     = Some (at_placeBid clock / 1000 + 1)
  /\ postgres (snd (placeBid sys clock auctionId bidder username amount ip ua))
     = postgres sys.
Proof.
  intros Hrate. rewrite (placeBid_unfold sys clock _ _ _ _ _ _ Hrate _ eq_refl).
  set (s0 := with_expire_at _ _).
  assert (Hs0 : rate_limit s0 = {[rate_limit_key bidder]} ∪ rate_limit (redis sys)
                /\ expire_at s0 !! rate_limit_key bidder
                   = Some (at_placeBid clock / 1000 + 1)).
  { unfold s0. cbn. split; [reflexivity|]. apply lookup_insert_eq. }
  destruct Hs0 as [Hr0 He0].
  destruct (hashes (redis sys) !! auction_key auctionId) as [a|].
  - match goal with |- context [placeBid_reply ?s3 ?c ?a ?b ?u ?x ?i ?w ?r] =>
      destruct (placeBid_reply_keeps s3 c a b u x i w r) as (Hr & Hp & He)
    end.
    rewrite Hr, Hp, He by apply rate_limit_key_not_auction.
    cbn [redis with_redis postgres].
    destruct (place_bid_keeps s0 (auction_key auctionId) (Some amount) bidder
                (at_placeBid clock / 1000) None) as [Hr1 He1].
    rewrite Hr1, He1 by apply rate_limit_key_not_bids.
    repeat split; assumption.
  - destruct (auctions (postgres sys) !! auctionId) as [row|];
      [|cbn [snd redis with_redis postgres]; repeat split; assumption].
    cbv zeta.
    match goal with |- context [placeBid_reply ?s3 ?c ?a ?b ?u ?x ?i ?w ?r] =>
      destruct (placeBid_reply_keeps s3 c a b u x i w r) as (Hr & Hp & He)
    end.
    rewrite Hr, Hp, He by apply rate_limit_key_not_auction.
    cbn [redis with_redis postgres].
    match goal with |- context [place_bid ?s ?k ?x ?b ?t ?h] =>
      destruct (place_bid_keeps s k x b t h) as [Hr1 He1]
    end.
    rewrite Hr1, He1 by apply rate_limit_key_not_bids.
    destruct (loadAuctionToRedis_keeps (with_redis sys s0) (at_load clock)
                (at_schedule clock) row) as (Hr2 & Hp2 & He2 & _).
    rewrite Hr2, Hp2, He2 by apply rate_limit_key_not_auction.
    cbn [redis with_redis postgres]. repeat split; assumption.
Qed.

End ServiceFacts.

(** X10.  Any bid attempt that gets past the rate limiter, whatever its
    outcome (accepted, rejected or AUCTION_NOT_FOUND thrown), leaves the
    bidder's rate-limit key set with a deadline one second after the
    attempt; while that key is there, every further attempt of the bidder,
    on any auction, throws RATE_LIMIT_EXCEEDED (429) and changes nothing. *)
Theorem rate_limit_after_any_attempt (N : Type) (L : LuaNumber N) (sys : System N)
    (clock : Clock) (auctionId bidder : string) (username : option string) (amount : N)
    (ip ua : option string) :
  rate_limit_key bidder ∉ rate_limit (redis sys) ->
  rate_limit_key bidder
    ∈ rate_limit (redis (snd (placeBid sys clock auctionId bidder username amount ip ua)))
  /\ expire_at (redis (snd (placeBid sys clock auctionId bidder username amount ip ua)))
       !! rate_limit_key bidder
     = Some (at_placeBid clock / 1000 + 1)
  /\ forall clock' auctionId' username' amount' ip' ua',
       placeBid (snd (placeBid sys clock auctionId bidder username amount ip ua)) clock'
         auctionId' bidder username' amount' ip' ua'
       = (AppError "RATE_LIMIT_EXCEEDED" 429,
          snd (placeBid sys clock auctionId bidder username amount ip ua)).
Proof.
  intros Hrate.
  destruct (placeBid_rate_limit sys clock auctionId bidder username amount ip ua Hrate)
    as (Hr & He & _).
  assert (Hin : rate_limit_key bidder
                ∈ rate_limit (redis (snd (placeBid sys clock auctionId bidder username
                                            amount ip ua)))).
  { rewrite Hr. apply elem_of_union_l, elem_of_singleton. reflexivity. }
  split; [exact Hin|]. split; [exact He|].
  intros clock' auctionId' username' amount' ip' ua'.
  unfold placeBid at 1. rewrite (bool_decide_eq_true_2 _ Hin). reflexivity.
Qed.

Lemma rate_limit_after_any_attempt_witness :
  rate_limit_key "U1" ∈ rate_limit (redis (systemA1 (N := Z)))
  /\ expire_at (redis (systemA1 (N := Z))) !! rate_limit_key "U1" = Some (900000 / 1000 + 1)
  /\ forall clock' auctionId' username' amount' ip' ua',
       placeBid (systemA1 (N := Z)) clock' auctionId' "U1" username' amount' ip' ua'
       = (AppError "RATE_LIMIT_EXCEEDED" 429, systemA1).
Proof.
  apply (rate_limit_after_any_attempt Z Cents systemA clockS1 "A" "U1" (Some "alice") 10000
           None None).
  vm_compute. set_solver.
Defined.

Section ServiceEffects.
Context {N : Type} `{LuaNumber N}.

(** What the tail of [placeBid] hands to the queues and to pub/sub. *)
Lemma placeBid_reply_effects (sys3 : System N) clock auctionId bidder username amount ip ua
    (result : PlaceBidResult N) :
  match fst (placeBid_reply sys3 clock auctionId bidder username amount ip ua result) with
  | Returned (Accepted amt b u ts total ext ed) =>
      exists previous,
        effects (snd (placeBid_reply sys3 clock auctionId bidder username amount ip ua
                        result))
        = effects sys3
          ++ [EnqueuePersistBid (bid_job_id auctionId bidder (at_persist_job clock))
                (mkPersistBidJob auctionId bidder amount (Some (at_placeBid clock / 1000))
                   (Some previous) (Some total) ip ua None)]
          ++ match ed with
             | Some (_, newEnd, _) =>
                 [EnqueueAuctionUpdate (auction_update_job_id auctionId (at_update_job clock))
                    auctionId newEnd]
             | None => []
             end
          ++ [Publish_bid_placed auctionId amt b u ts total previous ext ed]
        /\ (ext = true <-> ed <> None) /\ amt = amount /\ b = bidder
  | _ => effects (snd (placeBid_reply sys3 clock auctionId bidder username amount ip ua
                         result))
         = effects sys3
  end.
Proof.
  destruct (Z.eq_dec (pb_status result) 1) as [Hok|Hne].
  - destruct result as [id x hb total prev pb| | | | | |]; try discriminate.
    rewrite placeBid_reply_accepted. cbn [fst snd].
    exists prev.
    match goal with |- context [checkAndExtendAuction ?s ?n ?a ?t] =>
      destruct (Z.eq_dec (ex_status (fst (extend_auction (redis s) (auction_key a) t 30 30)))
                  1) as [Hex|Hex];
      [destruct (checkAndExtendAuction_extended s n a t Hex) as (a0 & _ & _ & _ & ->)
      |rewrite (checkAndExtendAuction_not_extended s n a t Hex)]
    end.
    + cbn. rewrite <- !app_assoc. split; [reflexivity|].
      split; [split; [discriminate|reflexivity]|split; reflexivity].
    + cbn. rewrite <- !app_assoc. split; [reflexivity|].
      split; [split; [discriminate|intros Hed; contradiction Hed; reflexivity]
             |split; reflexivity].
  - rewrite placeBid_reply_rejected by exact Hne. reflexivity.
Qed.

(** The effects of one call of [BidService.placeBid]. *)
Lemma placeBid_effects_shape (sys : System N)
    (clock : Clock) (auctionId bidder : string) (username : option string) (amount : N)
    (ip ua : option string) :
  exists hydration,
    forallb is_finalize_job hydration = true /\ (length hydration <= 1)%nat
    /\ match fst (placeBid sys clock auctionId bidder username amount ip ua) with
       | Returned (Accepted amt b u ts total ext ed) =>
           exists previous,
             effects (snd (placeBid sys clock auctionId bidder username amount ip ua))
             = effects sys ++ hydration
               ++ [EnqueuePersistBid (bid_job_id auctionId bidder (at_persist_job clock))
                     (mkPersistBidJob auctionId bidder amount
                        (Some (at_placeBid clock / 1000)) (Some previous) (Some total)
                        ip ua None)]
               ++ match ed with
                  | Some (_, newEnd, _) =>
                      [EnqueueAuctionUpdate
                         (auction_update_job_id auctionId (at_update_job clock))
                         auctionId newEnd]
                  | None => []
                  end
               ++ [Publish_bid_placed auctionId amt b u ts total previous ext ed]
             /\ (ext = true <-> ed <> None) /\ amt = amount /\ b = bidder
       | _ => effects (snd (placeBid sys clock auctionId bidder username amount ip ua))
              = effects sys ++ hydration
       end.
Proof.
  destruct (decide (rate_limit_key bidder ∈ rate_limit (redis sys))) as [Hin|Hrate].
  { exists []. split; [reflexivity|]. split; [cbn; lia|].
    unfold placeBid. rewrite (bool_decide_eq_true_2 _ Hin). cbn. rewrite app_nil_r.
    reflexivity. }
  rewrite (placeBid_unfold sys clock _ _ _ _ _ _ Hrate _ eq_refl).
  destruct (hashes (redis sys) !! auction_key auctionId) as [a|].
  - exists []. split; [reflexivity|]. split; [cbn; lia|].
    match goal with |- context [placeBid_reply ?s3 ?c ?a ?b ?u ?x ?i ?w ?r] =>
      pose proof (placeBid_reply_effects s3 c a b u x i w r) as Heff;
      destruct (placeBid_reply s3 c a b u x i w r) as [[[code data|]|code st] sys']
    end; cbn [fst snd effects with_redis] in *; rewrite ?app_nil_r; exact Heff.
  - destruct (auctions (postgres sys) !! auctionId) as [row|].
    + cbv zeta.
      destruct (loadAuctionToRedis_keeps
                  (with_redis sys
                     (with_expire_at
                        (with_rate_limit (redis sys)
                           ({[rate_limit_key bidder]} ∪ rate_limit (redis sys)))
                        (<[rate_limit_key bidder := at_placeBid clock / 1000 + 1]>
                           (expire_at (redis sys)))))
                  (at_load clock) (at_schedule clock) row)
        as (_ & _ & _ & hyd & Hhyd & Hall & Hlen).
      exists hyd. split; [exact Hall|]. split; [exact Hlen|].
      match goal with |- context [placeBid_reply ?s3 ?c ?a ?b ?u ?x ?i ?w ?r] =>
        pose proof (placeBid_reply_effects s3 c a b u x i w r) as Heff;
        destruct (placeBid_reply s3 c a b u x i w r) as [[[code data|]|code st] sys']
      end; cbn [fst snd effects with_redis] in *; rewrite Hhyd in Heff;
        cbn [effects with_redis] in Heff; try exact Heff.
      destruct Heff as (previous & Heff & Hext). exists previous.
      rewrite Heff, <- !app_assoc. split; [reflexivity|exact Hext].
    + exists []. split; [reflexivity|]. split; [cbn; lia|].
      cbn. rewrite app_nil_r. reflexivity.
Qed.

End ServiceEffects.

(** X11.  What one call of [BidService.placeBid] hands to the queues and to
    pub/sub.  A call that does not accept the bid (rejected, rate-limited,
    auction unknown) queues no persist-bid job and publishes nothing; at most
    the finalization job of a hydration is scheduled.  An accepted bid gives,
    in this order, that optional finalization job, exactly one persist-bid
    job (without bidId), the auction-update job exactly when the auction was
    extended, and last exactly one publication carrying the amount, bidder
    and totalBids returned to the caller. *)
Theorem placeBid_effects_discipline (N : Type) (L : LuaNumber N) (sys : System N)
    (clock : Clock) (auctionId bidder : string) (username : option string) (amount : N)
    (ip ua : option string) :
  exists hydration,
    forallb is_finalize_job hydration = true /\ (length hydration <= 1)%nat
    /\ match fst (placeBid sys clock auctionId bidder username amount ip ua) with
       | Returned (Accepted amt b u ts total ext ed) =>
           exists previous,
             effects (snd (placeBid sys clock auctionId bidder username amount ip ua))
             = effects sys ++ hydration
               ++ [EnqueuePersistBid (bid_job_id auctionId bidder (at_persist_job clock))
                     (mkPersistBidJob auctionId bidder amount
                        (Some (at_placeBid clock / 1000)) (Some previous) (Some total)
                        ip ua None)]
               ++ match ed with
                  | Some (_, newEnd, _) =>
                      [EnqueueAuctionUpdate
                         (auction_update_job_id auctionId (at_update_job clock))
                         auctionId newEnd]
                  | None => []
                  end
               ++ [Publish_bid_placed auctionId amt b u ts total previous ext ed]
             /\ (ext = true <-> ed <> None) /\ amt = amount /\ b = bidder
       | _ => effects (snd (placeBid sys clock auctionId bidder username amount ip ua))
              = effects sys ++ hydration
       end.
Proof. exact (placeBid_effects_shape sys clock auctionId bidder username amount ip ua). Qed.

Section Hydration2.
Context {N : Type} `{LuaNumber N}.

(** The five checks of place-bid.lua suffice. *)
Lemma place_bid_accepts (s : Store N) key (a : AuctionHash N) x bidder t hint :
  hashes s !! key = Some a ->
  num_le x num_zero = false -> h_status a = active -> t < h_end_time a ->
  bidder <> h_seller_id a ->
  num_lt x (if isFirstBid a then h_starting_price a
            else num_add (currentBid a) (effectiveIncrement a hint)) = false ->
  pb_status (fst (place_bid s key (Some x) bidder t hint)) = 1.
Proof.
  intros Ha Hpos Hact Ht Hseller Hmin. unfold place_bid, HGETALL.
  rewrite Ha, Hpos, Hact. cbn [status_eqb negb].
  destruct (Z.leb_spec (h_end_time a) t); [lia|].
  destruct (String.eqb_spec bidder (h_seller_id a)); [contradiction|].
  rewrite Hmin. destruct (HINCRBY_total_bids _ _ _). reflexivity.
Qed.

Lemma checkAndExtendAuction_record (sys : System N) now_job auctionId t (a : AuctionHash N) :
  hashes (redis sys) !! auction_key auctionId = Some a ->
  exists e,
    hashes (redis (fst (checkAndExtendAuction sys now_job auctionId t)))
      !! auction_key auctionId = Some (set_end_time e a)
    /\ h_end_time a <= e.
Proof.
  intros Ha.
  destruct (extend_auction_record (redis sys) (auction_key auctionId) t 30 30 a Ha)
    as (e & He & Hle).
  exists e. split; [|lia].
  destruct (Z.eq_dec (ex_status (fst (extend_auction (redis sys) (auction_key auctionId) t
                                        30 30))) 1) as [Hex|Hex].
  - destruct (checkAndExtendAuction_extended sys now_job auctionId t Hex)
      as (a0 & _ & _ & _ & ->).
    exact He.
  - rewrite (checkAndExtendAuction_not_extended sys now_job auctionId t Hex).
    rewrite (extend_rejection_store _ _ _ _ _ Hex) in He. exact He.
Qed.

(** The tail of [placeBid] only appends to the effects. *)
Lemma placeBid_reply_effects_grow (sys3 : System N) clock auctionId bidder username amount
    ip ua (result : PlaceBidResult N) :
  exists rest,
    effects (snd (placeBid_reply sys3 clock auctionId bidder username amount ip ua result))
    = effects sys3 ++ rest.
Proof.
  pose proof (placeBid_reply_effects sys3 clock auctionId bidder username amount ip ua
                result) as Heff.
  destruct (placeBid_reply sys3 clock auctionId bidder username amount ip ua result)
    as [[[code data|]|code st] sys']; cbn [fst snd] in *.
  - exists []. rewrite app_nil_r. exact Heff.
  - destruct Heff as (previous & -> & _). eexists. reflexivity.
  - exists []. rewrite app_nil_r. exact Heff.
Qed.

End Hydration2.

(** X12.  Hydration on a miss: when the auction has no record in the hot
    store but is an active row of the cold store without bids whose end is
    ahead, a bid by a bidder other than the seller, positive and not below
    the starting price (and no NaN), is accepted in the same call.  The row
    is loaded, its
    finalization job is scheduled, and the record then holds the bid, as
    [tostring] prints it, as current bid, the bidder as highest bidder and the
    row's count plus one; its end time is not before the row's. *)
Theorem placeBid_hydrates_and_accepts (N : Type) (L : LuaNumber N) (sys : System N)
    (clock : Clock) (bidder : string) (username : option string) (amount : N)
    (ip ua : option string) (row : AuctionRow N) :
  rate_limit_key bidder ∉ rate_limit (redis sys) ->
  hashes (redis sys) !! auction_key (r_id row) = None ->
  auctions (postgres sys) !! r_id row = Some row ->
  r_status row = active ->
  at_load clock / 1000 < r_end_time row / 1000 ->
  at_placeBid clock / 1000 < r_end_time row / 1000 ->
  bidder <> r_seller_id row ->
  r_highest_bidder_id row = None ->
  isNaN amount = false ->
  num_le amount num_zero = false ->
  num_lt amount (r_starting_price row) = false ->
  (exists ext ed,
     fst (placeBid sys clock (r_id row) bidder username amount ip ua)
     = Returned (Accepted amount bidder (username_or_default username)
                   (at_placeBid clock / 1000 * 1000) (r_total_bids row + 1) ext ed))
  /\ (exists a,
        hashes (redis (snd (placeBid sys clock (r_id row) bidder username amount ip ua)))
          !! auction_key (r_id row) = Some a
        /\ h_current_bid a = Some (num_tostring amount)
        /\ h_highest_bidder_id a = Some bidder
        /\ h_total_bids a = Some (r_total_bids row + 1) /\ h_status a = active
        /\ r_end_time row / 1000 <= h_end_time a)
  /\ In (EnqueueFinalize (finalize_job_id (r_id row)) (r_id row)
           (if r_end_time row - at_schedule clock <=? 0 then None
            else Some (r_end_time row - at_schedule clock)))
        (effects (snd (placeBid sys clock (r_id row) bidder username amount ip ua))).
Proof.
  intros Hrate Hhot Hcold Hact Hload Hnow Hseller Hnobid _ Hpos Hmin.
  rewrite (placeBid_unfold sys clock _ _ _ _ _ _ Hrate _ eq_refl), Hhot, Hcold.
  cbv zeta. rewrite (loadAuctionToRedis_ahead _ _ _ _ Hload).
  match goal with |- context [scheduleAuctionFinalization ?s ?n ?i ?e] =>
    destruct (redis_scheduleAuctionFinalization s n i e) as (Hr & _ & He);
    set (sys2 := scheduleAuctionFinalization s n i e) in *
  end.
  cbn [redis with_redis effects] in Hr, He.
  set (hash := mkAuctionHash _ _ _ _ _ _ _ _ _ _ _ _) in *.
  assert (Ha : hashes (redis sys2) !! auction_key (r_id row) = Some hash).
  { rewrite Hr. unfold ZADD_active. cbn [hashes with_active_index].
    rewrite hashes_EXPIREAT. cbn [hashes with_hashes]. apply lookup_insert_eq. }
  assert (Hfirst : isFirstBid hash = true).
  { unfold isFirstBid, hash. cbn. rewrite Hnobid. reflexivity. }
  assert (Hok : pb_status (fst (place_bid (redis sys2) (auction_key (r_id row))
                                  (Some amount) bidder (at_placeBid clock / 1000)
                                  (Some (r_bid_increment row)))) = 1).
  { apply (place_bid_accepts _ _ hash); try assumption.
    rewrite Hfirst. exact Hmin. }
  destruct (place_bid_outcome (redis sys2) (auction_key (r_id row)) hash (Some amount)
              bidder (at_placeBid clock / 1000) (Some (r_bid_increment row)) Ha)
    as [[Hne _]|(x & [= <-] & _ & _ & _ & _ & _ & Hfst & Hh & _)]; [contradiction|].
  rewrite Hfst, placeBid_reply_accepted. cbn [fst snd].
  split; [eexists _, _; reflexivity|]. split.
  - cbn [emit_effect redis].
    match goal with |- context [checkAndExtendAuction ?s ?n ?i ?t] =>
      destruct (checkAndExtendAuction_record s n i t (committed hash amount bidder))
        as (e & Hrec & Hle)
    end.
    { cbn [addBidPersistenceJob emit_effect redis with_redis]. rewrite Hh.
      apply lookup_insert_eq. }
    eexists. split; [exact Hrec|]. cbn in Hle |- *. repeat split; try assumption.
  - cbn [emit_effect effects]. apply in_or_app. left.
    match goal with |- context [checkAndExtendAuction ?s ?n ?i ?t] =>
      destruct (Z.eq_dec (ex_status (fst (extend_auction (redis s) (auction_key i) t 30 30)))
                  1) as [Hex|Hex];
      [destruct (checkAndExtendAuction_extended s n i t Hex) as (a0 & _ & _ & _ & ->)
      |rewrite (checkAndExtendAuction_not_extended s n i t Hex)]
    end; cbn [fst emit_effect effects addBidPersistenceJob with_redis];
      rewrite He, ?in_app_iff; cbn [In]; tauto.
Qed.

Lemma placeBid_hydrates_and_accepts_witness :
  (exists ext ed,
     fst (placeBid (N := Z) systemE clockEarly (r_id rowE) "U1" (Some "alice") 10000 None None)
     = Returned (Accepted 10000 "U1" (username_or_default (Some "alice"))
                   (at_placeBid clockEarly / 1000 * 1000) (r_total_bids rowE + 1) ext ed))
  /\ (exists a,
        hashes (redis (snd (placeBid (N := Z) systemE clockEarly (r_id rowE) "U1"
                              (Some "alice") 10000 None None)))
          !! auction_key (r_id rowE) = Some a
        /\ h_current_bid a = Some (num_tostring 10000)
        /\ h_highest_bidder_id a = Some "U1"
        /\ h_total_bids a = Some (r_total_bids rowE + 1) /\ h_status a = active
        /\ r_end_time rowE / 1000 <= h_end_time a)
  /\ In (EnqueueFinalize (finalize_job_id (r_id rowE)) (r_id rowE)
           (if r_end_time rowE - at_schedule clockEarly <=? 0 then None
            else Some (r_end_time rowE - at_schedule clockEarly)))
        (effects (snd (placeBid (N := Z) systemE clockEarly (r_id rowE) "U1" (Some "alice")
                         10000 None None))).
Proof.
  apply (placeBid_hydrates_and_accepts Z Cents systemE clockEarly "U1" (Some "alice") 10000
           None None rowE).
  - vm_compute. set_solver.
  - reflexivity.
  - reflexivity.
  - reflexivity.
  - reflexivity.
  - reflexivity.
  - discriminate.
  - reflexivity.
  - reflexivity.
  - reflexivity.
  - reflexivity.
Defined.

(** X13.  [loadAuctionToRedis] on a row whose end is ahead, whatever the hot
    store holds and whatever the row's status: the record of the auction is
    replaced by the row's values (current bid defaulting to the starting
    price, an absent bidder stored as the empty string, times in seconds),
    the auction enters the active index with its end time as score, the
    record's deadline is the end time plus 86400 seconds whatever the time of
    loading, bid histories and other records are untouched, and exactly one
    finalization job is scheduled, delayed by endTime - now when that is
    positive. *)
Theorem loadAuctionToRedis_installs (N : Type) (L : LuaNumber N) (sys : System N)
    (now now_schedule : Z) (row : AuctionRow N) :
  now / 1000 < r_end_time row / 1000 ->
  (exists a,
     hashes (redis (loadAuctionToRedis sys now now_schedule row)) !! auction_key (r_id row)
     = Some a
     /\ h_id a = r_id row /\ h_seller_id a = r_seller_id row
     /\ h_starting_price a = r_starting_price row
     /\ currentBid a = default (r_starting_price row) (r_current_bid row)
     /\ h_bid_increment a = Some (r_bid_increment row)
     /\ h_highest_bidder_id a = Some (default "" (r_highest_bidder_id row))
     /\ h_total_bids a = Some (r_total_bids row)
     /\ h_end_time a = r_end_time row / 1000 /\ h_status a = r_status row)
  /\ active_index (redis (loadAuctionToRedis sys now now_schedule row)) !! r_id row
     = Some (r_end_time row / 1000)
  /\ expire_at (redis (loadAuctionToRedis sys now now_schedule row))
       !! auction_key (r_id row)
     = Some (r_end_time row / 1000 + 86400)
  /\ bid_sets (redis (loadAuctionToRedis sys now now_schedule row)) = bid_sets (redis sys)
  /\ (forall k, k <> auction_key (r_id row) ->
        hashes (redis (loadAuctionToRedis sys now now_schedule row)) !! k
        = hashes (redis sys) !! k)
  /\ postgres (loadAuctionToRedis sys now now_schedule row) = postgres sys
  /\ effects (loadAuctionToRedis sys now now_schedule row)
     = effects sys
       ++ [EnqueueFinalize (finalize_job_id (r_id row)) (r_id row)
             (if r_end_time row - now_schedule <=? 0 then None
              else Some (r_end_time row - now_schedule))].
Proof.
  intros Hahead. rewrite (loadAuctionToRedis_ahead _ _ _ _ Hahead).
  match goal with |- context [scheduleAuctionFinalization ?s ?n ?i ?e] =>
    destruct (redis_scheduleAuctionFinalization s n i e) as (Hr & Hp & He)
  end.
  rewrite Hr, Hp, He. cbn [redis with_redis postgres effects].
  unfold ZADD_active.
  cbn [hashes active_index expire_at bid_sets with_active_index].
  rewrite hashes_EXPIREAT, bid_sets_EXPIREAT. cbn [hashes bid_sets with_hashes].
  split; [|split; [|split; [|split; [|split]]]].
  - eexists. split; [apply lookup_insert_eq|]. cbn. repeat split.
  - apply lookup_insert_eq.
  - unfold EXPIREAT, EXISTS. cbn [hashes with_hashes]. rewrite lookup_insert_eq.
    rewrite (bool_decide_eq_true_2 (is_Some (Some _))) by eauto.
    cbn [orb expire_at with_expire_at]. rewrite lookup_insert_eq. f_equal. lia.
  - reflexivity.
  - intros k Hk. apply lookup_insert_ne. congruence.
  - split; reflexivity.
Qed.

Lemma loadAuctionToRedis_installs_witness :
  (exists a,
     hashes (redis (loadAuctionToRedis (N := Z) systemE 900001 900002 rowE))
       !! auction_key (r_id rowE) = Some a
     /\ h_id a = r_id rowE /\ h_seller_id a = r_seller_id rowE
     /\ h_starting_price a = r_starting_price rowE
     /\ currentBid a = default (r_starting_price rowE) (r_current_bid rowE)
     /\ h_bid_increment a = Some (r_bid_increment rowE)
     /\ h_highest_bidder_id a = Some (default "" (r_highest_bidder_id rowE))
     /\ h_total_bids a = Some (r_total_bids rowE)
     /\ h_end_time a = r_end_time rowE / 1000 /\ h_status a = r_status rowE)
  /\ active_index (redis (loadAuctionToRedis (N := Z) systemE 900001 900002 rowE))
       !! r_id rowE = Some (r_end_time rowE / 1000)
  /\ expire_at (redis (loadAuctionToRedis (N := Z) systemE 900001 900002 rowE))
       !! auction_key (r_id rowE) = Some (r_end_time rowE / 1000 + 86400)
  /\ bid_sets (redis (loadAuctionToRedis (N := Z) systemE 900001 900002 rowE))
     = bid_sets (redis systemE)
  /\ (forall k, k <> auction_key (r_id rowE) ->
        hashes (redis (loadAuctionToRedis (N := Z) systemE 900001 900002 rowE)) !! k
        = hashes (redis systemE) !! k)
  /\ postgres (loadAuctionToRedis (N := Z) systemE 900001 900002 rowE) = postgres systemE
  /\ effects (loadAuctionToRedis (N := Z) systemE 900001 900002 rowE)
     = effects systemE
       ++ [EnqueueFinalize (finalize_job_id (r_id rowE)) (r_id rowE)
             (if r_end_time rowE - 900002 <=? 0 then None
              else Some (r_end_time rowE - 900002))].
Proof.
  apply (loadAuctionToRedis_installs Z Cents systemE 900001 900002 rowE). reflexivity.
Defined.

(** X14.  A rejection returned by [BidService.placeBid] carries the reply
    of place-bid.lua with a status other than 1, and its error code is the
    name of that status: never UNKNOWN_ERROR, and two rejections with the
    same code have the same status. *)
Theorem placeBid_rejection_is_named (N : Type) (L : LuaNumber N) (sys : System N)
    (clock : Clock) (auctionId bidder : string) (username : option string) (amount : N)
    (ip ua : option string) (code : string) (data : PlaceBidResult N) :
  fst (placeBid sys clock auctionId bidder username amount ip ua)
  = Returned (Rejected code data) ->
  pb_status data <> 1 /\ code = getErrorCode (pb_status data) /\ code <> "UNKNOWN_ERROR"
  /\ forall data' : PlaceBidResult N,
       getErrorCode (pb_status data') = code -> pb_status data' = pb_status data.
Proof.
  intros Hrej.
  assert (Hgen : forall sys3 result,
             fst (placeBid_reply sys3 clock auctionId bidder username amount ip ua result)
             = Returned (Rejected code data) ->
             pb_status data <> 1 /\ code = getErrorCode (pb_status data)).
  { intros sys3 result Hr.
    destruct (Z.eq_dec (pb_status result) 1) as [Hok|Hne].
    - destruct result; try discriminate. rewrite placeBid_reply_accepted in Hr.
      discriminate.
    - rewrite placeBid_reply_rejected in Hr by exact Hne. injection Hr as <- <-.
      split; [exact Hne|reflexivity]. }
  assert (Hnamed : pb_status data <> 1 /\ code = getErrorCode (pb_status data)).
  { destruct (decide (rate_limit_key bidder ∈ rate_limit (redis sys))) as [Hin|Hrate].
    - unfold placeBid in Hrej. rewrite (bool_decide_eq_true_2 _ Hin) in Hrej.
      discriminate.
    - rewrite (placeBid_unfold sys clock _ _ _ _ _ _ Hrate _ eq_refl) in Hrej.
      destruct (hashes (redis sys) !! auction_key auctionId) as [a|];
        [exact (Hgen _ _ Hrej)|].
      destruct (auctions (postgres sys) !! auctionId) as [row|];
        [exact (Hgen _ _ Hrej)|discriminate]. }
  destruct Hnamed as [Hne ->]. split; [exact Hne|]. split; [reflexivity|].
  split.
  - destruct data; cbn; try discriminate. contradiction Hne. reflexivity.
  - intros data'. destruct data, data'; cbn; try discriminate; try reflexivity;
      contradiction Hne; reflexivity.
Qed.

Lemma placeBid_rejection_is_named_witness :
  pb_status (PB_NOT_FOUND (N := Z)) <> 1
  /\ "AUCTION_NOT_FOUND" = getErrorCode (pb_status (PB_NOT_FOUND (N := Z)))
  /\ "AUCTION_NOT_FOUND" <> "UNKNOWN_ERROR"
  /\ forall data' : PlaceBidResult Z,
       getErrorCode (pb_status data') = "AUCTION_NOT_FOUND"
       -> pb_status data' = pb_status (PB_NOT_FOUND (N := Z)).
Proof.
  apply (placeBid_rejection_is_named Z Cents systemE clockE "E" "U1" (Some "alice") 10000
           None None "AUCTION_NOT_FOUND" PB_NOT_FOUND).
  reflexivity.
Defined.

Section AntiSniping.
Context {N : Type} `{LuaNumber N}.

(** When extend-auction.lua extends an active record. *)
Lemma extend_auction_decides (s : Store N) key (a : AuctionHash N) t threshold duration :
  hashes s !! key = Some a -> h_status a = active ->
  (0 < h_end_time a - t <= threshold ->
   ex_status (fst (extend_auction s key t threshold duration)) = 1)
  /\ (threshold < h_end_time a - t ->
      ex_status (fst (extend_auction s key t threshold duration)) <> 1).
Proof.
  intros Ha Hact. unfold extend_auction, HGETALL. rewrite Ha, Hact. cbn [status_eqb negb].
  destruct (Z.ltb_spec 0 (h_end_time a - t));
    destruct (Z.leb_spec (h_end_time a - t) threshold); cbn; split; intros; lia.
Qed.

End AntiSniping.

(** X15.  Anti-sniping through the service.  For a bid (no NaN) accepted on
    a record of the hot store: when at most 30 seconds remain, the same call
    moves the end time 30 seconds forward in the record and in the active
    index and reports extended with the old end, the new end (milliseconds)
    and 30; when more than 30 seconds remain, it reports not extended and
    the end time stays.  Either way the record holds the bid, the bidder and
    one more bid, and its other fields are as before.  In neither case is a
    finalization job scheduled: the job scheduled when the auction was loaded
    keeps its delay. *)
Theorem accepted_bid_near_end_extends (N : Type) (L : LuaNumber N) (sys : System N)
    (clock : Clock) (auctionId bidder : string) (username : option string) (amount : N)
    (ip ua : option string) (a : AuctionHash N) (amt : N) (b u : string) (ts total : Z)
    (ext : bool) (ed : option (Z * Z * Z)) :
  rate_limit_key bidder ∉ rate_limit (redis sys) ->
  hashes (redis sys) !! auction_key auctionId = Some a ->
  isNaN amount = false ->
  fst (placeBid sys clock auctionId bidder username amount ip ua)
  = Returned (Accepted amt b u ts total ext ed) ->
  0 < h_end_time a - at_placeBid clock / 1000
  /\ (h_end_time a - at_placeBid clock / 1000 <= 30 ->
      ext = true
      /\ ed = Some (h_end_time a * 1000, (h_end_time a + 30) * 1000, 30)
      /\ hashes (redis (snd (placeBid sys clock auctionId bidder username amount ip ua)))
           !! auction_key auctionId
         = Some (mkAuctionHash (h_id a) (h_title a) (h_seller_id a) (h_starting_price a)
                   (Some (num_tostring amount)) (h_bid_increment a) (Some bidder)
                   (Some (default 0 (h_total_bids a) + 1))
                   (h_start_time a) (h_end_time a + 30) (h_original_end_time a) active)
      /\ active_index (redis (snd (placeBid sys clock auctionId bidder username amount ip
                                     ua))) !! h_id a
         = Some (h_end_time a + 30))
  /\ (30 < h_end_time a - at_placeBid clock / 1000 ->
      ext = false /\ ed = None
      /\ hashes (redis (snd (placeBid sys clock auctionId bidder username amount ip ua)))
           !! auction_key auctionId
         = Some (mkAuctionHash (h_id a) (h_title a) (h_seller_id a) (h_starting_price a)
                   (Some (num_tostring amount)) (h_bid_increment a) (Some bidder)
                   (Some (default 0 (h_total_bids a) + 1))
                   (h_start_time a) (h_end_time a) (h_original_end_time a) active))
  /\ List.filter is_finalize_job
       (effects (snd (placeBid sys clock auctionId bidder username amount ip ua)))
     = List.filter is_finalize_job (effects sys).
Proof.
  intros Hrate Ha _. rewrite (placeBid_unfold sys clock _ _ _ _ _ _ Hrate _ eq_refl), Ha.
  set (s0 := with_expire_at _ _).
  assert (Ha0 : hashes s0 !! auction_key auctionId = Some a) by exact Ha.
  set (t := at_placeBid clock / 1000).
  destruct (place_bid_outcome s0 (auction_key auctionId) a (Some amount) bidder t None Ha0)
    as [[Hne _]|(x & [= <-] & _ & Hact & Ht & _ & _ & Hfst & Hh & _)].
  { rewrite placeBid_reply_rejected by exact Hne. discriminate. }
  rewrite Hfst, placeBid_reply_accepted. fold t. cbn [fst snd].
  set (sys4 := addBidPersistenceJob _ _ _).
  assert (Ha4 : hashes (redis sys4) !! auction_key auctionId
                = Some (committed a amount bidder)).
  { unfold sys4. cbn [addBidPersistenceJob emit_effect redis with_redis]. rewrite Hh.
    apply lookup_insert_eq. }
  assert (Hact4 : h_status (committed a amount bidder) = active) by exact Hact.
  destruct (extend_auction_decides (redis sys4) (auction_key auctionId)
              (committed a amount bidder) t 30 30 Ha4 Hact4) as [Hyes Hno].
  change (h_end_time (committed a amount bidder)) with (h_end_time a) in Hyes, Hno.
  intros [= <- <- <- <- <- <- <-].
  split; [lia|].
  assert (Heff4 : effects sys4
                  = effects sys ++ [EnqueuePersistBid (bid_job_id auctionId bidder
                                                         (at_persist_job clock))
                                      (mkPersistBidJob auctionId bidder amount (Some t)
                                         (Some (num_tostring (currentBid a)))
                                         (Some (default 0 (h_total_bids a) + 1))
                                         ip ua None)]) by reflexivity.
  destruct (Z.le_gt_cases (h_end_time a - t) 30) as [Hnear|Hfar].
  - assert (Hex : ex_status (fst (extend_auction (redis sys4) (auction_key auctionId) t
                                    30 30)) = 1) by (apply Hyes; lia).
    destruct (checkAndExtendAuction_extended sys4 (at_update_job clock) auctionId t Hex)
      as (a0 & Ha0' & _ & _ & ->).
    rewrite Ha4 in Ha0'. injection Ha0' as <-.
    change (h_end_time (committed a amount bidder)) with (h_end_time a).
    cbn [fst snd emit_effect redis effects with_redis].
    destruct (extend_auction_extended N L (redis sys4) (auction_key auctionId) t 30 30 Hex)
      as (a1 & Ha1 & _ & _ & ->).
    rewrite Ha4 in Ha1. injection Ha1 as <-.
    change (h_end_time (committed a amount bidder)) with (h_end_time a).
    change (h_id (committed a amount bidder)) with (h_id a).
    cbn [snd]. rewrite hashes_EXPIREAT, active_index_EXPIREAT.
    split; [|split; [intros; lia|]].
    + intros _. split; [reflexivity|]. split; [reflexivity|]. split.
      * unfold ZADD_active, HSET. cbn [hashes with_active_index with_hashes].
        rewrite (alter_lookup _ _ _ _ Ha4), lookup_insert_eq.
        unfold set_end_time, committed. cbn. rewrite Hact. reflexivity.
      * unfold ZADD_active. cbn [active_index with_active_index]. apply lookup_insert_eq.
    + rewrite Heff4, !List.filter_app. cbn. rewrite !app_nil_r. reflexivity.
  - assert (Hex : ex_status (fst (extend_auction (redis sys4) (auction_key auctionId) t
                                    30 30)) <> 1) by (apply Hno; lia).
    rewrite (checkAndExtendAuction_not_extended sys4 (at_update_job clock) auctionId t Hex).
    cbn [fst snd emit_effect redis effects].
    split; [intros; lia|]. split.
    + intros _. split; [reflexivity|]. split; [reflexivity|].
      rewrite Ha4. unfold committed. rewrite Hact. reflexivity.
    + rewrite Heff4, !List.filter_app. cbn. rewrite !app_nil_r. reflexivity.
Qed.

Lemma accepted_bid_near_end_extends_witness :
  0 < h_end_time (auctionA (N := Z)) - at_placeBid clockLate / 1000
  /\ (h_end_time (auctionA (N := Z)) - at_placeBid clockLate / 1000 <= 30 ->
      true = true
      /\ Some (1000000, 1030000, 30)
         = Some (h_end_time (auctionA (N := Z)) * 1000,
                 (h_end_time (auctionA (N := Z)) + 30) * 1000, 30)
      /\ hashes (redis (snd (placeBid (N := Z) systemA clockLate "A" "U1" (Some "alice")
                               10000 None None))) !! auction_key "A"
         = Some (mkAuctionHash "A" "Vintage Watch" "seller" 10000 (Some 10000) (Some 500)
                   (Some "U1") (Some 1) 0 1030 1000 active)
      /\ active_index (redis (snd (placeBid (N := Z) systemA clockLate "A" "U1"
                                     (Some "alice") 10000 None None)))
           !! h_id (auctionA (N := Z))
         = Some (h_end_time (auctionA (N := Z)) + 30))
  /\ (30 < h_end_time (auctionA (N := Z)) - at_placeBid clockLate / 1000 ->
      true = false /\ Some (1000000, 1030000, 30) = None
      /\ hashes (redis (snd (placeBid (N := Z) systemA clockLate "A" "U1" (Some "alice")
                               10000 None None))) !! auction_key "A"
         = Some (mkAuctionHash "A" "Vintage Watch" "seller" 10000 (Some 10000) (Some 500)
                   (Some "U1") (Some 1) 0 1000 1000 active))
  /\ List.filter is_finalize_job
       (effects (snd (placeBid (N := Z) systemA clockLate "A" "U1" (Some "alice") 10000
                        None None)))
     = List.filter is_finalize_job (effects systemA).
Proof.
  assert (Hrate : rate_limit_key "U1" ∉ rate_limit (redis (systemA (N := Z))))
    by (vm_compute; set_solver).
  assert (Ha : hashes (redis (systemA (N := Z))) !! auction_key "A" = Some auctionA)
    by reflexivity.
  assert (Hacc : fst (placeBid (N := Z) systemA clockLate "A" "U1" (Some "alice") 10000
                        None None)
                 = Returned (Accepted 10000 "U1" "alice" 999000 1 true
                               (Some (1000000, 1030000, 30)))) by reflexivity.
  assert (Hnan : isNaN (10000 : Z) = false) by reflexivity.
  exact (accepted_bid_near_end_extends Z Cents systemA clockLate "A" "U1" (Some "alice")
           10000 None None auctionA 10000 "U1" "alice" 999000 1 true
           (Some (1000000, 1030000, 30)) Hrate Ha Hnan Hacc).
Defined.
(* ===================================================================== *)
(** * Further properties: the gateway *)
(* ===================================================================== *)

Section GatewayFacts.
Context {N : Type} `{LuaNumber N}.

(** The [BID_PLACED] listener on a payload it passes on to the service. *)
Lemma on_BID_PLACED_valid (sys : System N) clock socket a x ip ua :
  a <> "" -> isNaN x = false -> num_le x num_zero = false ->
  on_BID_PLACED sys clock socket (Some (mkBidPayload (Some a) (amount_parsed x))) ip ua
  = match placeBid sys clock a (userId socket) (Some (username socket)) x ip ua with
    | (Returned (Accepted amt bidder uname timestamp totalBids _ _), sys') =>
        (sys', [(ToSocket (socket_id socket),
                 M_BID_ACCEPTED a amt bidder uname timestamp totalBids)])
    | (Returned (Rejected errorCode data), sys') =>
        (sys', [(ToSocket (socket_id socket),
                 M_BID_REJECTED (Some a) errorCode (Some data))])
    | (AppError _ _, sys') =>
        (sys', [(ToSocket (socket_id socket), M_BID_REJECTED (Some a) "BID_FAILED" None)])
    end.
Proof.
  intros Ha Hnan Hpos. unfold on_BID_PLACED, falsy. cbn [p_auctionId p_amount].
  rewrite Hnan, Hpos.
  destruct (String.eqb_spec a ""); [contradiction|]. reflexivity.
Qed.

(** The listener on any payload: a refusal of its own that leaves the
    system as it is, or the call of the service. *)
Lemma on_BID_PLACED_cases (sys : System N) clock socket (payload : BidPayload N) ip ua :
  (exists code,
     on_BID_PLACED sys clock socket (Some payload) ip ua
     = (sys, [(ToSocket (socket_id socket),
               M_BID_REJECTED (p_auctionId payload) code None)])
     /\ ((code = "INVALID_INPUT"
          /\ (falsy (p_auctionId payload) = true \/ p_amount payload = amount_falsy))
         \/ (code = "INVALID_AMOUNT"
             /\ falsy (p_auctionId payload) = false
             /\ (p_amount payload = amount_not_numeric
                 \/ exists x, p_amount payload = amount_parsed x
                              /\ (isNaN x = true \/ num_le x num_zero = true)))))
  \/ (exists a x,
        payload = mkBidPayload (Some a) (amount_parsed x)
        /\ a <> "" /\ isNaN x = false /\ num_le x num_zero = false).
Proof.
  destruct payload as [auctionId amt]. cbn [p_auctionId p_amount].
  unfold on_BID_PLACED. cbn [p_auctionId p_amount].
  destruct amt as [| |x].
  - left. exists "INVALID_INPUT". split; [reflexivity|]. left. auto.
  - left. destruct (falsy auctionId) eqn:Hf.
    + exists "INVALID_INPUT". split; [reflexivity|]. left. auto.
    + exists "INVALID_AMOUNT". split; [reflexivity|]. right. auto.
  - destruct (falsy auctionId) eqn:Hf.
    { left. exists "INVALID_INPUT". split; [reflexivity|]. left. auto. }
    destruct (isNaN x) eqn:Hnan.
    { left. exists "INVALID_AMOUNT". split; [reflexivity|]. right.
      split; [reflexivity|]. split; [reflexivity|]. right. exists x. auto. }
    destruct (num_le x num_zero) eqn:Hle.
    { left. exists "INVALID_AMOUNT". split; [reflexivity|]. right.
      split; [reflexivity|]. split; [reflexivity|]. right. exists x. auto. }
    right. destruct auctionId as [a|]; [|discriminate]. cbn [falsy] in Hf.
    exists a, x. repeat split; try assumption. intros ->. discriminate.
Qed.

End GatewayFacts.

(** X16.  An event BID_PLACED that comes without payload gets no reply and
    changes nothing.  The reply to one with a payload is one message, sent to
    the bidder's socket only, named BID_ACCEPTED or BID_REJECTED; the
    listener itself sends nothing to the room.  A payload without auction id
    or whose amount is missing or zero is answered INVALID_INPUT, and one
    whose amount is no number or not positive INVALID_AMOUNT, both without
    calling the service: the system is unchanged (no rate-limit key is
    taken). *)
Theorem BID_PLACED_reply_is_unicast (N : Type) (L : LuaNumber N) (sys : System N)
    (clock : Clock) (socket : Socket) (ip ua : option string) :
  on_BID_PLACED sys clock socket None ip ua = (sys, [])
  /\ forall payload : BidPayload N,
       exists m,
         snd (on_BID_PLACED sys clock socket (Some payload) ip ua)
         = [(ToSocket (socket_id socket), m)]
         /\ (event_name m = "BID_ACCEPTED" \/ event_name m = "BID_REJECTED")
         /\ (falsy (p_auctionId payload) = true \/ p_amount payload = amount_falsy ->
             fst (on_BID_PLACED sys clock socket (Some payload) ip ua) = sys
             /\ m = M_BID_REJECTED (p_auctionId payload) "INVALID_INPUT" None)
         /\ (falsy (p_auctionId payload) = false ->
             p_amount payload = amount_not_numeric
             \/ (exists x, p_amount payload = amount_parsed x
                           /\ (isNaN x = true \/ num_le x num_zero = true)) ->
             fst (on_BID_PLACED sys clock socket (Some payload) ip ua) = sys
             /\ m = M_BID_REJECTED (p_auctionId payload) "INVALID_AMOUNT" None).
Proof.
  split; [reflexivity|]. intros payload.
  destruct (on_BID_PLACED_cases sys clock socket payload ip ua)
    as [(code & Heq & Hcode)|(a & x & -> & Ha & Hnan & Hle)].
  - rewrite Heq. cbn [fst snd]. eexists. split; [reflexivity|].
    split; [right; reflexivity|].
    destruct Hcode as [[-> Hin]|(-> & Hf & Ham)]; split.
    + intros _. split; reflexivity.
    + intros Hf Ham. exfalso. destruct Hin as [Hin|Hin]; [congruence|].
      destruct Ham as [Ham|(x & Ham & _)]; congruence.
    + intros [Hbad|Hbad]; [congruence|]. exfalso.
      destruct Ham as [Ham|(x & Ham & _)]; congruence.
    + intros _ _. split; reflexivity.
  - rewrite (on_BID_PLACED_valid sys clock socket a x ip ua Ha Hnan Hle).
    cbn [p_auctionId p_amount falsy].
    destruct (placeBid sys clock a (userId socket) (Some (username socket)) x ip ua)
      as [[[code data|amt b u ts total ext ed]|code st] sys'];
      (eexists; split; [reflexivity|]; split; [cbn; auto|]); split.
    all: try (intros [Hbad|Hbad]; [|discriminate];
              destruct (String.eqb_spec a ""); [contradiction|discriminate]).
    all: intros _ [Hbad|(y & [= <-] & [Hbad|Hbad])]; congruence.
Qed.

(** X17.  When the bidder is sent BID_ACCEPTED, the last thing the call did
    was to publish that bid, and a gateway receiving the publication sends
    the room of the auction an UPDATE_BID with the same amount, bidder, user
    name, timestamp and totalBids, followed by AUCTION_EXTENDED exactly when
    the bid extended the auction. *)
Theorem accepted_bid_reaches_room (N : Type) (L : LuaNumber N) (sys : System N)
    (clock : Clock) (socket : Socket) (data : option (BidPayload N))
    (ip ua : option string) (a : string) (x : N) (b u : string) (ts total : Z) :
  snd (on_BID_PLACED sys clock socket data ip ua)
  = [(ToSocket (socket_id socket), M_BID_ACCEPTED a x b u ts total)] ->
  data = Some (mkBidPayload (Some a) (amount_parsed x)) /\ b = userId socket
  /\ exists pre previous ext ed,
       effects (fst (on_BID_PLACED sys clock socket data ip ua))
       = pre ++ [Publish_bid_placed a x b u ts total previous ext ed]
       /\ (ext = true <-> ed <> None)
       /\ on_pubsub (Publish_bid_placed a x b u ts total previous ext ed)
          = (ToRoom (auction_key a), M_UPDATE_BID a x b u ts total)
            :: match ed with
               | Some (oldEnd, newEnd, by_) =>
                   [(ToRoom (auction_key a), M_AUCTION_EXTENDED a oldEnd newEnd by_)]
               | None => []
               end.
Proof.
  intros Hout. destruct data as [payload|]; [|discriminate].
  destruct (on_BID_PLACED_cases sys clock socket payload ip ua)
    as [(code & Heq & _)|(a' & y & -> & Ha & Hnan & Hle)].
  { rewrite Heq in Hout. discriminate. }
  rewrite (on_BID_PLACED_valid sys clock socket a' y ip ua Ha Hnan Hle) in Hout |- *.
  destruct (placeBid_effects_shape sys clock a' (userId socket) (Some (username socket)) y
              ip ua) as (hyd & _ & _ & Heff).
  destruct (placeBid sys clock a' (userId socket) (Some (username socket)) y ip ua)
    as [[[code data|amt b' u' ts' total' ext ed]|code st] sys'];
    cbn [fst snd] in *; try discriminate.
  injection Hout as <- <- <- <- <- <-.
  destruct Heff as (previous & Heff & Hext & <- & <-).
  split; [reflexivity|]. split; [reflexivity|].
  exists (effects sys ++ hyd
          ++ [EnqueuePersistBid (bid_job_id a' (userId socket) (at_persist_job clock))
                (mkPersistBidJob a' (userId socket) amt (Some (at_placeBid clock / 1000))
                   (Some previous) (Some total') ip ua None)]
          ++ match ed with
             | Some (_, newEnd, _) =>
                 [EnqueueAuctionUpdate (auction_update_job_id a' (at_update_job clock)) a'
                    newEnd]
             | None => []
             end), previous, ext, ed.
  split; [rewrite Heff, <- !app_assoc; reflexivity|]. split; [exact Hext|].
  destruct ed as [[[o n] by_]|], ext; cbn; try reflexivity.
  - destruct Hext as [_ Hext]. discriminate Hext. discriminate.
Qed.

Lemma accepted_bid_reaches_room_witness :
  Some (mkBidPayload (Some "A") (amount_parsed (10000 : Z)))
  = Some (mkBidPayload (Some "A") (amount_parsed 10000))
  /\ "U1" = userId socketU1
  /\ exists pre previous ext ed,
       effects (fst (on_BID_PLACED (N := Z) systemA clockS1 socketU1
                       (Some (mkBidPayload (Some "A") (amount_parsed 10000))) None None))
       = pre ++ [Publish_bid_placed "A" 10000 "U1" "alice" 900000 1 previous ext ed]
       /\ (ext = true <-> ed <> None)
       /\ on_pubsub (Publish_bid_placed "A" 10000 "U1" "alice" 900000 1 previous ext ed)
          = (ToRoom (auction_key "A"), M_UPDATE_BID "A" 10000 "U1" "alice" 900000 1)
            :: match ed with
               | Some (oldEnd, newEnd, by_) =>
                   [(ToRoom (auction_key "A"), M_AUCTION_EXTENDED "A" oldEnd newEnd by_)]
               | None => []
               end.
Proof.
  apply (accepted_bid_reaches_room Z Cents systemA clockS1 socketU1
           (Some (mkBidPayload (Some "A") (amount_parsed 10000)))
           None None "A" 10000 "U1" "alice" 900000 1).
  reflexivity.
Defined.

(** X18.  A well-formed bid of a bidder whose rate-limit key is set is
    answered BID_REJECTED with code BID_FAILED, not RATE_LIMIT_EXCEEDED (the
    listener replaces every thrown error by BID_FAILED), and changes
    nothing. *)
Theorem rate_limited_bid_reaches_client_as_BID_FAILED (N : Type) (L : LuaNumber N)
    (sys : System N) (clock : Clock) (socket : Socket) (a : string) (x : N)
    (ip ua : option string) :
  a <> "" -> isNaN x = false -> num_le x num_zero = false ->
  rate_limit_key (userId socket) ∈ rate_limit (redis sys) ->
  on_BID_PLACED sys clock socket (Some (mkBidPayload (Some a) (amount_parsed x))) ip ua
  = (sys, [(ToSocket (socket_id socket), M_BID_REJECTED (Some a) "BID_FAILED" None)]).
Proof.
  intros Ha Hz Hle Hin. rewrite (on_BID_PLACED_valid sys clock socket a x ip ua Ha Hz Hle).
  unfold placeBid. rewrite (bool_decide_eq_true_2 _ Hin). reflexivity.
Qed.

Lemma rate_limited_bid_reaches_client_as_BID_FAILED_witness :
  on_BID_PLACED (N := Z) systemA1 clockLate socketU1
    (Some (mkBidPayload (Some "A") (amount_parsed 10500))) None None
  = (systemA1,
     [(ToSocket (socket_id socketU1), M_BID_REJECTED (Some "A") "BID_FAILED" None)]).
Proof.
  apply (rate_limited_bid_reaches_client_as_BID_FAILED Z Cents systemA1 clockLate socketU1
           "A" 10500 None None); [discriminate|reflexivity|reflexivity|].
  vm_compute. set_solver.
Defined.

(** X19.  A well-formed bid on an auction that is in neither store is
    answered BID_REJECTED with code BID_FAILED, not AUCTION_NOT_FOUND; it
    has taken the bidder's rate-limit key and changed nothing else: no
    record, no job, no publication. *)
Theorem unknown_auction_bid_reaches_client_as_BID_FAILED (N : Type) (L : LuaNumber N)
    (sys : System N) (clock : Clock) (socket : Socket) (a : string) (x : N)
    (ip ua : option string) :
  a <> "" -> isNaN x = false -> num_le x num_zero = false ->
  rate_limit_key (userId socket) ∉ rate_limit (redis sys) ->
  hashes (redis sys) !! auction_key a = None -> auctions (postgres sys) !! a = None ->
  let after := fst (on_BID_PLACED sys clock socket
                      (Some (mkBidPayload (Some a) (amount_parsed x))) ip ua) in
  snd (on_BID_PLACED sys clock socket
         (Some (mkBidPayload (Some a) (amount_parsed x))) ip ua)
  = [(ToSocket (socket_id socket), M_BID_REJECTED (Some a) "BID_FAILED" None)]
  /\ rate_limit_key (userId socket) ∈ rate_limit (redis after)
  /\ hashes (redis after) = hashes (redis sys)
  /\ bid_sets (redis after) = bid_sets (redis sys)
  /\ postgres after = postgres sys
  /\ effects after = effects sys.
Proof.
  intros Ha Hz Hle Hrate Hhot Hcold. cbv zeta.
  rewrite (on_BID_PLACED_valid sys clock socket a x ip ua Ha Hz Hle).
  rewrite (placeBid_unfold sys clock _ _ _ _ _ _ Hrate _ eq_refl), Hhot, Hcold.
  cbn [fst snd redis with_redis rate_limit with_expire_at with_rate_limit hashes effects
       bid_sets postgres].
  split; [reflexivity|]. split; [|repeat split].
  apply elem_of_union_l, elem_of_singleton. reflexivity.
Qed.

Lemma unknown_auction_bid_reaches_client_as_BID_FAILED_witness :
  let after := fst (on_BID_PLACED (N := Z) systemA clockS1 socketU1
                      (Some (mkBidPayload (Some "Z") (amount_parsed 10000))) None None) in
  snd (on_BID_PLACED (N := Z) systemA clockS1 socketU1
         (Some (mkBidPayload (Some "Z") (amount_parsed 10000))) None None)
  = [(ToSocket (socket_id socketU1), M_BID_REJECTED (Some "Z") "BID_FAILED" None)]
  /\ rate_limit_key (userId socketU1) ∈ rate_limit (redis after)
  /\ hashes (redis after) = hashes (redis systemA)
  /\ bid_sets (redis after) = bid_sets (redis systemA)
  /\ postgres after = postgres systemA
  /\ effects after = effects systemA.
Proof.
  apply (unknown_auction_bid_reaches_client_as_BID_FAILED Z Cents systemA clockS1 socketU1
           "Z" 10000 None None); [discriminate|reflexivity|reflexivity| |reflexivity
                                 |reflexivity].
  vm_compute. set_solver.
Defined.
(* ===================================================================== *)
(** * Further properties: finalization *)
(* ===================================================================== *)

Section FinalizerFacts.
Context {N : Type} `{LuaNumber N} `{PgNumeric N}.

Lemma with_redis_same (sys : System N) : with_redis sys (redis sys) = sys.
Proof. destruct sys. reflexivity. Qed.

(** The finalize script on a record that is due. *)
Lemma finalize_auction_due (s : Store N) key (a : AuctionHash N) t :
  hashes s !! key = Some a -> h_status a <> ended -> h_end_time a <= t ->
  finalize_auction s key t
  = (if (0 <? default 0 (h_total_bids a)) && bool_decide (is_Some (h_highest_bidder_id a))
     then FIN_FINALIZED (h_id a) (h_highest_bidder_id a) (h_current_bid a)
            (default 0 (h_total_bids a)) (h_end_time a) (h_starting_price a)
     else FIN_NO_BIDS (h_id a) (default 0 (h_total_bids a)) (h_starting_price a),
     EXPIREAT (ZREM_active (HSET s key (set_status ended)) (h_id a)) key (t + 86400)).
Proof.
  intros Ha Hst Hend. unfold finalize_auction, HGETALL. rewrite Ha.
  destruct (h_status a); cbn [status_eqb]; try contradiction (Hst eq_refl);
    (destruct (Z.ltb_spec t (h_end_time a)); [lia|]);
    destruct ((0 <? default 0 (h_total_bids a))
              && bool_decide (is_Some (h_highest_bidder_id a))); reflexivity.
Qed.

Lemma finalize_auction_due_record (s : Store N) key (a : AuctionHash N) t :
  hashes s !! key = Some a ->
  hashes (EXPIREAT (ZREM_active (HSET s key (set_status ended)) (h_id a)) key (t + 86400))
    !! key
  = Some (mkAuctionHash (h_id a) (h_title a) (h_seller_id a) (h_starting_price a)
            (h_current_bid a) (h_bid_increment a) (h_highest_bidder_id a)
            (h_total_bids a) (h_start_time a) (h_end_time a) (h_original_end_time a)
            ended).
Proof.
  intros Ha. rewrite hashes_EXPIREAT. unfold ZREM_active, HSET. cbn.
  rewrite (alter_lookup _ _ _ _ Ha). apply lookup_insert_eq.
Qed.

(** On a record that is ended the worker completes without any change. *)
Lemma processAuctionFinalization_ended (sys : System N) now auctionId (a : AuctionHash N) :
  hashes (redis sys) !! auction_key auctionId = Some a -> h_status a = ended ->
  processAuctionFinalization sys now auctionId = (Completed (already_finalized auctionId), sys).
Proof.
  intros Ha Hst. unfold processAuctionFinalization, luaScripts_finalizeAuction,
    finalize_auction, HGETALL.
  rewrite Ha, Hst. cbn [status_eqb]. rewrite with_redis_same. reflexivity.
Qed.

(** The worker changes the hot store only through the script. *)
Lemma processAuctionFinalization_redis (sys : System N) now auctionId :
  redis (snd (processAuctionFinalization sys now auctionId))
  = snd (finalize_auction (redis sys) (auction_key auctionId) (now / 1000)).
Proof.
  unfold processAuctionFinalization, luaScripts_finalizeAuction.
  destruct (finalize_auction (redis sys) (auction_key auctionId) (now / 1000)) as [r s'].
  cbn [snd]. destruct r; cbn [with_redis postgres];
    repeat match goal with
           | |- context [AuctionRepository.findById ?d ?i] =>
               destruct (AuctionRepository.findById d i)
           | |- context [status_eqb ?x ?y] => destruct (status_eqb x y)
           | |- context [AuctionRepository.update ?d ?i ?u] =>
               destruct (AuctionRepository.update d i u) as [[?|?] ?]
           end; reflexivity.
Qed.

(** [UPDATE auctions ... WHERE id] on a row that exists, with values in the
    range of their columns, that passes the checks and the foreign key when
    updated. *)
Lemma update_ok (db : ColdStore N) auctionId (u u' : Updates N) (r : AuctionRow N) :
  no_updates u = false -> AuctionRepository.stored_updates u = Some u' ->
  auctions db !! auctionId = Some r ->
  auction_checks (apply_updates u' r) = true ->
  AuctionRepository.bidder_reference_ok db (r_highest_bidder_id r)
    (r_highest_bidder_id (apply_updates u' r)) = true ->
  AuctionRepository.update db auctionId u
  = (DbOk (Some (apply_updates u' r)),
     mkColdStore (users db) (<[auctionId := apply_updates u' r]> (auctions db)) (bids db)
       (next_uuid db)).
Proof.
  intros Hu Hs Hr Hc Hfk. unfold AuctionRepository.update.
  rewrite Hu, Hs, Hr, Hc, Hfk. reflexivity.
Qed.

(** A bidder that is kept satisfies the foreign key. *)
Lemma bidder_reference_kept (db : ColdStore N) (b : option string) :
  AuctionRepository.bidder_reference_ok db b b = true.
Proof.
  unfold AuctionRepository.bidder_reference_ok. destruct b as [b|]; [|reflexivity].
  rewrite (bool_decide_eq_true_2 (Some b = Some b) eq_refl). reflexivity.
Qed.

(** A run of the worker on a record that is due and has a winner, with a
    cold row that admits the final values. *)
Lemma processAuctionFinalization_winner (sys : System N) (now : Z)
    (auctionId winner : string) (a : AuctionHash N) (r : AuctionRow N) (bid stored : N) :
  hashes (redis sys) !! auction_key auctionId = Some a -> h_status a <> ended ->
  h_end_time a <= now / 1000 ->
  0 < default 0 (h_total_bids a) -> h_highest_bidder_id a = Some winner -> winner <> "" ->
  h_current_bid a = Some bid ->
  auctions (postgres sys) !! auctionId = Some r -> auction_checks r = true ->
  numeric_12_2 bid = Some stored -> num_le num_zero stored = true ->
  int4 (default 0 (h_total_bids a)) = true ->
  winner ∈ users (postgres sys) -> r_seller_id r <> winner ->
  processAuctionFinalization sys now auctionId
  = (Completed (finalized auctionId (Some winner) (Some bid) (default 0 (h_total_bids a))
                  true),
     broadcastAuctionEnded
       (with_postgres
          (with_redis sys
             (EXPIREAT (ZREM_active (HSET (redis sys) (auction_key auctionId)
                                       (set_status ended)) (h_id a))
                (auction_key auctionId) (now / 1000 + 86400)))
          (mkColdStore (users (postgres sys))
             (<[auctionId :=
                  mkAuctionRow (r_id r) (r_seller_id r) (r_title r) (r_starting_price r)
                    (Some stored) (r_bid_increment r) (Some winner)
                    (default 0 (h_total_bids a)) (r_start_time r) (r_end_time r)
                    (r_original_end_time r) ended]> (auctions (postgres sys)))
             (bids (postgres sys)) (next_uuid (postgres sys))))
       auctionId (Some winner) (Some bid) (default 0 (h_total_bids a))
       (h_end_time a * 1000)).
Proof.
  intros Ha Hst Hend Htotal Hw Hwne Hbid Hr Hchk Hnum Hpos Hint Huser Hseller.
  unfold processAuctionFinalization, luaScripts_finalizeAuction.
  rewrite (finalize_auction_due _ _ _ _ Ha Hst Hend), Hw, Hbid.
  destruct (Z.ltb_spec 0 (default 0 (h_total_bids a))); [|lia].
  rewrite (bool_decide_eq_true_2 (is_Some (Some winner))) by eauto.
  cbn [andb with_redis postgres or_null].
  destruct (String.eqb_spec winner ""); [contradiction|].
  rewrite (update_ok _ _ _
             (mkUpdates (Some (Some stored)) (Some (Some winner))
                (Some (default 0 (h_total_bids a))) (Some ended)) r).
  - reflexivity.
  - reflexivity.
  - unfold AuctionRepository.stored_updates.
    cbn [u_current_bid u_total_bids u_highest_bidder_id u_status].
    rewrite Hnum, Hint. reflexivity.
  - exact Hr.
  - unfold auction_checks in Hchk |- *. cbn.
    apply andb_prop in Hchk as [Hchk _]. apply andb_prop in Hchk as [_ Htime].
    rewrite Hpos, Htime. cbn.
    destruct (String.eqb_spec (r_seller_id r) winner); [contradiction|reflexivity].
  - cbn. unfold AuctionRepository.bidder_reference_ok.
    rewrite (bool_decide_eq_true_2 _ Huser). apply orb_true_r.
Qed.

End FinalizerFacts.

(** X20.  Finalization is not repeated.  Once a run of the finalizer worker
    has reached an auction record that was due (whatever that run returned
    or threw afterwards), the record has status ended, its other fields
    being as before, and has left the active index, and every further run on
    it completes with already_finalized and changes nothing: no row is
    updated, nothing is published. *)
Theorem finalization_runs_once (N : Type) (L : LuaNumber N) (P : PgNumeric N)
    (sys : System N) (now : Z) (auctionId : string) (a : AuctionHash N) :
  hashes (redis sys) !! auction_key auctionId = Some a -> h_status a <> ended ->
  h_end_time a <= now / 1000 ->
  hashes (redis (snd (processAuctionFinalization sys now auctionId))) !! auction_key auctionId
  = Some (mkAuctionHash (h_id a) (h_title a) (h_seller_id a) (h_starting_price a)
            (h_current_bid a) (h_bid_increment a) (h_highest_bidder_id a)
            (h_total_bids a) (h_start_time a) (h_end_time a) (h_original_end_time a)
            ended)
  /\ active_index (redis (snd (processAuctionFinalization sys now auctionId))) !! h_id a
     = None
  /\ forall now',
       processAuctionFinalization (snd (processAuctionFinalization sys now auctionId)) now'
         auctionId
       = (Completed (already_finalized auctionId),
          snd (processAuctionFinalization sys now auctionId)).
Proof.
  intros Ha Hst Hend.
  assert (Hrec : hashes (redis (snd (processAuctionFinalization sys now auctionId)))
                   !! auction_key auctionId
                 = Some (mkAuctionHash (h_id a) (h_title a) (h_seller_id a)
                           (h_starting_price a) (h_current_bid a) (h_bid_increment a)
                           (h_highest_bidder_id a) (h_total_bids a) (h_start_time a)
                           (h_end_time a) (h_original_end_time a) ended)).
  { rewrite processAuctionFinalization_redis,
      (finalize_auction_due _ _ _ _ Ha Hst Hend). cbn [snd].
    apply finalize_auction_due_record. exact Ha. }
  split; [exact Hrec|]. split.
  - rewrite processAuctionFinalization_redis,
      (finalize_auction_due _ _ _ _ Ha Hst Hend). cbn [snd].
    rewrite active_index_EXPIREAT. unfold ZREM_active. cbn. apply lookup_delete_eq.
  - intros now'. apply (processAuctionFinalization_ended _ _ _ _ Hrec). reflexivity.
Qed.

Lemma finalization_runs_once_witness :
  hashes (redis (snd (processAuctionFinalization (N := Z) systemA1 clockAfter "A")))
    !! auction_key "A"
  = Some (mkAuctionHash "A" "Vintage Watch" "seller" 10000 (Some 10000) (Some 500)
            (Some "U1") (Some 1) 0 1000 1000 ended)
  /\ active_index (redis (snd (processAuctionFinalization (N := Z) systemA1 clockAfter "A")))
       !! "A" = None
  /\ forall now',
       processAuctionFinalization
         (snd (processAuctionFinalization (N := Z) systemA1 clockAfter "A")) now' "A"
       = (Completed (already_finalized "A"),
          snd (processAuctionFinalization (N := Z) systemA1 clockAfter "A")).
Proof.
  apply (finalization_runs_once Z Cents Cents_numeric systemA1 clockAfter "A"
           (mkAuctionHash "A" "Vintage Watch" "seller" 10000 (Some 10000) (Some 500)
              (Some "U1") (Some 1) 0 1000 1000 active)); [reflexivity|discriminate|].
  vm_compute. discriminate.
Defined.

(** X21.  Finalization with a winner.  For a record that is due, has bids
    and a highest bidder, and a cold row that admits the final values (the
    winning bid is in the range of its column and not negative as stored,
    the count is in the range of its column, the winner is a user and not
    the seller), one run completes with finalized: the cold row gets status
    ended, the winning bid as the column stores it, the winner and the bid
    count of the hot record, its other columns being as before; the hot
    record is ended, and exactly one auction:ended message is published,
    last, with the winner, the winning bid, the count and the record's end
    time in milliseconds. *)
Theorem finalization_with_winner (N : Type) (L : LuaNumber N) (P : PgNumeric N)
    (sys : System N) (now : Z) (auctionId winner : string) (a : AuctionHash N)
    (r : AuctionRow N) (bid stored : N) :
  hashes (redis sys) !! auction_key auctionId = Some a -> h_status a <> ended ->
  h_end_time a <= now / 1000 ->
  0 < default 0 (h_total_bids a) -> h_highest_bidder_id a = Some winner -> winner <> "" ->
  h_current_bid a = Some bid ->
  auctions (postgres sys) !! auctionId = Some r -> auction_checks r = true ->
  numeric_12_2 bid = Some stored -> num_le num_zero stored = true ->
  int4 (default 0 (h_total_bids a)) = true ->
  winner ∈ users (postgres sys) -> r_seller_id r <> winner ->
  fst (processAuctionFinalization sys now auctionId)
  = Completed (finalized auctionId (Some winner) (Some bid) (default 0 (h_total_bids a)) true)
  /\ auctions (postgres (snd (processAuctionFinalization sys now auctionId))) !! auctionId
     = Some (mkAuctionRow (r_id r) (r_seller_id r) (r_title r) (r_starting_price r)
               (Some stored) (r_bid_increment r) (Some winner)
               (default 0 (h_total_bids a)) (r_start_time r) (r_end_time r)
               (r_original_end_time r) ended)
  /\ (h_status <$> hashes (redis (snd (processAuctionFinalization sys now auctionId)))
                     !! auction_key auctionId) = Some ended
  /\ effects (snd (processAuctionFinalization sys now auctionId))
     = effects sys
       ++ [Publish_auction_ended auctionId (Some winner) (Some bid)
             (default 0 (h_total_bids a)) (h_end_time a * 1000)].
Proof.
  intros Ha Hst Hend Htotal Hw Hwne Hbid Hr Hchk Hnum Hpos Hint Huser Hseller.
  rewrite (processAuctionFinalization_winner sys now auctionId winner a r bid stored
             Ha Hst Hend Htotal Hw Hwne Hbid Hr Hchk Hnum Hpos Hint Huser Hseller).
  cbn [fst snd broadcastAuctionEnded emit_effect with_postgres with_redis postgres redis
       effects auctions].
  split; [reflexivity|]. split; [apply lookup_insert_eq|]. split; [|reflexivity].
  rewrite (finalize_auction_due_record _ _ _ _ Ha). reflexivity.
Qed.

Lemma finalization_with_winner_witness :
  fst (processAuctionFinalization (N := Z) systemA1 clockAfter "A")
  = Completed (finalized "A" (Some "U1") (Some 10000) 1 true)
  /\ auctions (postgres (snd (processAuctionFinalization (N := Z) systemA1 clockAfter "A")))
       !! "A"
     = Some (mkAuctionRow "A" "seller" "Vintage Watch" 10000 (Some 10000) 500 (Some "U1") 1
               0 1000000 1000000 ended)
  /\ (h_status <$> hashes (redis (snd (processAuctionFinalization (N := Z) systemA1
                                        clockAfter "A"))) !! auction_key "A") = Some ended
  /\ effects (snd (processAuctionFinalization (N := Z) systemA1 clockAfter "A"))
     = effects systemA1 ++ [Publish_auction_ended "A" (Some "U1") (Some 10000) 1 1000000].
Proof.
  assert (Huser : "U1" ∈ users (postgres (systemA1 (N := Z))))
    by (vm_compute; set_solver).
  refine (finalization_with_winner Z Cents Cents_numeric systemA1 clockAfter "A" "U1"
            (mkAuctionHash "A" "Vintage Watch" "seller" 10000 (Some 10000) (Some 500)
               (Some "U1") (Some 1) 0 1000 1000 active)
            rowA 10000 10000 _ _ _ _ _ _ _ _ _ _ _ _ Huser _);
    try reflexivity; discriminate.
Defined.

(** X22.  An auction that ends without bids is never announced.  For a
    record that is due and has no bids, the run sets the status of the hot
    record to ended, writes the cold row (status ended, current bid and
    highest bidder NULL, the count of the record) and then throws while
    building the publication, because the script's reply for an auction
    without bids carries no end_time: the job fails and no auction:ended
    message is published. *)
Theorem finalization_without_bids_publishes_nothing (N : Type) (L : LuaNumber N)
    (P : PgNumeric N) (sys : System N) (now : Z) (auctionId : string) (a : AuctionHash N)
    (r : AuctionRow N) :
  hashes (redis sys) !! auction_key auctionId = Some a -> h_status a <> ended ->
  h_end_time a <= now / 1000 ->
  default 0 (h_total_bids a) <= 0 -> int4 (default 0 (h_total_bids a)) = true ->
  auctions (postgres sys) !! auctionId = Some r -> auction_checks r = true ->
  fst (processAuctionFinalization sys now auctionId) = Thrown "RangeError"
  /\ hashes (redis (snd (processAuctionFinalization sys now auctionId)))
       !! auction_key auctionId
     = Some (mkAuctionHash (h_id a) (h_title a) (h_seller_id a) (h_starting_price a)
               (h_current_bid a) (h_bid_increment a) (h_highest_bidder_id a)
               (h_total_bids a) (h_start_time a) (h_end_time a) (h_original_end_time a)
               ended)
  /\ auctions (postgres (snd (processAuctionFinalization sys now auctionId))) !! auctionId
     = Some (mkAuctionRow (r_id r) (r_seller_id r) (r_title r) (r_starting_price r)
               None (r_bid_increment r) None (default 0 (h_total_bids a))
               (r_start_time r) (r_end_time r) (r_original_end_time r) ended)
  /\ effects (snd (processAuctionFinalization sys now auctionId)) = effects sys.
Proof.
  intros Ha Hst Hend Htotal Hint Hr Hchk.
  split; [|split; [rewrite processAuctionFinalization_redis,
                     (finalize_auction_due _ _ _ _ Ha Hst Hend);
                   apply finalize_auction_due_record; exact Ha|]];
    unfold processAuctionFinalization, luaScripts_finalizeAuction;
    rewrite (finalize_auction_due _ _ _ _ Ha Hst Hend);
    (destruct (Z.ltb_spec 0 (default 0 (h_total_bids a))); [lia|]);
    cbn [andb with_redis postgres];
    (rewrite (update_ok _ _ _
                (mkUpdates (Some None) (Some None) (Some (default 0 (h_total_bids a)))
                   (Some ended)) r);
     [ | reflexivity
       | unfold AuctionRepository.stored_updates;
         cbn [u_current_bid u_total_bids u_highest_bidder_id u_status];
         rewrite Hint; reflexivity
       | exact Hr
       | unfold auction_checks in Hchk |- *; cbn;
         apply andb_prop in Hchk as [Hchk _]; apply andb_prop in Hchk as [_ Htime];
         rewrite Htime; reflexivity
       | reflexivity ]).
  - reflexivity.
  - cbn [fst snd with_postgres postgres effects auctions]. split; [|reflexivity].
    apply lookup_insert_eq.
Qed.

Lemma finalization_without_bids_publishes_nothing_witness :
  fst (processAuctionFinalization (N := Z) systemB clockAfter "B") = Thrown "RangeError"
  /\ hashes (redis (snd (processAuctionFinalization (N := Z) systemB clockAfter "B")))
       !! auction_key "B"
     = Some (mkAuctionHash "B" "Old Lamp" "seller" 2000 (Some 0) (Some 100) (Some "")
               (Some 0) 0 1000 1000 ended)
  /\ auctions (postgres (snd (processAuctionFinalization (N := Z) systemB clockAfter "B")))
       !! "B"
     = Some (mkAuctionRow "B" "seller" "Old Lamp" 2000 None 100 None 0
               0 1000000 1000000 ended)
  /\ effects (snd (processAuctionFinalization (N := Z) systemB clockAfter "B"))
     = effects systemB.
Proof.
  refine (finalization_without_bids_publishes_nothing Z Cents Cents_numeric systemB
            clockAfter "B"
            (mkAuctionHash "B" "Old Lamp" "seller" 2000 (Some 0) (Some 100) (Some "")
               (Some 0) 0 1000 1000 active) rowB _ _ _ _ _ _ _);
    try reflexivity; discriminate.
Defined.

(** X23.  A finalization job that runs before the end time of an active
    record (as the job scheduled at loading does once the auction has been
    extended) throws [Auction not ended yet] and changes nothing in either
    store; nothing is published. *)
Theorem finalization_too_early_throws (N : Type) (L : LuaNumber N) (P : PgNumeric N)
    (sys : System N) (now : Z) (auctionId : string) (a : AuctionHash N) :
  hashes (redis sys) !! auction_key auctionId = Some a -> h_status a <> ended ->
  now / 1000 < h_end_time a ->
  processAuctionFinalization sys now auctionId = (Thrown "Auction not ended yet", sys).
Proof.
  intros Ha Hst Hearly.
  unfold processAuctionFinalization, luaScripts_finalizeAuction, finalize_auction, HGETALL.
  rewrite Ha.
  destruct (h_status a); cbn [status_eqb]; try contradiction (Hst eq_refl);
    (destruct (Z.ltb_spec (now / 1000) (h_end_time a)); [|lia]);
    rewrite with_redis_same; reflexivity.
Qed.

Lemma finalization_too_early_throws_witness :
  processAuctionFinalization (N := Z)
    (snd (placeBid (N := Z) systemA clockLate "A" "U1" (Some "alice") 10000 None None))
    clockAfter "A"
  = (Thrown "Auction not ended yet",
     snd (placeBid (N := Z) systemA clockLate "A" "U1" (Some "alice") 10000 None None)).
Proof.
  apply (finalization_too_early_throws Z Cents Cents_numeric
           (snd (placeBid (N := Z) systemA clockLate "A" "U1" (Some "alice") 10000 None
                   None))
           clockAfter "A"
           (mkAuctionHash "A" "Vintage Watch" "seller" 10000 (Some 10000) (Some 500)
              (Some "U1") (Some 1) 0 1030 1000 active));
    [reflexivity|discriminate|reflexivity].
Defined.

(** X24.  The fallback for an auction that has no record in the hot store:
    an active cold row gets status ended (its bid, bidder, count and end
    time stay) and one auction:ended message with the row's values is
    published; a row that is not active, or no row, changes nothing and
    publishes nothing.  The job completes with not_found_in_redis in each
    case and the hot store is untouched. *)
Theorem finalization_fallback_to_cold_store (N : Type) (L : LuaNumber N) (P : PgNumeric N)
    (sys : System N) (now : Z) (auctionId : string) :
  hashes (redis sys) !! auction_key auctionId = None ->
  (forall r, auctions (postgres sys) !! auctionId = Some r -> auction_checks r = true) ->
  fst (processAuctionFinalization sys now auctionId)
  = Completed (not_found_in_redis auctionId)
  /\ redis (snd (processAuctionFinalization sys now auctionId)) = redis sys
  /\ match auctions (postgres sys) !! auctionId with
     | Some r =>
         if status_eqb (r_status r) active then
           auctions (postgres (snd (processAuctionFinalization sys now auctionId)))
           = <[auctionId :=
                 mkAuctionRow (r_id r) (r_seller_id r) (r_title r) (r_starting_price r)
                   (r_current_bid r) (r_bid_increment r) (r_highest_bidder_id r)
                   (r_total_bids r) (r_start_time r) (r_end_time r)
                   (r_original_end_time r) ended]>
               (auctions (postgres sys))
           /\ effects (snd (processAuctionFinalization sys now auctionId))
              = effects sys
                ++ [Publish_auction_ended auctionId (r_highest_bidder_id r)
                      (r_current_bid r) (r_total_bids r) (r_end_time r)]
         else snd (processAuctionFinalization sys now auctionId) = sys
     | None => snd (processAuctionFinalization sys now auctionId) = sys
     end.
Proof.
  intros Hhot Hchk.
  unfold processAuctionFinalization, luaScripts_finalizeAuction, finalize_auction, HGETALL.
  rewrite Hhot. rewrite with_redis_same. unfold AuctionRepository.findById.
  destruct (auctions (postgres sys) !! auctionId) as [r|] eqn:Hr;
    [|repeat split].
  destruct (status_eqb (r_status r) active); [|repeat split].
  rewrite (update_ok _ _ _ (mkUpdates None None None (Some ended)) r);
    [|reflexivity|reflexivity|exact Hr| |apply bidder_reference_kept].
  - cbn. repeat split.
  - apply (Hchk r). reflexivity.
Qed.

Lemma finalization_fallback_to_cold_store_witness :
  fst (processAuctionFinalization (N := Z) systemE clockAfter "E")
  = Completed (not_found_in_redis "E")
  /\ redis (snd (processAuctionFinalization (N := Z) systemE clockAfter "E")) = redis systemE
  /\ auctions (postgres (snd (processAuctionFinalization (N := Z) systemE clockAfter "E")))
     = <["E" := mkAuctionRow "E" "seller" "Old Map" 10000 None 500 None 0
                  0 1000000 1000000 ended]> (auctions (postgres systemE))
  /\ effects (snd (processAuctionFinalization (N := Z) systemE clockAfter "E"))
     = effects systemE ++ [Publish_auction_ended "E" None None 0 1000000].
Proof.
  assert (Hhot : hashes (redis (systemE (N := Z))) !! auction_key "E" = None)
    by reflexivity.
  assert (Hchk : forall r, auctions (postgres (systemE (N := Z))) !! "E" = Some r ->
                           auction_checks r = true).
  { intros r Hr. vm_compute in Hr. injection Hr as <-. reflexivity. }
  destruct (finalization_fallback_to_cold_store Z Cents Cents_numeric systemE clockAfter "E"
              Hhot Hchk) as (Hfst & Hredis & Hrow).
  split; [exact Hfst|]. split; [exact Hredis|]. exact Hrow.
Defined.

(* ===================================================================== *)
(** * Further properties: listing, rooms *)
(* ===================================================================== *)

(** X26.  The pagination of [getAuctions], for a page of at most 10^13 and
    a count between 0 and 10^13: the page is at least 1 and the limit
    between 1 and 100 whatever was asked; the offset is not negative and is
    the number of rows on the pages before; totalPages is the least number
    of pages of that limit that hold all rows; hasNext holds exactly when
    the page is before the last one, which is when rows remain after
    offset + limit; hasPrev holds exactly when the page is not the first. *)
Theorem pagination_sound (page limit total : Z) :
  page <= 10 ^ 13 -> 0 <= total <= 10 ^ 13 ->
  1 <= pg_page (pagination page limit total) <= Z.max 1 page
  /\ (1 <= page -> pg_page (pagination page limit total) = page)
  /\ 1 <= pg_limit (pagination page limit total) <= 100
  /\ (1 <= limit <= 100 -> pg_limit (pagination page limit total) = limit)
  /\ pg_total (pagination page limit total) = total
  /\ 0 <= page_offset page limit < 2 ^ 53
  /\ (pg_page (pagination page limit total) = 1 -> page_offset page limit = 0)
  /\ page_offset (page + 1) limit
     = page_offset page limit
       + (if 1 <=? page then pg_limit (pagination page limit total) else 0)
  /\ (pg_totalPages (pagination page limit total) - 1) * pg_limit (pagination page limit total)
     < total
     <= pg_totalPages (pagination page limit total) * pg_limit (pagination page limit total)
  /\ (pg_hasNext (pagination page limit total) = true
      <-> pg_page (pagination page limit total) < pg_totalPages (pagination page limit total))
  /\ (pg_hasNext (pagination page limit total) = true
      <-> page_offset page limit + pg_limit (pagination page limit total) < total)
  /\ (pg_hasPrev (pagination page limit total) = true
      <-> 1 < pg_page (pagination page limit total)).
Proof.
  intros Hpage Htotal. unfold pagination, page_offset, ceil_div.
  cbn [pg_page pg_limit pg_total pg_totalPages pg_hasNext pg_hasPrev].
  assert (H13 : 10 ^ 13 = 10000000000000) by reflexivity.
  assert (H53 : 2 ^ 53 = 9007199254740992) by reflexivity.
  rewrite H13 in *. rewrite H53.
  set (l := Z.min 100 (Z.max 1 limit)).
  assert (Hl : 1 <= l <= 100) by (unfold l; lia).
  assert (Hl' : 1 <= limit <= 100 -> l = limit) by (unfold l; lia).
  pose proof (Z.div_mod (- total) l ltac:(lia)) as Hdm.
  pose proof (Z.mod_pos_bound (- total) l ltac:(lia)) as Hmod.
  set (q := - total / l) in *.
  rewrite Z.ltb_lt, Z.ltb_lt.
  destruct (Z.leb_spec 1 page) as [Hp|Hp].
  - replace (Z.max 1 page) with page by lia.
    replace (Z.max 1 (page + 1)) with (page + 1) by lia.
    repeat split; try lia; try nia.
  - replace (Z.max 1 page) with 1 by lia.
    replace (Z.max 1 (page + 1)) with 1 by lia.
    repeat split; try lia; try nia.
Qed.

Lemma pagination_sound_witness :
  pagination 0 500 250 = mkPagination 1 100 250 3 true false
  /\ page_offset 0 500 = 0
  /\ pagination 3 100 250 = mkPagination 3 100 250 3 false true
  /\ page_offset 3 100 = 200
  /\ 1 <= pg_page (pagination 3 100 250) <= Z.max 1 3.
Proof.
  assert (Hpage : 3 <= 10 ^ 13) by (vm_compute; discriminate).
  assert (Htotal : 0 <= 250 <= 10 ^ 13) by (split; vm_compute; discriminate).
  destruct (pagination_sound 3 100 250 Hpage Htotal) as (Hp & _).
  repeat split; try reflexivity; apply Hp.
Defined.

(** X28.  Joining and leaving a room.  A socket that joins the room of an
    auction it is not in is confirmed [auction:joined], and the others in
    the room are told a viewer count that includes it (one more than
    before); when it then leaves, it is confirmed [auction:left], the others
    are told the count as it was before the join, and the room has its
    former members again.  Neither event is sent to the whole room
    including the sender. *)
Theorem join_then_leave_restores_room (N : Type) (gw : GatewayState) (socket : Socket)
    (a : string) :
  a <> "" -> socket_id socket ∉ default ∅ (rooms gw !! auction_key a) ->
  snd (on_auction_join (N := N) gw socket (Some a))
  = [(ToSocket (socket_id socket), M_auction_joined a);
     (ToRoomExcept (auction_key a) (socket_id socket),
      M_auction_viewer_joined a (S (viewerCount gw (auction_key a))))]
  /\ socket_id socket
       ∈ default ∅ (rooms (fst (on_auction_join (N := N) gw socket (Some a)))
                       !! auction_key a)
  /\ snd (on_auction_leave (N := N) (fst (on_auction_join (N := N) gw socket (Some a)))
            (set_joined socket ({[a]} ∪ joinedAuctions socket)) (Some a))
     = [(ToSocket (socket_id socket), M_auction_left a);
        (ToRoomExcept (auction_key a) (socket_id socket),
         M_auction_viewer_left a (viewerCount gw (auction_key a)))]
  /\ rooms (fst (on_auction_leave (N := N)
                   (fst (on_auction_join (N := N) gw socket (Some a)))
                   (set_joined socket ({[a]} ∪ joinedAuctions socket)) (Some a)))
       !! auction_key a
     = Some (default ∅ (rooms gw !! auction_key a)).
Proof.
  intros Ha Hout. unfold on_auction_join, on_auction_leave, falsy, viewerCount.
  destruct (String.eqb_spec a ""); [contradiction|].
  remember (default ∅ (rooms gw !! auction_key a)) as members eqn:Hm. clear Hm Ha.
  assert (Hback : ({[socket_id socket]} ∪ members) ∖ {[socket_id socket]} = members).
  { apply set_eq. intros x. rewrite elem_of_difference, elem_of_union, elem_of_singleton.
    split.
    - intros [[->|Hx] Hne]; [contradiction Hne; reflexivity|exact Hx].
    - intros Hx. split; [right; exact Hx|]. intros ->. contradiction. }
  assert (Hsize : size ({[socket_id socket]} ∪ members) = S (size members)).
  { rewrite size_union by (apply disjoint_singleton_l; exact Hout).
    rewrite size_singleton. reflexivity. }
  cbn [fst snd rooms sockets set_joined socket_id joinedAuctions].
  rewrite !lookup_insert_eq. cbn [default from_option]. unfold id.
  rewrite Hback, Hsize.
  split; [reflexivity|]. split; [|split; reflexivity].
  apply elem_of_union_l, elem_of_singleton. reflexivity.
Qed.

Lemma join_then_leave_restores_room_witness :
  snd (on_auction_join (N := Z) gatewayEmpty socketU1 (Some "A"))
  = [(ToSocket (socket_id socketU1), M_auction_joined "A");
     (ToRoomExcept (auction_key "A") (socket_id socketU1),
      M_auction_viewer_joined "A" (S (viewerCount gatewayEmpty (auction_key "A"))))]
  /\ socket_id socketU1
       ∈ default ∅ (rooms (fst (on_auction_join (N := Z) gatewayEmpty socketU1 (Some "A")))
                       !! auction_key "A")
  /\ snd (on_auction_leave (N := Z)
            (fst (on_auction_join (N := Z) gatewayEmpty socketU1 (Some "A")))
            (set_joined socketU1 ({["A"]} ∪ joinedAuctions socketU1)) (Some "A"))
     = [(ToSocket (socket_id socketU1), M_auction_left "A");
        (ToRoomExcept (auction_key "A") (socket_id socketU1),
         M_auction_viewer_left "A" (viewerCount gatewayEmpty (auction_key "A")))]
  /\ rooms (fst (on_auction_leave (N := Z)
                   (fst (on_auction_join (N := Z) gatewayEmpty socketU1 (Some "A")))
                   (set_joined socketU1 ({["A"]} ∪ joinedAuctions socketU1)) (Some "A")))
       !! auction_key "A"
     = Some (default ∅ (rooms gatewayEmpty !! auction_key "A")).
Proof.
  apply (join_then_leave_restores_room Z gatewayEmpty socketU1 "A"); [discriminate|].
  vm_compute. set_solver.
Defined.

(** X29.  The handshake.  A connection is accepted exactly when it presents
    a non-empty token that [jwt.verify] accepts; a refused handshake leaves
    the gateway as it was, and an accepted one registers the socket with the
    user id and name decoded from the token and no joined auction, touches
    no room and sends nothing. *)
Theorem connect_requires_verified_token (N : Type)
    (jwt_verify : string -> option (string * string)) (gw : GatewayState)
    (socketId : string) (token : option string) :
  match snd (connect (N := N) jwt_verify gw socketId token) with
  | inl err =>
      fst (connect (N := N) jwt_verify gw socketId token) = gw
      /\ (token = None \/ token = Some "" \/ exists t, token = Some t /\ jwt_verify t = None)
  | inr out =>
      out = []
      /\ rooms (fst (connect (N := N) jwt_verify gw socketId token)) = rooms gw
      /\ exists t uid uname,
           token = Some t /\ t <> "" /\ jwt_verify t = Some (uid, uname)
           /\ sockets (fst (connect (N := N) jwt_verify gw socketId token)) !! socketId
              = Some (mkSocket socketId uid uname ∅)
  end.
Proof.
  unfold connect, authenticate.
  destruct token as [t|]; [|cbn; auto].
  destruct (String.eqb_spec t "") as [->|Ht]; [cbn; auto|].
  destruct (jwt_verify t) as [[uid uname]|] eqn:Hv; cbn.
  - split; [reflexivity|]. split; [reflexivity|].
    exists t, uid, uname. rewrite lookup_insert_eq. auto.
  - split; [reflexivity|]. right. right. exists t. auto.
Qed.
